(** * Movie database client: data access layer and session state

    A shallow embedding of the client's HTTP wrapper (services/api-client.ts),
    the auth session (contexts/auth-context.tsx), the zod schemas
    (services/types.ts, people-service, genre-service), the resource services,
    the movie search query builder and the home screen's page accumulation,
    with the properties the specification states about them. *)

From stdpp Require Import gmap strings list pretty.

Open Scope Z_scope.
Set Warnings "-register-all".

(** ** JavaScript values

    JSON bodies, storage payloads and untyped response fields.  Numbers are
    the integers the API exchanges (identifiers, counts, page indices, years);
    fractional numbers and NaN are outside the model. *)
Module Js.

Inductive JsVal : Type :=
| JUndefined
| JNull
| JBool (b : bool)
| JNum (n : Z)
| JStr (s : string)
| JArr (elems : list JsVal)
| JObj (fields : list (string * JsVal)).

(** ToBoolean: the test of [if (v)], [v || d] and [!!v]. *)
Definition truthy (v : JsVal) : bool :=
  match v with
  | JUndefined | JNull => false
  | JBool b => b
  | JNum n => negb (n =? 0)
  | JStr s => negb (String.eqb s "")
  | JArr _ | JObj _ => true
  end.

(** [a || b] *)
Definition or_else (a b : JsVal) : JsVal := if truthy a then a else b.

(** Own property of an object literal; the first binding of a key wins. *)
Fixpoint assoc (k : string) (fs : list (string * JsVal)) : JsVal :=
  match fs with
  | [] => JUndefined
  | (k', v) :: fs' => if String.eqb k k' then v else assoc k fs'
  end.

(** [k in obj] *)
Fixpoint has_key (k : string) (fs : list (string * JsVal)) : bool :=
  match fs with
  | [] => false
  | (k', _) :: fs' => if String.eqb k k' then true else has_key k fs'
  end.

(** [v.k] for the data keys the client reads (none of them is a built-in
    property of strings, numbers or arrays).  [None] is the TypeError raised
    by reading a property of [null] or [undefined]. *)
Definition prop (v : JsVal) (k : string) : option JsVal :=
  match v with
  | JUndefined | JNull => None
  | JObj fs => Some (assoc k fs)
  | _ => Some JUndefined
  end.

(** [v?.k] *)
Definition opt_prop (v : JsVal) (k : string) : JsVal :=
  match prop v k with
  | Some x => x
  | None => JUndefined
  end.

(** [String(n)] and [n.toString()] for an integer. *)
Definition String_of_number (n : Z) : string := pretty n.

End Js.
Import Js.

(** ** constants/api.ts *)
Module Api.

Definition API_BASE_URL : string := "http://192.168.0.41:5036".
Definition API_VERSION : string := "v1".

Definition LOGIN : string := "/api/" +:+ API_VERSION +:+ "/auth/login".
Definition REGISTER : string := "/api/" +:+ API_VERSION +:+ "/auth/register".
Definition MOVIES : string := "/api/" +:+ API_VERSION +:+ "/movies".
Definition GENRES : string := "/api/" +:+ API_VERSION +:+ "/genres".
Definition POPULAR_GENRES : string :=
  "/api/" +:+ API_VERSION +:+ "/movies/genre/popular".
Definition POPULAR_PEOPLE : string :=
  "/api/" +:+ API_VERSION +:+ "/movies/people/popular".
Definition PERSON_DETAILS (id : string) : string :=
  "/api/" +:+ API_VERSION +:+ "/movies/people/" +:+ id.
Definition SEARCH_PEOPLE : string :=
  "/api/" +:+ API_VERSION +:+ "/movies/people/search".
Definition ADMIN_PEOPLE : string := "/api/" +:+ API_VERSION +:+ "/admin/people".

Definition TOKEN_STORAGE_KEY : string := "movie_database_auth_token".

(** contexts/auth-context.tsx *)
Definition USER_DATA_KEY : string := "user_data".

End Api.
Import Api.

(** ** contexts/auth-context.tsx: the session state and its reducer *)
Module Session.

(** [{ username, role }]; the fields hold whatever the response carried. *)
Record User := {
  username : JsVal;
  role : JsVal;
}.

Record AuthState := {
  user : option User;            (* User | null *)
  isAuthenticated : bool;
  isLoading : bool;
  error : JsVal;                 (* string | null *)
}.

Inductive AuthAction :=
| LOGIN_REQUEST
| LOGIN_SUCCESS (payload : User)
| LOGIN_FAILURE (payload : JsVal)
| REGISTER_REQUEST
| REGISTER_SUCCESS (payload : User)
| REGISTER_FAILURE (payload : JsVal)
| LOGOUT
| CLEAR_ERROR.

Definition initialState : AuthState :=
  {| user := None;
     isAuthenticated := false;
     isLoading := true;
     error := JNull |}.

Definition authReducer (state : AuthState) (action : AuthAction) : AuthState :=
  match action with
  | LOGIN_REQUEST | REGISTER_REQUEST =>
      {| user := user state;
         isAuthenticated := isAuthenticated state;
         isLoading := true;
         error := JNull |}
  | LOGIN_SUCCESS payload | REGISTER_SUCCESS payload =>
      {| user := Some payload;
         isAuthenticated := true;
         isLoading := false;
         error := JNull |}
  | LOGIN_FAILURE payload | REGISTER_FAILURE payload =>
      {| user := None;
         isAuthenticated := false;
         isLoading := false;
         error := payload |}
  | LOGOUT =>
      {| user := None;
         isAuthenticated := false;
         isLoading := false;
         error := JNull |}
  | CLEAR_ERROR =>
      {| user := user state;
         isAuthenticated := isAuthenticated state;
         isLoading := isLoading state;
         error := JNull |}
  end.

(** The states the provider can be in: [useReducer(authReducer, initialState)]
    followed by any number of dispatches. *)
Inductive reachable : AuthState -> Prop :=
| reachable_initial : reachable initialState
| reachable_dispatch state action :
    reachable state -> reachable (authReducer state action).

Definition run (actions : list AuthAction) : AuthState :=
  foldl authReducer initialState actions.

End Session.
Import Session.

(** ** The device and the promises running on it *)
Module Http.

Inductive Method := GET | POST | PUT | DELETE.

(** What a caller hands to [apiClient.get/post/put/delete]: no call site in
    the repository passes headers of its own. *)
Record Call := {
  call_method : Method;
  call_url : string;
  call_params : list (string * JsVal);
  call_data : JsVal;
}.

(** The request configuration travelling through the interceptors. *)
Record RequestConfig := {
  baseURL : string;
  timeout : Z;
  method : Method;
  url : string;
  params : list (string * JsVal);
  data : JsVal;
  headers : gmap string string;
}.

Record Response := {
  status : Z;
  resp_data : JsVal;
  resp_config : RequestConfig;
}.

(** What the transport yields for a dispatched request: a reply with a
    status code and a body, or no reply at all (timeout, connection lost). *)
Inductive HttpOutcome :=
| HttpReply (st : Z) (body : JsVal)
| HttpNoReply (msg : string).

(** Values a promise rejects with. [Error v] is [new Error(v)]. *)
Inductive JsError :=
| Error (message : JsVal)
| TypeError
| AxiosError (message : string) (cfg : RequestConfig) (response : option Response)
| ZodError.

(** Observable effects, in the order they happen. *)
Inductive Event :=
| EvNetInfoFetch
| EvGetItem (key : string)
| EvSetItem (key value : string)
| EvRemoveItem (key : string)
| EvHttp (cfg : RequestConfig)
| EvDispatch (action : AuthAction)
| EvRouterReplace (path : string).

(** The device: persistent storage, connectivity, the network behind the
    adapter, the provider's reducer state, and the platform built-ins the
    model leaves abstract. *)
Record World := {
  storage : gmap string string;                (* AsyncStorage *)
  isConnected : option bool;                   (* NetInfo: boolean | null *)
  backend : RequestConfig -> HttpOutcome;
  auth : AuthState;                            (* useReducer state *)
  Platform_OS : string;
  JSON_stringify : JsVal -> string;
  URLSearchParams_encode : string -> string;
  trace : list Event;
}.

Definition log (e : Event) (w : World) : World :=
  {| storage := storage w; isConnected := isConnected w; backend := backend w;
     auth := auth w; Platform_OS := Platform_OS w;
     JSON_stringify := JSON_stringify w;
     URLSearchParams_encode := URLSearchParams_encode w;
     trace := trace w ++ [e] |}.

Definition set_storage (s : gmap string string) (w : World) : World :=
  {| storage := s; isConnected := isConnected w; backend := backend w;
     auth := auth w; Platform_OS := Platform_OS w;
     JSON_stringify := JSON_stringify w;
     URLSearchParams_encode := URLSearchParams_encode w;
     trace := trace w |}.

Definition set_auth (a : AuthState) (w : World) : World :=
  {| storage := storage w; isConnected := isConnected w; backend := backend w;
     auth := a; Platform_OS := Platform_OS w;
     JSON_stringify := JSON_stringify w;
     URLSearchParams_encode := URLSearchParams_encode w;
     trace := trace w |}.

Inductive Outcome (A : Type) :=
| Fulfilled (a : A)
| Rejected (e : JsError).
Arguments Fulfilled {A} a.
Arguments Rejected {A} e.

Definition Promise (A : Type) : Type := World -> Outcome A * World.

Definition resolve {A} (a : A) : Promise A := fun w => (Fulfilled a, w).
Definition reject {A} (e : JsError) : Promise A := fun w => (Rejected e, w).

(** [p.then(onFulfilled, onRejected)] *)
Definition then_ {A B} (p : Promise A)
    (onFulfilled : A -> Promise B) (onRejected : JsError -> Promise B)
    : Promise B :=
  fun w =>
    match p w with
    | (Fulfilled a, w') => onFulfilled a w'
    | (Rejected e, w') => onRejected e w'
    end.

(** [await p; k] inside an async function *)
Definition await {A B} (p : Promise A) (k : A -> Promise B) : Promise B :=
  then_ p k reject.

(** [try { body } catch (error) { handler }] *)
Definition try_catch {A} (body : Promise A) (handler : JsError -> Promise A)
    : Promise A :=
  then_ body resolve handler.

Notation "'let*' x ':=' p 'in' k" := (await p (fun x => k))
  (at level 100, x name, p at level 99, k at level 200, right associativity).
Notation "p ';;' k" := (await p (fun _ => k))
  (at level 100, k at level 200, right associativity).

(** *** AsyncStorage and NetInfo *)

Definition AsyncStorage_getItem (key : string) : Promise (option string) :=
  fun w => (Fulfilled (storage w !! key), log (EvGetItem key) w).

(** The store holds strings; the native module rejects any other value. *)
Definition AsyncStorage_setItem (key : string) (value : JsVal) : Promise unit :=
  fun w =>
    match value with
    | JStr s =>
        (Fulfilled tt, log (EvSetItem key s) (set_storage (<[key := s]> (storage w)) w))
    | _ => (Rejected (Error (JStr "AsyncStorage: value is not a string")), w)
    end.

Definition AsyncStorage_removeItem (key : string) : Promise unit :=
  fun w =>
    (Fulfilled tt, log (EvRemoveItem key) (set_storage (delete key (storage w)) w)).

Definition NetInfo_fetch : Promise (option bool) :=
  fun w => (Fulfilled (isConnected w), log EvNetInfoFetch w).

End Http.
Import Http.

(** ** services/api-client.ts *)
Module ApiClient.

(** [axios.create({ baseURL, headers, timeout })] *)
Definition default_headers (w : World) : gmap string string :=
  <["Content-Type" := "application/json"]>
    (<["Accept" := "application/json"]>
      (<["Platform" := Platform_OS w]> ∅)).

Definition mergeConfig (w : World) (c : Call) : RequestConfig :=
  {| baseURL := API_BASE_URL;
     timeout := 15000;
     method := call_method c;
     url := call_url c;
     params := call_params c;
     data := call_data c;
     headers := default_headers w |}.

Definition set_header (name value : string) (config : RequestConfig)
    : RequestConfig :=
  {| baseURL := baseURL config; timeout := timeout config;
     method := method config; url := url config; params := params config;
     data := data config;
     headers := <[name := value]> (headers config) |}.

(** [!netInfo.isConnected] is false only for [true]. *)
Definition connected (c : option bool) : bool :=
  match c with
  | Some true => true
  | _ => false
  end.

(** [if (token)] on the result of [getItem], a string or [null]: [null] and
    the empty string are falsy. *)
Definition token_truthy (token : option string) : bool :=
  match token with
  | Some t => negb (String.eqb t "")
  | None => false
  end.

Definition request_onFulfilled (config : RequestConfig) : Promise RequestConfig :=
  let* netInfo := NetInfo_fetch in
  if negb (connected netInfo) then
    reject (Error (JStr "No internet connection"))
  else
    let* token := AsyncStorage_getItem TOKEN_STORAGE_KEY in
    if token_truthy token then
      resolve (set_header "Authorization" ("Bearer " +:+ default "" token) config)
    else
      resolve config.

Definition request_onRejected (error : JsError) : Promise RequestConfig :=
  reject error.

(** Helper function to handle logout - only clears local storage. *)
Definition logout : Promise unit :=
  AsyncStorage_removeItem TOKEN_STORAGE_KEY.

Definition error_response (error : JsError) : option Response :=
  match error with
  | AxiosError _ _ r => r
  | _ => None
  end.

(** [error.response?.status === 401] *)
Definition is_unauthorized (error : JsError) : bool :=
  match error_response error with
  | Some r => status r =? 401
  | None => false
  end.

Definition response_onFulfilled (response : Response) : Promise Response :=
  resolve response.

Definition response_onRejected (error : JsError) : Promise Response :=
  if is_unauthorized error then
    logout ;;
    reject (Error (JStr "Session expired. Please login again."))
  else
    reject error.

(** axios' default [validateStatus]. *)
Definition validateStatus (st : Z) : bool := (200 <=? st) && (st <? 300).

(** The adapter: the one place where a request leaves the device. *)
Definition dispatchRequest (config : RequestConfig) : Promise Response :=
  fun w =>
    let w' := log (EvHttp config) w in
    match backend w config with
    | HttpReply st body =>
        let response :=
          {| status := st; resp_data := body; resp_config := config |} in
        if validateStatus st then (Fulfilled response, w')
        else (Rejected
                (AxiosError ("Request failed with status code " +:+ pretty st)
                   config (Some response)), w')
    | HttpNoReply msg => (Rejected (AxiosError msg config None), w')
    end.

(** [Axios.prototype.request]: the interceptor chain
    [request handlers; dispatchRequest, undefined; response handlers]
    folded with [promise.then]. A rejection of the request phase skips the
    dispatch and reaches the response phase's rejection handler. *)
Definition request (c : Call) : Promise Response :=
  fun w =>
    then_
      (then_
         (then_ (resolve (mergeConfig w c)) request_onFulfilled request_onRejected)
         dispatchRequest reject)
      response_onFulfilled response_onRejected w.

Definition get (u : string) (ps : list (string * JsVal)) : Promise Response :=
  request {| call_method := GET; call_url := u; call_params := ps;
             call_data := JUndefined |}.

Definition post (u : string) (body : JsVal) (ps : list (string * JsVal))
    : Promise Response :=
  request {| call_method := POST; call_url := u; call_params := ps;
             call_data := body |}.

Definition put (u : string) (body : JsVal) (ps : list (string * JsVal))
    : Promise Response :=
  request {| call_method := PUT; call_url := u; call_params := ps;
             call_data := body |}.

Definition delete_ (u : string) (ps : list (string * JsVal)) : Promise Response :=
  request {| call_method := DELETE; call_url := u; call_params := ps;
             call_data := JUndefined |}.

(** The requests that left the device during a run. *)
Definition sent (evs : list Event) : list RequestConfig :=
  omap (fun e => match e with EvHttp cfg => Some cfg | _ => None end) evs.

End ApiClient.

(** ** contexts/auth-context.tsx: the provider's operations *)
Module AuthContext.

Definition dispatch (action : AuthAction) : Promise unit :=
  fun w =>
    (Fulfilled tt, log (EvDispatch action) (set_auth (authReducer (auth w) action) w)).

Definition router_replace (path : string) : Promise unit :=
  fun w => (Fulfilled tt, log (EvRouterReplace path) w).

(** [JSON.stringify(user)] *)
Definition stringify_user (u : User) : Promise JsVal :=
  fun w =>
    (Fulfilled
       (JStr (JSON_stringify w (JObj [("username", username u); ("role", role u)]))),
     w).

(** [response.data.k]: a TypeError when the body is [null] or [undefined]. *)
Definition data_prop (response : Response) (k : string) : Promise JsVal :=
  match prop (resp_data response) k with
  | Some v => resolve v
  | None => reject TypeError
  end.

(** [error.response?.data?.message] *)
Definition error_message (error : JsError) : JsVal :=
  match ApiClient.error_response error with
  | Some r => opt_prop (resp_data r) "message"
  | None => JUndefined
  end.

Definition login (username password : string) : Promise bool :=
  dispatch LOGIN_REQUEST ;;
  try_catch
    (let* response :=
       ApiClient.post LOGIN
         (JObj [("username", JStr username); ("password", JStr password)]) [] in
     let* token := data_prop response "token" in
     let* userName := data_prop response "username" in
     let* role := data_prop response "role" in
     let user := {| Session.username := userName;
                    Session.role := or_else role (JStr "user") |} in
     AsyncStorage_setItem TOKEN_STORAGE_KEY token ;;
     let* userJson := stringify_user user in
     AsyncStorage_setItem USER_DATA_KEY userJson ;;
     dispatch (LOGIN_SUCCESS user) ;;
     resolve true)
    (fun error =>
       let errorMessage := or_else (error_message error) (JStr "Login failed") in
       dispatch (LOGIN_FAILURE errorMessage) ;;
       reject (Error errorMessage)).

Definition register (username email password : string) : Promise bool :=
  dispatch REGISTER_REQUEST ;;
  try_catch
    (let registerData :=
       JObj [("username", JStr username); ("email", JStr email);
             ("password", JStr password); ("confirmPassword", JStr password)] in
     let* response := ApiClient.post REGISTER registerData [] in
     let* responseUsername := data_prop response "username" in
     let userName := or_else responseUsername (JStr username) in
     let* responseRole := data_prop response "role" in
     let user := {| Session.username := userName;
                    Session.role := or_else responseRole (JStr "user") |} in
     let* token := data_prop response "token" in
     (if truthy token then
        AsyncStorage_setItem TOKEN_STORAGE_KEY token ;;
        let* userJson := stringify_user user in
        AsyncStorage_setItem USER_DATA_KEY userJson
      else resolve tt) ;;
     dispatch (REGISTER_SUCCESS user) ;;
     resolve true)
    (fun error =>
       let errorMessage :=
         or_else (error_message error) (JStr "Registration failed") in
       dispatch (REGISTER_FAILURE errorMessage) ;;
       reject (Error errorMessage)).

Definition logoutUser : Promise unit :=
  ApiClient.logout ;;
  AsyncStorage_removeItem USER_DATA_KEY ;;
  dispatch LOGOUT ;;
  router_replace "/login".

Definition clearError : Promise unit := dispatch CLEAR_ERROR.

End AuthContext.

(** ** Runtime schemas (zod) *)
Module Zod.

Inductive Schema :=
| z_any
| z_number
| z_string
| z_boolean
| z_array (element : Schema)
| z_object (shape : list (string * Schema))
| z_nullable (inner : Schema)
| z_optional (inner : Schema)
| z_default (inner : Schema) (value : JsVal).

Definition is_undefined (v : JsVal) : bool :=
  match v with
  | JUndefined => true
  | _ => false
  end.

(** [schema.parse(v)]; [None] stands for the thrown ZodError.  An object
    schema checks its declared keys, drops the others, and leaves out a key
    that is absent from the input and parses to [undefined]. *)
Fixpoint parse (s : Schema) (v : JsVal) {struct s} : option JsVal :=
  match s with
  | z_any => Some v
  | z_number => match v with JNum _ => Some v | _ => None end
  | z_string => match v with JStr _ => Some v | _ => None end
  | z_boolean => match v with JBool _ => Some v | _ => None end
  | z_array element =>
      match v with
      | JArr elems => JArr <$> mapM (parse element) elems
      | _ => None
      end
  | z_object shape =>
      match v with
      | JObj fields =>
          JObj <$>
            (fix parse_shape (sh : list (string * Schema)) :=
               match sh with
               | [] => Some []
               | (k, sk) :: sh' =>
                   match parse sk (assoc k fields), parse_shape sh' with
                   | Some x, Some rest =>
                       if has_key k fields || negb (is_undefined x)
                       then Some ((k, x) :: rest)
                       else Some rest
                   | _, _ => None
                   end
               end) shape
      | _ => None
      end
  | z_nullable inner =>
      match v with
      | JNull => Some JNull
      | _ => parse inner v
      end
  | z_optional inner =>
      match v with
      | JUndefined => Some JUndefined
      | _ => parse inner v
      end
  | z_default inner value =>
      match v with
      | JUndefined => parse inner value
      | _ => parse inner v
      end
  end.

Fixpoint override (k : string) (sk : Schema) (sh : list (string * Schema))
    : list (string * Schema) :=
  match sh with
  | [] => [(k, sk)]
  | (k', s') :: sh' =>
      if String.eqb k k' then (k, sk) :: sh' else (k', s') :: override k sk sh'
  end.

(** [base.extend(augmentation)]: the augmentation's keys replace the base's. *)
Definition extend (base : Schema) (augmentation : list (string * Schema))
    : Schema :=
  match base with
  | z_object shape =>
      z_object (foldl (fun sh kv => override kv.1 kv.2 sh) shape augmentation)
  | _ => base
  end.

Definition parse_or_throw (s : Schema) (v : JsVal) : Promise JsVal :=
  match parse s v with
  | Some x => resolve x
  | None => reject ZodError
  end.

End Zod.
Import Zod.

(** ** services/types.ts *)
Module Types.

Definition PaginationSchema : Schema :=
  z_object
    [("items", z_array z_any);
     ("totalCount", z_number);
     ("pageNumber", z_number);
     ("pageSize", z_number);
     ("totalPages", z_number);
     ("hasPrevious", z_boolean);
     ("hasNext", z_boolean)].

Definition MovieSchema : Schema :=
  z_object
    [("id", z_number);
     ("title", z_string);
     ("releaseYear", z_number);
     ("plot", z_nullable z_string);
     ("runtimeMinutes", z_number);
     ("posterUrl", z_nullable z_string);
     ("directorName", z_string);
     ("genres", z_array z_string);
     ("actors", z_array z_string)].

Definition MovieResponseSchema : Schema :=
  extend PaginationSchema [("items", z_array MovieSchema)].

End Types.

(** ** services/genre-service.ts: schemas *)
Module GenreSchemas.

Definition GenreSchema : Schema :=
  z_object
    [("id", z_number);
     ("name", z_string);
     ("description", z_nullable z_string);
     ("createdAt", z_string);
     ("modifiedAt", z_nullable z_string);
     ("createdBy", z_nullable z_string);
     ("modifiedBy", z_nullable z_string);
     ("isDeleted", z_boolean)].

Definition PopularGenreSchema : Schema :=
  z_object [("genre", GenreSchema); ("movieCount", z_number)].


End GenreSchemas.

(** ** services/people-service.ts: schemas *)
Module PeopleSchemas.

Definition ActorSchema : Schema :=
  z_object
    [("id", z_number);
     ("name", z_string);
     ("dateOfBirth", z_string);
     ("bio", z_nullable z_string);
     ("createdAt", z_string);
     ("modifiedAt", z_nullable z_string);
     ("createdBy", z_nullable z_string);
     ("modifiedBy", z_nullable z_string);
     ("isDeleted", z_boolean)].

Definition PopularActorSchema : Schema :=
  z_object [("actor", ActorSchema); ("movieCount", z_number)].

Definition PersonSchema : Schema :=
  z_object
    [("id", z_number);
     ("name", z_string);
     ("profileImageUrl", z_optional (z_nullable z_string));
     ("biography", z_optional (z_nullable z_string));
     ("birthDate", z_optional (z_nullable z_string));
     ("deathDate", z_optional (z_nullable z_string));
     ("placeOfBirth", z_optional (z_nullable z_string));
     ("isDirector", z_default z_boolean (JBool false));
     ("isActor", z_default z_boolean (JBool false));
     ("movies",
      z_default
        (z_array
           (z_object
              [("id", z_number);
               ("title", z_string);
               ("posterUrl", z_nullable z_string);
               ("releaseDate", z_nullable z_string);
               ("character", z_nullable z_string);
               ("job", z_nullable z_string)]))
        (JArr []))].

Definition PaginatedPeopleSchema : Schema :=
  z_object
    [("results", z_array PersonSchema);
     ("totalCount", z_number);
     ("page", z_number);
     ("totalPages", z_number)].

End PeopleSchemas.

(** ** services/movie-service.ts *)
Module MovieService.

Definition version : string := "v1".

(** [pageNumber: number = 1]: an omitted argument takes the default. *)
Definition or_default (arg : option Z) (d : Z) : Z := default d arg.

Record MovieSearchParams := {
  pageNumber : option Z;
  pageSize : option Z;
  searchTerm : option string;
  sortBy : option string;
  sortOrder : option string;          (* 'asc' | 'desc' *)
  releaseYear : option Z;
  genreIds : option (list Z);
}.

(** The artificial delay before pages after the first is a matter of time
    only and leaves no trace here. *)
Definition getMovies (pageNumber pageSize : option Z) : Promise JsVal :=
  let* response :=
    ApiClient.get MOVIES
      [("pageNumber", JNum (or_default pageNumber 1));
       ("pageSize", JNum (or_default pageSize 10));
       ("version", JStr version)] in
  resolve (resp_data response).

Definition getMovie (id : Z) : Promise JsVal :=
  let* response :=
    ApiClient.get (MOVIES +:+ "/" +:+ String_of_number id)
      [("version", JStr version)] in
  resolve (resp_data response).

Definition createMovie (movie : JsVal) : Promise JsVal :=
  let* response := ApiClient.post MOVIES movie [("version", JStr version)] in
  resolve (resp_data response).

Definition updateMovie (id : Z) (movie : JsVal) : Promise unit :=
  ApiClient.put (MOVIES +:+ "/" +:+ String_of_number id) movie
    [("version", JStr version)] ;;
  resolve tt.

Definition deleteMovie (id : Z) : Promise unit :=
  ApiClient.delete_ (MOVIES +:+ "/" +:+ String_of_number id)
    [("version", JStr version)] ;;
  resolve tt.

(** *** URLSearchParams *)

Definition URLSearchParams := list (string * string).

Definition append (q : URLSearchParams) (name value : string) : URLSearchParams :=
  q ++ [(name, value)].

(** [if (s)] for an optional string. *)
Definition given (s : option string) : bool :=
  match s with
  | Some x => negb (String.eqb x "")
  | None => false
  end.

(** [n || d] for an optional number. *)
Definition number_or (n : option Z) (d : Z) : Z :=
  match n with
  | Some x => if x =? 0 then d else x
  | None => d
  end.

(** [if (n)] for an optional number. *)
Definition given_number (n : option Z) : bool :=
  match n with
  | Some x => negb (x =? 0)
  | None => false
  end.

(** The parameters [searchMovies] appends before the genre ids. *)
Definition basicParams (params : MovieSearchParams) : URLSearchParams :=
  let q : URLSearchParams := [] in
  let q := if given (searchTerm params)
           then append q "SearchTerm" (default "" (searchTerm params)) else q in
  let q := append q "PageNumber" (String_of_number (number_or (pageNumber params) 1)) in
  let q := append q "PageSize" (String_of_number (number_or (pageSize params) 10)) in
  let q := if given (sortBy params)
           then append q "SortBy" (default "" (sortBy params)) else q in
  let q := if given (sortOrder params)
           then append q "SortOrder" (default "" (sortOrder params)) else q in
  let q := if given_number (releaseYear params)
           then append q "ReleaseYear"
                  (String_of_number (default 0 (releaseYear params)))
           else q in
  append q "version" version.

(** [genreIds.forEach(genreId => queryParams.append('GenreIds', String(genreId)))] *)
Definition appendGenreIds (q : URLSearchParams) (ids : list Z) : URLSearchParams :=
  foldl (fun acc genreId => append acc "GenreIds" (String_of_number genreId)) q ids.

Definition queryParams (params : MovieSearchParams) : URLSearchParams :=
  let q := basicParams params in
  match genreIds params with
  | Some ids => if 0 <? Z.of_nat (length ids) then appendGenreIds q ids else q
  | None => q
  end.

(** [queryParams.toString()]: [name=value] pairs joined by [&], each side
    passed through the platform's encoder. *)
Fixpoint join (sep : string) (parts : list string) : string :=
  match parts with
  | [] => ""
  | [x] => x
  | x :: rest => x +:+ sep +:+ join sep rest
  end.

Definition pair_toString (enc : string -> string) (kv : string * string) : string :=
  enc kv.1 +:+ "=" +:+ enc kv.2.

Definition toString (enc : string -> string) (q : URLSearchParams) : string :=
  join "&" (pair_toString enc <$> q).

Definition searchMovies_url (enc : string -> string) (params : MovieSearchParams)
    : string :=
  MOVIES +:+ "/search?" +:+ toString enc (queryParams params).

Definition searchMovies (params : MovieSearchParams) : Promise JsVal :=
  fun w =>
    (let* response :=
       ApiClient.get (searchMovies_url (URLSearchParams_encode w) params) [] in
     resolve (resp_data response)) w.

End MovieService.

(** ** services/genre-service.ts *)
Module GenreService.

Definition version : string := "v1".

Definition getGenres (pageNumber pageSize : option Z) : Promise JsVal :=
  let* response :=
    ApiClient.get GENRES
      [("pageNumber", JNum (default 1 pageNumber));
       ("pageSize", JNum (default 10 pageSize));
       ("version", JStr version)] in
  resolve (resp_data response).

Definition getPopularGenres : Promise JsVal :=
  let* response := ApiClient.get POPULAR_GENRES [("version", JStr version)] in
  parse_or_throw (z_array GenreSchemas.PopularGenreSchema) (resp_data response).

End GenreService.

(** ** services/people-service.ts *)
Module PeopleService.

(** [catch (error) { console.error(...); throw error; }] *)
Definition rethrow {A} (error : JsError) : Promise A := reject error.

Definition getPopularPeople : Promise JsVal :=
  try_catch
    (let* response := ApiClient.get POPULAR_PEOPLE [] in
     parse_or_throw (z_array PeopleSchemas.PopularActorSchema) (resp_data response))
    rethrow.

Definition getPersonDetails (id : string) : Promise JsVal :=
  try_catch
    (let* response := ApiClient.get (PERSON_DETAILS id) [] in
     parse_or_throw PeopleSchemas.PersonSchema (resp_data response))
    rethrow.

Definition searchPeople (params : list (string * JsVal)) : Promise JsVal :=
  try_catch
    (let* response := ApiClient.get SEARCH_PEOPLE params in
     parse_or_throw PeopleSchemas.PaginatedPeopleSchema (resp_data response))
    rethrow.

Definition getFilmography (id : string) : Promise JsVal :=
  try_catch
    (let* response := ApiClient.get (PERSON_DETAILS id +:+ "/filmography") [] in
     resolve (resp_data response))
    rethrow.

Definition createPerson (personData : JsVal) : Promise JsVal :=
  try_catch
    (let* response := ApiClient.post ADMIN_PEOPLE personData [] in
     parse_or_throw PeopleSchemas.PersonSchema (resp_data response))
    rethrow.

Definition updatePerson (id : string) (personData : JsVal) : Promise JsVal :=
  try_catch
    (let* response := ApiClient.put (ADMIN_PEOPLE +:+ "/" +:+ id) personData [] in
     parse_or_throw PeopleSchemas.PersonSchema (resp_data response))
    rethrow.

Definition deletePerson (id : string) : Promise unit :=
  try_catch
    (ApiClient.delete_ (ADMIN_PEOPLE +:+ "/" +:+ id) [] ;; resolve tt)
    rethrow.

End PeopleService.

(** ** app/(tabs)/home.tsx: the page accumulation of the movie list *)
Module Home.

Record Movie := {
  id : Z;
  title : string;
  releaseYear : Z;
  plot : option string;
  runtimeMinutes : option Z;
  posterUrl : option string;
  directorName : option string;
  genres : option (list string);
  actors : option (list string);
}.

(** The [MovieResponse] interface of movie-service.ts.  The body is not
    validated, so [items] may be missing at run time, which the screen
    guards against with [data?.items]. *)
Record MovieResponse := {
  items : option (list Movie);
  hasNext : bool;
  total : Z;
  page_ : Z;
  pageSize : Z;
}.

(** What [useQuery] hands to a render: the data cached under the key
    [['movies', page]] (undefined until the page has been fetched) and whether
    a fetch is running. *)
Record Query := {
  data : option MovieResponse;
  isFetching : bool;
}.

Record Screen := {
  page : Z;
  allMovies : list Movie;
  isLoadingMore : bool;
}.

Definition limit : Z := 10.

(** [useState(1)], [useState<Movie[]>([])], [useState(false)] *)
Definition mount : Screen :=
  {| page := 1; allMovies := []; isLoadingMore := false |}.

(** The arguments of the query function other than the page:
    [movieService.getMovies(page, limit)]. *)
Definition baseParams (s : Screen) : Z := limit.

(** The effect on [[data, page]]. *)
Definition allMovies_effect (q : Query) (s : Screen) : Screen :=
  match data q with
  | Some d =>
      match items d with
      | Some its =>
          if page s =? 1 then
            {| page := page s; allMovies := its; isLoadingMore := isLoadingMore s |}
          else
            {| page := page s; allMovies := allMovies s ++ its;
               isLoadingMore := isLoadingMore s |}
      | None => s
      end
  | None => s
  end.

(** The effect on [[isFetching]]. *)
Definition isLoadingMore_effect (q : Query) (s : Screen) : Screen :=
  if negb (isFetching q) then
    {| page := page s; allMovies := allMovies s; isLoadingMore := false |}
  else s.

Definition handleRefresh (s : Screen) : Screen :=
  {| page := 1; allMovies := []; isLoadingMore := isLoadingMore s |}.

(** [data?.hasNext] *)
Definition data_hasNext (q : Query) : bool :=
  match data q with
  | Some d => hasNext d
  | None => false
  end.

(** [loadMore] as a render created it.  The guard reads the values that
    render saw, the query result [q] and the [isLoadingMore] of [shown]; the
    two updates go to the state at the time of the call [s], [setPage]
    through its updater function. *)
Definition loadMore (q : Query) (shown : Screen) (s : Screen) : Screen :=
  if data_hasNext q && negb (isLoadingMore shown) && negb (isFetching q) then
    {| page := page s + 1; allMovies := allMovies s; isLoadingMore := true |}
  else s.

(** The mounted screen: the state values the last render saw, which the
    handlers on screen close over, and the state with the updates made
    since. *)
Record Mounted := {
  shown : Screen;
  state : Screen;
}.

Definition render (s : Screen) : Mounted := {| shown := s; state := s |}.

(** What happens to the screen: a render after [data] or [page] changed, [q]
    being the query result for the current page, followed by its effect; a
    render after [isFetching] changed, followed by its effect; the list
    reaching its end with the query result [q] on screen; the user pulling
    to refresh; a render after a state update that runs no effect. *)
Inductive Input :=
| DataChanged (q : Query)
| FetchingChanged (q : Query)
| EndReached (q : Query)
| Refresh
| Rerender.

Definition step (m : Mounted) (i : Input) : Mounted :=
  match i with
  | DataChanged q => {| shown := state m; state := allMovies_effect q (state m) |}
  | FetchingChanged q =>
      {| shown := state m; state := isLoadingMore_effect q (state m) |}
  | EndReached q => {| shown := shown m; state := loadMore q (shown m) (state m) |}
  | Refresh => {| shown := shown m; state := handleRefresh (state m) |}
  | Rerender => render (state m)
  end.

Definition run_from (m : Mounted) (inputs : list Input) : Mounted :=
  foldl step m inputs.

(** The state after the inputs, starting from a render of [s]. *)
Definition run (s : Screen) (inputs : list Input) : Screen :=
  state (run_from (render s) inputs).

End Home.

(** ** Predicates used in the statements *)
Module Spec.

Definition session_coherent (state : AuthState) : Prop :=
  isAuthenticated state = true <-> is_Some (user state).

(** The requests a run put on the wire: those in its final trace after the
    ones that were there before. *)
Definition sent_during {A} (p : Promise A) (w : World) (reqs : list RequestConfig)
    : Prop :=
  ApiClient.sent (trace (p w).2) = ApiClient.sent (trace w) ++ reqs.

(** The events a run added to the trace. *)
Definition events_during {A} (p : Promise A) (w : World) (evs : list Event)
    : Prop :=
  trace (p w).2 = trace w ++ evs.

(** The user object [register] builds from its argument and the response
    body: [response.data.username || username] and
    [response.data.role || 'user']. *)
Definition registered_user (username : string) (body : JsVal) : User :=
  {| Session.username := or_else (opt_prop body "username") (JStr username);
     Session.role := or_else (opt_prop body "role") (JStr "user") |}.

(** One [GenreIds] entry per id, and its rendering in a query string that
    already has parameters before it. *)
Definition genreId_param (genreId : Z) : string * string :=
  ("GenreIds", String_of_number genreId).

Fixpoint genreIds_suffix (enc : string -> string) (ids : list Z) : string :=
  match ids with
  | [] => ""
  | genreId :: rest =>
      "&" +:+ enc "GenreIds" +:+ "=" +:+ enc (String_of_number genreId)
        +:+ genreIds_suffix enc rest
  end.

(** The entries of a parameter list stored under a name. *)
Definition getAll (name : string) (q : MovieService.URLSearchParams)
    : list (string * string) :=
  filter (fun kv => kv.1 = name) q.

(** A device for closed examples: the given storage and connectivity, a
    network that answers every request with [reply], a fresh session, an
    encoder that leaves its input alone and a [JSON.stringify] that renders
    every value as an empty object (no example reads what it produced). *)
Definition sample_world (store : gmap string string) (conn : option bool)
    (reply : HttpOutcome) : World :=
  {| storage := store;
     isConnected := conn;
     backend := fun _ => reply;
     auth := initialState;
     Platform_OS := "android";
     JSON_stringify := fun _ => "{}";
     URLSearchParams_encode := fun x => x;
     trace := [] |}.

(** The device after a login that the backend answered with an empty
    token. *)
Definition empty_token_world : World :=
  (AuthContext.login "alice" "secret"
     (sample_world ∅ (Some true)
        (HttpReply 200 (JObj [("token", JStr ""); ("username", JStr "alice")])))).2.

Definition stored_token_world (reply : HttpOutcome) : World :=
  sample_world {[TOKEN_STORAGE_KEY := "abc123"]} (Some true) reply.

Definition offline_world : World :=
  sample_world {[TOKEN_STORAGE_KEY := "abc123"]} (Some false) (HttpReply 200 JNull).

(** A backend that registers the user without issuing a token. *)
Definition tokenless_register_world : World :=
  sample_world ∅ (Some true) (HttpReply 200 (JObj [("username", JStr "alice")])).

(** A backend that answers the registration with a success status and no
    body. *)
Definition bodyless_register_world : World :=
  sample_world ∅ (Some true) (HttpReply 200 JNull).

Definition logged_in_world : World :=
  sample_world (<[TOKEN_STORAGE_KEY := "abc123"]> {[USER_DATA_KEY := "{}"]})
    (Some true) (HttpReply 200 JNull).

Definition sample_search : MovieService.MovieSearchParams :=
  {| MovieService.pageNumber := None;
     MovieService.pageSize := Some 20;
     MovieService.searchTerm := Some "";
     MovieService.sortBy := Some "title";
     MovieService.sortOrder := None;
     MovieService.releaseYear := Some 0;
     MovieService.genreIds := Some [28; 12] |}.

Definition sample_call : Call :=
  {| call_method := GET; call_url := MOVIES; call_params := [];
     call_data := JUndefined |}.

(** *** Home screen examples *)

Definition sample_movie (n : Z) (name : string) : Home.Movie :=
  {| Home.id := n; Home.title := name; Home.releaseYear := 2000;
     Home.plot := None; Home.runtimeMinutes := None; Home.posterUrl := None;
     Home.directorName := None; Home.genres := None; Home.actors := None |}.

(** A settled query showing one page of results. *)
Definition settled (its : list Home.Movie) (more : bool) (n : Z) : Home.Query :=
  {| Home.data :=
       Some {| Home.items := Some its; Home.hasNext := more;
               Home.total := 2; Home.page_ := n; Home.pageSize := Home.limit |};
     Home.isFetching := false |}.

(** The query right after its key changed to a page not fetched before. *)
Definition pending : Home.Query :=
  {| Home.data := None; Home.isFetching := true |}.

(** Mount, first page, scroll to the end, second page. *)
Definition two_pages (its1 its2 : list Home.Movie) : list Home.Input :=
  [Home.DataChanged (settled its1 true 1);
   Home.EndReached (settled its1 true 1);
   Home.DataChanged pending;
   Home.FetchingChanged pending;
   Home.DataChanged (settled its2 false 2);
   Home.FetchingChanged (settled its2 false 2)].

(** *** Paginated bodies *)

(** [Math.ceil(a / b)] for a positive [b]. *)
Definition ceil_div (a b : Z) : Z := - ((- a) / b).

Definition page_body (its : list JsVal) (totalCount pageNumber pageSize totalPages : Z)
    (hasPrevious hasNext : bool) : JsVal :=
  JObj [("items", JArr its);
        ("totalCount", JNum totalCount);
        ("pageNumber", JNum pageNumber);
        ("pageSize", JNum pageSize);
        ("totalPages", JNum totalPages);
        ("hasPrevious", JBool hasPrevious);
        ("hasNext", JBool hasNext)].

(** The relations the specification states between the paging fields. *)
Definition pagination_consistent (v : JsVal) : bool :=
  match opt_prop v "totalCount", opt_prop v "pageNumber", opt_prop v "pageSize",
        opt_prop v "totalPages", opt_prop v "hasNext" with
  | JNum totalCount, JNum pageNumber, JNum pageSize, JNum totalPages, JBool hasNext =>
      (totalPages =? ceil_div totalCount pageSize)
      && Bool.eqb hasNext (pageNumber <? totalPages)
  | _, _, _, _, _ => false
  end.

(** Seven pages announced for 25 movies in pages of 10, and no next page on
    page 1. *)
Definition inconsistent_page : JsVal := page_body [] 25 1 10 7 false false.

(** *** Operations that validate the response *)

Inductive ValidatedOp :=
| GetPopularPeople
| GetPersonDetails (id : string)
| SearchPeople (params : list (string * JsVal))
| CreatePerson (personData : JsVal)
| UpdatePerson (id : string) (personData : JsVal)
| GetPopularGenres.

Definition run_op (op : ValidatedOp) : Promise JsVal :=
  match op with
  | GetPopularPeople => PeopleService.getPopularPeople
  | GetPersonDetails id => PeopleService.getPersonDetails id
  | SearchPeople params => PeopleService.searchPeople params
  | CreatePerson personData => PeopleService.createPerson personData
  | UpdatePerson id personData => PeopleService.updatePerson id personData
  | GetPopularGenres => GenreService.getPopularGenres
  end.

(** The schema each of them passes the body to. *)
Definition schema_of (op : ValidatedOp) : Schema :=
  match op with
  | GetPopularPeople => z_array PeopleSchemas.PopularActorSchema
  | GetPersonDetails _ | CreatePerson _ | UpdatePerson _ _ =>
      PeopleSchemas.PersonSchema
  | SearchPeople _ => PeopleSchemas.PaginatedPeopleSchema
  | GetPopularGenres => z_array GenreSchemas.PopularGenreSchema
  end.

(** The call each of them makes. *)
Definition call_of (op : ValidatedOp) : Call :=
  match op with
  | GetPopularPeople =>
      {| call_method := GET; call_url := POPULAR_PEOPLE; call_params := [];
         call_data := JUndefined |}
  | GetPersonDetails id =>
      {| call_method := GET; call_url := PERSON_DETAILS id; call_params := [];
         call_data := JUndefined |}
  | SearchPeople params =>
      {| call_method := GET; call_url := SEARCH_PEOPLE; call_params := params;
         call_data := JUndefined |}
  | CreatePerson personData =>
      {| call_method := POST; call_url := ADMIN_PEOPLE; call_params := [];
         call_data := personData |}
  | UpdatePerson id personData =>
      {| call_method := PUT; call_url := ADMIN_PEOPLE +:+ "/" +:+ id;
         call_params := []; call_data := personData |}
  | GetPopularGenres =>
      {| call_method := GET; call_url := POPULAR_GENRES;
         call_params := [("version", JStr GenreService.version)];
         call_data := JUndefined |}
  end.

End Spec.
Import Spec.

(** ** services/movie-service.ts: the remaining operations and query keys *)
Module MovieQueries.

Definition getMoviesByActor (actorId : Z) (pageNumber pageSize : option Z)
    : Promise JsVal :=
  let* response :=
    ApiClient.get (MOVIES +:+ "/actor/" +:+ String_of_number actorId)
      [("pageNumber", JNum (MovieService.or_default pageNumber 1));
       ("pageSize", JNum (MovieService.or_default pageSize 10));
       ("version", JStr MovieService.version)] in
  resolve (resp_data response).

Definition getMoviesByGenre (genreId : Z) (pageNumber pageSize : option Z)
    : Promise JsVal :=
  let* response :=
    ApiClient.get (MOVIES +:+ "/genre/" +:+ String_of_number genreId)
      [("pageNumber", JNum (MovieService.or_default pageNumber 1));
       ("pageSize", JNum (MovieService.or_default pageSize 10));
       ("version", JStr MovieService.version)] in
  resolve (resp_data response).

(** An element of a query key: a string, a number, or the object
    [{ filters }]. *)
Inductive KeyPart :=
| KStr (s : string)
| KNum (n : Z)
| KFilters (filters : string).

Definition QueryKey := list KeyPart.

Definition all : QueryKey := [KStr "movies"].
Definition lists : QueryKey := all ++ [KStr "list"].
Definition list_ (filters : string) : QueryKey := lists ++ [KFilters filters].
Definition details : QueryKey := all ++ [KStr "detail"].
Definition detail (id : Z) : QueryKey := details ++ [KNum id].
Definition byActor : QueryKey := all ++ [KStr "byActor"].
Definition actorMovies (id : Z) : QueryKey := byActor ++ [KNum id].
Definition byGenre : QueryKey := all ++ [KStr "byGenre"].
Definition genreMovies (id : Z) : QueryKey := byGenre ++ [KNum id].

(** app/(tabs)/home.tsx: [queryKey: ['movies', page]] *)
Definition homeKey (page : Z) : QueryKey := [KStr "movies"; KNum page].

End MovieQueries.

(** ** services/genre-service.ts: the remaining operations *)
Module GenreCrud.

Definition GENRE_DETAILS (id : string) : string :=
  "/api/" +:+ API_VERSION +:+ "/genres/" +:+ id.

Definition getGenre (id : string) : Promise JsVal :=
  let* response :=
    ApiClient.get (GENRE_DETAILS id) [("version", JStr GenreService.version)] in
  resolve (resp_data response).

Definition createGenre (genre : JsVal) : Promise JsVal :=
  let* response :=
    ApiClient.post GENRES genre [("version", JStr GenreService.version)] in
  resolve (resp_data response).

Definition updateGenre (id : string) (genre : JsVal) : Promise unit :=
  ApiClient.put (GENRE_DETAILS id) genre [("version", JStr GenreService.version)] ;;
  resolve tt.

Definition deleteGenre (id : string) : Promise unit :=
  ApiClient.delete_ (GENRE_DETAILS id) [("version", JStr GenreService.version)] ;;
  resolve tt.




End GenreCrud.

(** ** services/auth-service.ts *)
Module AuthService.

(** [catch (error) { console.error(...); throw error; }] *)
Definition rethrow {A} (error : JsError) : Promise A := reject error.

Definition login (username password : string) : Promise JsVal :=
  try_catch
    (let* response :=
       ApiClient.post LOGIN
         (JObj [("username", JStr username); ("password", JStr password)]) [] in
     let authData := resp_data response in
     let* token := AuthContext.data_prop response "token" in
     AsyncStorage_setItem TOKEN_STORAGE_KEY token ;;
     resolve authData)
    rethrow.

Definition register (userData : JsVal) : Promise JsVal :=
  try_catch
    (let* response := ApiClient.post REGISTER userData [] in
     let authData := resp_data response in
     let* token := AuthContext.data_prop response "token" in
     AsyncStorage_setItem TOKEN_STORAGE_KEY token ;;
     resolve authData)
    rethrow.

Definition checkAuthStatus : Promise bool :=
  try_catch
    (let* token := AsyncStorage_getItem TOKEN_STORAGE_KEY in
     resolve (ApiClient.token_truthy token))
    (fun _ => resolve false).

Definition getUserInfo : Promise JsVal :=
  try_catch
    (let* token := AsyncStorage_getItem TOKEN_STORAGE_KEY in
     if negb (ApiClient.token_truthy token) then resolve JNull
     else
       resolve (JObj [("token", JStr (default "" token));
                      ("username", JStr "username")]))
    (fun _ => resolve JNull).

End AuthService.

(** ** app/search.tsx: the search screen's state and handlers *)
Module SearchScreen.

Import MovieService.

(** The part of the query result [loadMore] looks at. *)
Record PageInfo := {
  info_pageNumber : option Z;       (* the body is not validated *)
  info_totalPages : option Z;
}.

(** [a < b] on numbers that may be [undefined]. *)
Definition less_than (a b : option Z) : bool :=
  match a, b with
  | Some x, Some y => x <? y
  | _, _ => false
  end.

Record Screen := {
  searchQuery : string;
  searchParams : MovieSearchParams;
  showFilters : bool;
  selectedGenres : list Z;
  selectedYear : option Z;          (* number | null *)
  hasSearched : bool;
  applyClicked : bool;
}.

Definition initial : Screen :=
  {| searchQuery := "";
     searchParams :=
       {| pageNumber := Some 1; pageSize := Some 20; searchTerm := Some "";
          sortBy := Some "releaseDate"; sortOrder := Some "desc";
          releaseYear := None; genreIds := None |};
     showFilters := false;
     selectedGenres := [];
     selectedYear := None;
     hasSearched := false;
     applyClicked := false |}.

Definition setSearchQuery (text : string) (s : Screen) : Screen :=
  {| searchQuery := text; searchParams := searchParams s;
     showFilters := showFilters s; selectedGenres := selectedGenres s;
     selectedYear := selectedYear s; hasSearched := hasSearched s;
     applyClicked := applyClicked s |}.

Definition handleSearch (s : Screen) : Screen :=
  let prev := searchParams s in
  {| searchQuery := searchQuery s;
     searchParams :=
       {| pageNumber := Some 1; pageSize := pageSize prev;
          searchTerm := Some (searchQuery s);
          sortBy := sortBy prev; sortOrder := sortOrder prev;
          releaseYear := releaseYear prev; genreIds := genreIds prev |};
     showFilters := showFilters s; selectedGenres := selectedGenres s;
     selectedYear := selectedYear s; hasSearched := true;
     applyClicked := applyClicked s |}.

(** [selectedYear || undefined] *)
Definition year_or_undefined (y : option Z) : option Z :=
  match y with
  | Some n => if n =? 0 then None else Some n
  | None => None
  end.

Definition applyFilters (s : Screen) : Screen :=
  let prev := searchParams s in
  {| searchQuery := searchQuery s;
     searchParams :=
       {| pageNumber := Some 1; pageSize := pageSize prev;
          searchTerm := searchTerm prev;
          sortBy := sortBy prev; sortOrder := sortOrder prev;
          releaseYear := year_or_undefined (selectedYear s);
          genreIds :=
            if 0 <? Z.of_nat (length (selectedGenres s))
            then Some (selectedGenres s) else None |};
     showFilters := false; selectedGenres := selectedGenres s;
     selectedYear := selectedYear s; hasSearched := true;
     applyClicked := true |}.

(** The timer started by [applyFilters] firing. *)
Definition applyTimeout (s : Screen) : Screen :=
  {| searchQuery := searchQuery s; searchParams := searchParams s;
     showFilters := showFilters s; selectedGenres := selectedGenres s;
     selectedYear := selectedYear s; hasSearched := hasSearched s;
     applyClicked := false |}.

Definition resetFilters (s : Screen) : Screen :=
  let prev := searchParams s in
  {| searchQuery := searchQuery s;
     searchParams :=
       {| pageNumber := Some 1; pageSize := pageSize prev;
          searchTerm := searchTerm prev;
          sortBy := sortBy prev; sortOrder := sortOrder prev;
          releaseYear := None; genreIds := None |};
     showFilters := false; selectedGenres := [];
     selectedYear := None; hasSearched := true;
     applyClicked := applyClicked s |}.

(** [prev.includes(genreId)] *)
Definition includes (genreId : Z) (l : list Z) : bool :=
  existsb (Z.eqb genreId) l.

Definition toggle (genreId : Z) (prev : list Z) : list Z :=
  if includes genreId prev
  then List.filter (fun id => negb (id =? genreId)) prev
  else prev ++ [genreId].

Definition toggleGenre (genreId : Z) (s : Screen) : Screen :=
  {| searchQuery := searchQuery s; searchParams := searchParams s;
     showFilters := showFilters s;
     selectedGenres := toggle genreId (selectedGenres s);
     selectedYear := selectedYear s; hasSearched := hasSearched s;
     applyClicked := applyClicked s |}.

Definition handleYearSelect (year : option Z) (s : Screen) : Screen :=
  {| searchQuery := searchQuery s; searchParams := searchParams s;
     showFilters := showFilters s; selectedGenres := selectedGenres s;
     selectedYear := year; hasSearched := hasSearched s;
     applyClicked := applyClicked s |}.

Definition loadMore (data : option PageInfo) (s : Screen) : Screen :=
  match data with
  | Some d =>
      if less_than (info_pageNumber d) (info_totalPages d) then
        let prev := searchParams s in
        {| searchQuery := searchQuery s;
           searchParams :=
             {| pageNumber := Some (number_or (pageNumber prev) 1 + 1);
                pageSize := pageSize prev; searchTerm := searchTerm prev;
                sortBy := sortBy prev; sortOrder := sortOrder prev;
                releaseYear := releaseYear prev; genreIds := genreIds prev |};
           showFilters := showFilters s; selectedGenres := selectedGenres s;
           selectedYear := selectedYear s; hasSearched := hasSearched s;
           applyClicked := applyClicked s |}
      else s
  | None => s
  end.

(** The [enabled] option of the search query. *)
Definition enabled (s : Screen) : bool :=
  hasSearched s
  && (given (searchTerm (searchParams s))
      || (0 <? Z.of_nat (length (selectedGenres s)))
      || given_number (selectedYear s)
      || applyClicked s).

Inductive Input :=
| Type_ (text : string)
| Submit
| Apply
| ApplyTimeout
| ResetFilters
| ToggleGenre (genreId : Z)
| SelectYear (year : option Z)
| EndReached (data : option PageInfo).

Definition step (s : Screen) (i : Input) : Screen :=
  match i with
  | Type_ text => setSearchQuery text s
  | Submit => handleSearch s
  | Apply => applyFilters s
  | ApplyTimeout => applyTimeout s
  | ResetFilters => resetFilters s
  | ToggleGenre genreId => toggleGenre genreId s
  | SelectYear year => handleYearSelect year s
  | EndReached data => loadMore data s
  end.

Definition run (inputs : list Input) : Screen := foldl step initial inputs.

End SearchScreen.

(** ** Well-formed schemas *)
Module ZodShape.

(** The keys of every object schema are pairwise distinct, as those of the
    object literal passed to [z.object] are. *)
Fixpoint distinct_keys (s : Schema) : bool :=
  match s with
  | z_any | z_number | z_string | z_boolean => true
  | z_array element => distinct_keys element
  | z_object shape =>
      bool_decide (NoDup shape.*1)
      && (fix all_fields (sh : list (string * Schema)) : bool :=
            match sh with
            | [] => true
            | (_, sk) :: sh' => distinct_keys sk && all_fields sh'
            end) shape
  | z_nullable inner | z_optional inner => distinct_keys inner
  | z_default inner _ => distinct_keys inner
  end.

(** The field loop of an object schema, on its own: the declared keys in
    order, each parsed from the input's value under it. *)
Fixpoint parse_fields (fields : list (string * JsVal))
    (sh : list (string * Schema)) : option (list (string * JsVal)) :=
  match sh with
  | [] => Some []
  | (k, sk) :: sh' =>
      match parse sk (assoc k fields), parse_fields fields sh' with
      | Some x, Some rest =>
          if has_key k fields || negb (is_undefined x)
          then Some ((k, x) :: rest)
          else Some rest
      | _, _ => None
      end
  end.

End ZodShape.

(** ** What goes over the wire *)
Module Wire.

(** The configuration the adapter receives for a call: the instance
    defaults, the caller's fields, and the Authorization header when a
    token is stored. *)
Definition outgoing (w : World) (c : Call) : RequestConfig :=
  if ApiClient.token_truthy (storage w !! TOKEN_STORAGE_KEY)
  then ApiClient.set_header "Authorization"
         ("Bearer " +:+ default "" (storage w !! TOKEN_STORAGE_KEY))
         (ApiClient.mergeConfig w c)
  else ApiClient.mergeConfig w c.

Definition no_connection : JsError := Error (JStr "No internet connection").

Definition session_expired : JsError :=
  Error (JStr "Session expired. Please login again.").

(** Events that change nothing but the stored token. *)
Definition harmless (e : Event) : bool :=
  match e with
  | EvNetInfoFetch | EvGetItem _ | EvHttp _ => true
  | EvRemoveItem key => String.eqb key TOKEN_STORAGE_KEY
  | EvSetItem _ _ | EvDispatch _ | EvRouterReplace _ => false
  end.

Definition is_write (e : Event) : bool :=
  match e with
  | EvSetItem _ _ | EvRemoveItem _ => true
  | _ => false
  end.

Definition login_call (username password : string) : Call :=
  {| call_method := POST; call_url := LOGIN; call_params := [];
     call_data := JObj [("username", JStr username); ("password", JStr password)] |}.

Definition register_call (username email password : string) : Call :=
  {| call_method := POST; call_url := REGISTER; call_params := [];
     call_data :=
       JObj [("username", JStr username); ("email", JStr email);
             ("password", JStr password); ("confirmPassword", JStr password)] |}.

(** The session after a failed login or registration. *)
Definition failed_session (message : JsVal) : AuthState :=
  {| user := None; isAuthenticated := false; isLoading := false;
     error := message |}.

Definition signed_in (u : User) : AuthState :=
  {| user := Some u; isAuthenticated := true; isLoading := false;
     error := JNull |}.

Definition signed_out : AuthState :=
  {| user := None; isAuthenticated := false; isLoading := false;
     error := JNull |}.

(** The device right after [dispatch(action)]. *)
Definition dispatched (action : AuthAction) (w : World) : World :=
  log (EvDispatch action) (set_auth (authReducer (auth w) action) w).

(** The user object [login] builds from the response body. *)
Definition logged_in_user (body : JsVal) : User :=
  {| Session.username := opt_prop body "username";
     Session.role := or_else (opt_prop body "role") (JStr "user") |}.

Definition user_json (w : World) (u : User) : string :=
  JSON_stringify w (JObj [("username", Session.username u); ("role", Session.role u)]).

(** A backend that answers a login with a token. *)
Definition token_issuing_world : World :=
  sample_world ∅ (Some true)
    (HttpReply 200
       (JObj [("token", JStr "abc123"); ("username", JStr "alice")])).

Definition rejecting_world (st : Z) (message : string) : World :=
  sample_world {[TOKEN_STORAGE_KEY := "abc123"]} (Some true)
    (HttpReply st (JObj [("message", JStr message)])).

End Wire.
Import Wire.

(** ** Views used in the further properties *)
Module Views.

Definition is_clear_error (action : AuthAction) : bool :=
  match action with
  | CLEAR_ERROR => true
  | _ => false
  end.

(** The last dispatched action other than CLEAR_ERROR. *)
Definition last_effective (actions : list AuthAction) : option AuthAction :=
  last (List.filter (fun a => negb (is_clear_error a)) actions).

Definition is_request (action : AuthAction) : bool :=
  match action with
  | LOGIN_REQUEST | REGISTER_REQUEST => true
  | _ => false
  end.


(** Operations that return the body as it came. *)
Inductive PlainOp :=
| GetMovies (pageNumber pageSize : option Z)
| GetMovie (id : Z)
| CreateMovie (movie : JsVal)
| GetMoviesByActor (actorId : Z) (pageNumber pageSize : option Z)
| GetMoviesByGenre (genreId : Z) (pageNumber pageSize : option Z)
| SearchMovies (params : MovieService.MovieSearchParams)
| GetGenres (pageNumber pageSize : option Z)
| GetGenre (id : string)
| CreateGenre (genre : JsVal)
| GetFilmography (id : string).

Definition run_plain (op : PlainOp) : Promise JsVal :=
  match op with
  | GetMovies pageNumber pageSize => MovieService.getMovies pageNumber pageSize
  | GetMovie id => MovieService.getMovie id
  | CreateMovie movie => MovieService.createMovie movie
  | GetMoviesByActor actorId pageNumber pageSize =>
      MovieQueries.getMoviesByActor actorId pageNumber pageSize
  | GetMoviesByGenre genreId pageNumber pageSize =>
      MovieQueries.getMoviesByGenre genreId pageNumber pageSize
  | SearchMovies params => MovieService.searchMovies params
  | GetGenres pageNumber pageSize => GenreService.getGenres pageNumber pageSize
  | GetGenre id => GenreCrud.getGenre id
  | CreateGenre genre => GenreCrud.createGenre genre
  | GetFilmography id => PeopleService.getFilmography id
  end.

(** The call each of them makes; the search URL depends on the platform's
    encoder. *)
Definition plain_call (w : World) (op : PlainOp) : Call :=
  match op with
  | GetMovies pageNumber pageSize =>
      {| call_method := GET; call_url := MOVIES;
         call_params :=
           [("pageNumber", JNum (MovieService.or_default pageNumber 1));
            ("pageSize", JNum (MovieService.or_default pageSize 10));
            ("version", JStr MovieService.version)];
         call_data := JUndefined |}
  | GetMovie id =>
      {| call_method := GET; call_url := MOVIES +:+ "/" +:+ String_of_number id;
         call_params := [("version", JStr MovieService.version)];
         call_data := JUndefined |}
  | CreateMovie movie =>
      {| call_method := POST; call_url := MOVIES;
         call_params := [("version", JStr MovieService.version)];
         call_data := movie |}
  | GetMoviesByActor actorId pageNumber pageSize =>
      {| call_method := GET;
         call_url := MOVIES +:+ "/actor/" +:+ String_of_number actorId;
         call_params :=
           [("pageNumber", JNum (MovieService.or_default pageNumber 1));
            ("pageSize", JNum (MovieService.or_default pageSize 10));
            ("version", JStr MovieService.version)];
         call_data := JUndefined |}
  | GetMoviesByGenre genreId pageNumber pageSize =>
      {| call_method := GET;
         call_url := MOVIES +:+ "/genre/" +:+ String_of_number genreId;
         call_params :=
           [("pageNumber", JNum (MovieService.or_default pageNumber 1));
            ("pageSize", JNum (MovieService.or_default pageSize 10));
            ("version", JStr MovieService.version)];
         call_data := JUndefined |}
  | SearchMovies params =>
      {| call_method := GET;
         call_url := MovieService.searchMovies_url (URLSearchParams_encode w) params;
         call_params := []; call_data := JUndefined |}
  | GetGenres pageNumber pageSize =>
      {| call_method := GET; call_url := GENRES;
         call_params :=
           [("pageNumber", JNum (default 1 pageNumber));
            ("pageSize", JNum (default 10 pageSize));
            ("version", JStr GenreService.version)];
         call_data := JUndefined |}
  | GetGenre id =>
      {| call_method := GET; call_url := GenreCrud.GENRE_DETAILS id;
         call_params := [("version", JStr GenreService.version)];
         call_data := JUndefined |}
  | CreateGenre genre =>
      {| call_method := POST; call_url := GENRES;
         call_params := [("version", JStr GenreService.version)];
         call_data := genre |}
  | GetFilmography id =>
      {| call_method := GET; call_url := PERSON_DETAILS id +:+ "/filmography";
         call_params := []; call_data := JUndefined |}
  end.

(** What a caller of the shared client sees for a call, with [view] applied
    to a response: the outcome of the client as X1 describes it. *)
Definition client_outcome {A} (view : Response -> A) (w : World) (c : Call)
    : Outcome A :=
  if ApiClient.connected (isConnected w) then
    match backend w (outgoing w c) with
    | HttpReply st body =>
        let response :=
          {| status := st; resp_data := body; resp_config := outgoing w c |} in
        if ApiClient.validateStatus st then Fulfilled (view response)
        else if st =? 401 then Rejected session_expired
        else Rejected
               (AxiosError ("Request failed with status code " +:+ pretty st)
                  (outgoing w c) (Some response))
    | HttpNoReply msg => Rejected (AxiosError msg (outgoing w c) None)
    end
  else Rejected no_connection.

(** Operations that return nothing. *)
Inductive VoidOp :=
| UpdateMovie (id : Z) (movie : JsVal)
| DeleteMovie (id : Z)
| UpdateGenre (id : string) (genre : JsVal)
| DeleteGenre (id : string)
| DeletePerson (id : string).

Definition run_void (op : VoidOp) : Promise unit :=
  match op with
  | UpdateMovie id movie => MovieService.updateMovie id movie
  | DeleteMovie id => MovieService.deleteMovie id
  | UpdateGenre id genre => GenreCrud.updateGenre id genre
  | DeleteGenre id => GenreCrud.deleteGenre id
  | DeletePerson id => PeopleService.deletePerson id
  end.

Definition void_call (op : VoidOp) : Call :=
  match op with
  | UpdateMovie id movie =>
      {| call_method := PUT; call_url := MOVIES +:+ "/" +:+ String_of_number id;
         call_params := [("version", JStr MovieService.version)];
         call_data := movie |}
  | DeleteMovie id =>
      {| call_method := DELETE; call_url := MOVIES +:+ "/" +:+ String_of_number id;
         call_params := [("version", JStr MovieService.version)];
         call_data := JUndefined |}
  | UpdateGenre id genre =>
      {| call_method := PUT; call_url := GenreCrud.GENRE_DETAILS id;
         call_params := [("version", JStr GenreService.version)];
         call_data := genre |}
  | DeleteGenre id =>
      {| call_method := DELETE; call_url := GenreCrud.GENRE_DETAILS id;
         call_params := [("version", JStr GenreService.version)];
         call_data := JUndefined |}
  | DeletePerson id =>
      {| call_method := DELETE; call_url := ADMIN_PEOPLE +:+ "/" +:+ id;
         call_params := []; call_data := JUndefined |}
  end.

(** Inputs of the search screen by which the user asks for results. *)
Definition asks_for_results (i : SearchScreen.Input) : bool :=
  match i with
  | SearchScreen.Submit | SearchScreen.Apply | SearchScreen.ResetFilters => true
  | _ => false
  end.

Definition is_refresh (i : Home.Input) : bool :=
  match i with
  | Home.Refresh => true
  | _ => false
  end.

(** A render in which the query has stopped fetching. *)
Definition fetch_settled (i : Home.Input) : bool :=
  match i with
  | Home.FetchingChanged q => negb (Home.isFetching q)
  | _ => false
  end.


Definition movie_json (n : Z) (name : string) (extra : list (string * JsVal))
    : JsVal :=
  JObj ([("id", JNum n); ("title", JStr name); ("releaseYear", JNum 1979);
         ("plot", JNull); ("runtimeMinutes", JNum 117); ("posterUrl", JNull);
         ("directorName", JStr "Ridley Scott");
         ("genres", JArr [JStr "Horror"]); ("actors", JArr [])] ++ extra).


Definition keys_of (v : JsVal) : list string :=
  match v with
  | JObj fields => fields.*1
  | _ => []
  end.

End Views.
Import Views.

(** * Properties *)

(** ** The session reducer *)
Section SessionFacts.

Lemma initialState_coherent : session_coherent initialState.
Proof.
  split; cbn.
  - discriminate.
  - intros [u Hu]. discriminate.
Qed.

Lemma authReducer_coherent state action :
  session_coherent state -> session_coherent (authReducer state action).
Proof.
  unfold session_coherent.
  destruct action; cbn; intros Hs; try exact Hs;
    (split; [ try discriminate; eauto | intros [u Hu]; congruence ]).
Qed.

Lemma reachable_coherent state : reachable state -> session_coherent state.
Proof.
  induction 1 as [| state action _ IH].
  - exact initialState_coherent.
  - apply authReducer_coherent, IH.
Qed.

Lemma run_reachable actions : reachable (Session.run actions).
Proof.
  unfold Session.run.
  induction actions as [| action actions IH] using rev_ind; cbn.
  - constructor.
  - rewrite foldl_app. cbn. constructor. exact IH.
Qed.

Lemma reachable_run state :
  reachable state -> exists actions, state = Session.run actions.
Proof.
  induction 1 as [| state action _ [actions ->]].
  - exists []. reflexivity.
  - exists (actions ++ [action]). unfold Session.run. rewrite foldl_app. reflexivity.
Qed.

(** C6. In every session state obtained from the initial state by a sequence
    of reducer actions, [isAuthenticated] is true exactly when [user] is not
    null. *)
Theorem authenticated_iff_user (actions : list AuthAction) :
  isAuthenticated (Session.run actions) = true
  <-> user (Session.run actions) <> None.
Proof.
  pose proof (reachable_coherent _ (run_reachable actions)) as [H1 H2].
  split.
  - intros H. destruct (H1 H) as [u Hu]. congruence.
  - intros H. apply H2. destruct (user (Session.run actions)); [eauto | congruence].
Qed.

End SessionFacts.

(** ** The HTTP client *)
Section ApiClientFacts.

Import ApiClient.

Lemma sent_app evs1 evs2 : sent (evs1 ++ evs2) = sent evs1 ++ sent evs2.
Proof. unfold sent. apply omap_app. Qed.

(** The request phase when the device is online: connectivity is checked,
    the token is read, and the configuration goes to the adapter. *)
Lemma request_online c w :
  connected (isConnected w) = true ->
  request c w =
  then_
    (dispatchRequest
       (if token_truthy (storage w !! TOKEN_STORAGE_KEY)
        then set_header "Authorization"
               ("Bearer " +:+ default "" (storage w !! TOKEN_STORAGE_KEY))
               (mergeConfig w c)
        else mergeConfig w c))
    response_onFulfilled response_onRejected
    (log (EvGetItem TOKEN_STORAGE_KEY) (log EvNetInfoFetch w)).
Proof.
  intros Hc.
  unfold request, then_ at 1 2 3, resolve, request_onFulfilled, await, then_ at 1.
  cbn. rewrite Hc. cbn.
  unfold then_ at 1. cbn.
  destruct (token_truthy (storage w !! TOKEN_STORAGE_KEY)); reflexivity.
Qed.

Lemma request_offline c w :
  connected (isConnected w) = false ->
  request c w =
  (Rejected (Error (JStr "No internet connection")), log EvNetInfoFetch w).
Proof.
  intros Hc.
  unfold request, then_ at 1 2 3, resolve, request_onFulfilled, await, then_ at 1.
  cbn. rewrite Hc. reflexivity.
Qed.

Lemma connected_false c : c <> Some true -> connected c = false.
Proof. destruct c as [[]|]; cbn; congruence. Qed.

(** The adapter logs exactly the request it is given and touches nothing
    else. *)
Lemma dispatchRequest_world config w :
  (dispatchRequest config w).2 = log (EvHttp config) w.
Proof.
  unfold dispatchRequest.
  destruct (backend w config) as [st body | msg]; [destruct (validateStatus st) |];
    reflexivity.
Qed.

Lemma response_onRejected_unauthorized error w :
  is_unauthorized error = true ->
  response_onRejected error w =
  (Rejected (Error (JStr "Session expired. Please login again.")),
   log (EvRemoveItem TOKEN_STORAGE_KEY)
     (set_storage (delete TOKEN_STORAGE_KEY (storage w)) w)).
Proof. intros H. unfold response_onRejected. rewrite H. reflexivity. Qed.

Lemma response_onRejected_other error w :
  is_unauthorized error = false ->
  response_onRejected error w = (Rejected error, w).
Proof. intros H. unfold response_onRejected. rewrite H. reflexivity. Qed.

Lemma is_unauthorized_spec error :
  is_unauthorized error = true
  <-> exists r, error_response error = Some r /\ status r = 401.
Proof.
  unfold is_unauthorized. destruct (error_response error) as [r|].
  - rewrite Z.eqb_eq. split; [eauto | intros (r' & [= <-] & H); exact H].
  - split; [discriminate | intros (r' & [=] & _)].
Qed.

(** The response phase never puts a request on the wire. *)
Lemma response_onRejected_sent error w :
  sent (trace (response_onRejected error w).2) = sent (trace w).
Proof.
  destruct (is_unauthorized error) eqn:H.
  - rewrite response_onRejected_unauthorized by exact H. cbn.
    rewrite sent_app. cbn. apply app_nil_r.
  - rewrite response_onRejected_other by exact H. reflexivity.
Qed.

(** An online request puts exactly one request on the wire, the merged
    configuration with the Authorization header decided by the stored token. *)
Lemma request_online_sent c w :
  connected (isConnected w) = true ->
  sent_during (request c) w
    [if token_truthy (storage w !! TOKEN_STORAGE_KEY)
     then set_header "Authorization"
            ("Bearer " +:+ default "" (storage w !! TOKEN_STORAGE_KEY))
            (mergeConfig w c)
     else mergeConfig w c].
Proof.
  intros Hc. unfold sent_during. rewrite request_online by exact Hc.
  set (cfg := if token_truthy _ then _ else _).
  set (w2 := log _ (log _ w)).
  unfold then_.
  pose proof (dispatchRequest_world cfg w2) as Hw.
  destruct (dispatchRequest cfg w2) as [[r | e] w3]; cbn in Hw; subst w3.
  - cbn. rewrite !sent_app. cbn. rewrite !app_nil_r. reflexivity.
  - rewrite response_onRejected_sent. cbn. rewrite !sent_app. cbn.
    rewrite !app_nil_r. reflexivity.
Qed.

Lemma mergeConfig_no_authorization w c :
  headers (mergeConfig w c) !! "Authorization" = None.
Proof.
  cbn. unfold default_headers.
  rewrite !lookup_insert_ne by discriminate. apply lookup_empty.
Qed.

(** An online request answered with a status axios accepts resolves with
    the response, having checked connectivity, read the token and sent the
    request, in that order. *)
Lemma request_online_ok c w st body :
  connected (isConnected w) = true ->
  (forall config, backend w config = HttpReply st body) ->
  validateStatus st = true ->
  exists config,
    request c w =
    (Fulfilled {| status := st; resp_data := body; resp_config := config |},
     log (EvHttp config)
       (log (EvGetItem TOKEN_STORAGE_KEY) (log EvNetInfoFetch w))).
Proof.
  intros Hc Hb Hv. eexists.
  rewrite request_online by exact Hc.
  unfold then_ at 1, dispatchRequest. cbn. rewrite Hb, Hv. reflexivity.
Qed.

(** C1, as amended. Every request going out through the shared client while
    the device is online carries [Authorization: Bearer <token>] when a
    non-empty token is stored under the token key at that time, and no
    Authorization header when the key is absent or holds the empty string. *)
Theorem request_carries_bearer_token (c : Call) (w : World) :
  connected (isConnected w) = true ->
  exists config,
    sent_during (request c) w [config] /\
    match storage w !! TOKEN_STORAGE_KEY with
    | Some token =>
        if decide (token = "")
        then headers config !! "Authorization" = None
        else headers config !! "Authorization" = Some ("Bearer " +:+ token)
    | None => headers config !! "Authorization" = None
    end.
Proof.
  intros Hc. eexists. split; [exact (request_online_sent c w Hc) |].
  destruct (storage w !! TOKEN_STORAGE_KEY) as [token|] eqn:Htok;
    unfold token_truthy.
  - destruct (decide (token = "")) as [-> | Hne].
    + exact (mergeConfig_no_authorization w c).
    + destruct (String.eqb_spec token ""); [contradiction |].
      apply lookup_insert_eq.
  - exact (mergeConfig_no_authorization w c).
Qed.

Lemma request_carries_bearer_token_witness :
  exists config,
    sent_during (request sample_call) (stored_token_world (HttpReply 200 JNull))
      [config] /\
    headers config !! "Authorization" = Some "Bearer abc123".
Proof.
  destruct (request_carries_bearer_token sample_call
              (stored_token_world (HttpReply 200 JNull)) eq_refl)
    as (config & Hsent & Hh).
  exists config. split; [exact Hsent | exact Hh].
Defined.

(** C1 as stated fails for a stored empty string. After a login that the
    backend answered with an empty token, that token is stored under the
    token key, yet the next request leaves without an Authorization header
    instead of with [Bearer ] followed by the stored value. *)
Lemma stored_empty_token_sends_no_header :
  storage empty_token_world !! TOKEN_STORAGE_KEY = Some "" /\
  exists config,
    sent_during (request sample_call) empty_token_world [config] /\
    headers config !! "Authorization" = None /\
    headers config !! "Authorization" <> Some ("Bearer " +:+ "").
Proof.
  split; [vm_compute; reflexivity |].
  eexists.
  split; [exact (request_online_sent sample_call empty_token_world eq_refl) |].
  split; [vm_compute; reflexivity | vm_compute; discriminate].
Qed.

(** C2. A rejection carrying a response with status 401 removes the stored
    token (a later read of the token key finds nothing), touches no other
    key, sends nothing, and rejects with the session-expired error; any
    other rejection reaches the caller as it is, with the device untouched.
    End to end: an online request answered with 401 sends that one request
    only and comes back rejected with the session-expired error and the
    token gone. *)
Theorem unauthorized_response_clears_token :
  (forall error r w,
     error_response error = Some r -> status r = 401 ->
     let after := (response_onRejected error w).2 in
     (response_onRejected error w).1
       = Rejected (Error (JStr "Session expired. Please login again.")) /\
     storage after = delete TOKEN_STORAGE_KEY (storage w) /\
     (AsyncStorage_getItem TOKEN_STORAGE_KEY after).1 = Fulfilled None /\
     events_during (response_onRejected error) w [EvRemoveItem TOKEN_STORAGE_KEY] /\
     sent_during (response_onRejected error) w []) /\
  (forall error w,
     (forall r, error_response error = Some r -> status r <> 401) ->
     response_onRejected error w = (Rejected error, w)) /\
  (forall c w body,
     connected (isConnected w) = true ->
     (forall config, backend w config = HttpReply 401 body) ->
     (request c w).1
       = Rejected (Error (JStr "Session expired. Please login again.")) /\
     storage (request c w).2 !! TOKEN_STORAGE_KEY = None /\
     exists config, sent_during (request c) w [config]).
Proof.
  split; [| split].
  - intros error r w Hr Hs after.
    assert (is_unauthorized error = true) as Hu
      by (apply is_unauthorized_spec; eauto).
    subst after. unfold events_during, sent_during.
    rewrite response_onRejected_unauthorized by exact Hu. cbn.
    repeat split.
    + apply f_equal, lookup_delete_eq.
    + rewrite sent_app. reflexivity.
  - intros error w Hne. apply response_onRejected_other.
    destruct (is_unauthorized error) eqn:Hu; [| reflexivity].
    apply is_unauthorized_spec in Hu as (r & Hr & Hs).
    destruct (Hne r Hr Hs).
  - intros c w body Hc Hb.
    split; [| split].
    + rewrite request_online by exact Hc. unfold then_ at 1, dispatchRequest.
      cbn. rewrite Hb. cbn. reflexivity.
    + rewrite request_online by exact Hc. unfold then_ at 1, dispatchRequest.
      cbn. rewrite Hb. cbn. apply lookup_delete_eq.
    + eexists. exact (request_online_sent c w Hc).
Qed.

Lemma unauthorized_response_clears_token_witness :
  (request sample_call (stored_token_world (HttpReply 401 JNull))).1
    = Rejected (Error (JStr "Session expired. Please login again.")) /\
  storage (request sample_call (stored_token_world (HttpReply 401 JNull))).2
    !! TOKEN_STORAGE_KEY = None /\
  response_onRejected TypeError offline_world = (Rejected TypeError, offline_world).
Proof.
  destruct unauthorized_response_clears_token as (_ & Hother & Hrequest).
  destruct (Hrequest sample_call (stored_token_world (HttpReply 401 JNull)) JNull
              eq_refl (fun _ => eq_refl)) as (Hres & Hgone & _).
  split; [exact Hres |]. split; [exact Hgone |].
  apply Hother. intros r Hr. discriminate Hr.
Defined.

(** C3. A request attempted while the device is not connected rejects with
    the [No internet connection] error after the connectivity check alone:
    the token is not read, no header is attached, nothing is sent, and
    storage is unchanged. *)
Theorem offline_request_fails_fast (c : Call) (w : World) :
  isConnected w <> Some true ->
  (request c w).1 = Rejected (Error (JStr "No internet connection")) /\
  events_during (request c) w [EvNetInfoFetch] /\
  sent_during (request c) w [] /\
  storage (request c w).2 = storage w.
Proof.
  intros Hc. apply connected_false in Hc.
  unfold events_during, sent_during. rewrite request_offline by exact Hc. cbn.
  rewrite sent_app. repeat split.
Qed.

Lemma offline_request_fails_fast_witness :
  (request sample_call offline_world).1
    = Rejected (Error (JStr "No internet connection")) /\
  sent_during (request sample_call) offline_world [].
Proof.
  destruct (offline_request_fails_fast sample_call offline_world)
    as (Hres & _ & Hsent & _).
  - discriminate.
  - split; [exact Hres | exact Hsent].
Defined.

End ApiClientFacts.

(** ** The auth provider *)
Section AuthContextFacts.

Import ApiClient AuthContext.

Lemma prop_defined body k v k' :
  prop body k = Some v -> prop body k' = Some (opt_prop body k').
Proof. unfold opt_prop. destruct body; cbn; congruence. Qed.

(** The whole run of [register] when the call succeeds and the body carries
    no truthy token. *)
Lemma register_without_token_run username email password w st body token :
  connected (isConnected w) = true ->
  (forall config, backend w config = HttpReply st body) ->
  validateStatus st = true ->
  prop body "token" = Some token ->
  truthy token = false ->
  exists config,
    register username email password w =
    (Fulfilled true,
     log (EvDispatch (REGISTER_SUCCESS (registered_user username body)))
       (set_auth
          (authReducer (authReducer (auth w) REGISTER_REQUEST)
             (REGISTER_SUCCESS (registered_user username body)))
          (log (EvHttp config)
             (log (EvGetItem TOKEN_STORAGE_KEY)
                (log EvNetInfoFetch
                   (log (EvDispatch REGISTER_REQUEST)
                      (set_auth (authReducer (auth w) REGISTER_REQUEST) w))))))).
Proof.
  intros Hc Hb Hv Ht Hf.
  unfold register.
  unfold await at 1. unfold then_ at 1. cbn [dispatch].
  set (w1 := log _ _).
  unfold try_catch, then_ at 1, await at 1, then_ at 1, post.
  destruct (request_online_ok
              {| call_method := POST; call_url := REGISTER; call_params := [];
                 call_data :=
                   JObj [("username", JStr username); ("email", JStr email);
                         ("password", JStr password);
                         ("confirmPassword", JStr password)] |}
              w1 st body Hc Hb Hv) as [config ->].
  exists config.
  unfold data_prop. cbn [resp_data].
  rewrite (prop_defined _ _ _ "username" Ht), (prop_defined _ _ _ "role" Ht), Ht.
  unfold await, then_, resolve. rewrite Hf. reflexivity.
Qed.

(** The whole run of [register] when the call succeeds with no body at
    all: reading [response.data.username] throws, and the handler reports
    the fallback message. *)
Lemma register_without_body_run username email password w st body :
  connected (isConnected w) = true ->
  (forall config, backend w config = HttpReply st body) ->
  validateStatus st = true ->
  body = JNull \/ body = JUndefined ->
  exists config,
    register username email password w =
    (Rejected (Error (JStr "Registration failed")),
     log (EvDispatch (REGISTER_FAILURE (JStr "Registration failed")))
       (set_auth
          (authReducer (authReducer (auth w) REGISTER_REQUEST)
             (REGISTER_FAILURE (JStr "Registration failed")))
          (log (EvHttp config)
             (log (EvGetItem TOKEN_STORAGE_KEY)
                (log EvNetInfoFetch
                   (log (EvDispatch REGISTER_REQUEST)
                      (set_auth (authReducer (auth w) REGISTER_REQUEST) w))))))).
Proof.
  intros Hc Hb Hv Hbody.
  unfold register.
  unfold await at 1. unfold then_ at 1. cbn [dispatch].
  set (w1 := log _ _).
  unfold try_catch, then_ at 1, await at 1, then_ at 1, post.
  destruct (request_online_ok
              {| call_method := POST; call_url := REGISTER; call_params := [];
                 call_data :=
                   JObj [("username", JStr username); ("email", JStr email);
                         ("password", JStr password);
                         ("confirmPassword", JStr password)] |}
              w1 st body Hc Hb Hv) as [config ->].
  exists config.
  unfold data_prop. cbn [resp_data].
  destruct Hbody as [-> | ->]; reflexivity.
Qed.

(** C9, as amended. When the register call succeeds and the response body
    is not [null] or [undefined] but has no token (the property is missing
    or falsy), [register] still dispatches REGISTER_SUCCESS with a user
    object and resolves to [true], so the session is authenticated, while
    nothing is written to storage: neither the token key nor the
    user-profile key changes. When the call succeeds with a [null] or
    [undefined] body, [register] fails instead: it dispatches
    REGISTER_FAILURE with [Registration failed] and rejects with that
    message, the session is not authenticated, and storage is unchanged. *)
Theorem register_without_token_authenticates
    (username email password : string) (w : World)
    (st : Z) (body : JsVal) :
  connected (isConnected w) = true ->
  (forall config, backend w config = HttpReply st body) ->
  validateStatus st = true ->
  let result := register username email password w in
  let u := registered_user username body in
  (forall token,
     prop body "token" = Some token ->
     truthy token = false ->
     result.1 = Fulfilled true /\
     auth result.2 =
       {| user := Some u; isAuthenticated := true; isLoading := false;
          error := JNull |} /\
     storage result.2 = storage w /\
     storage result.2 !! TOKEN_STORAGE_KEY = storage w !! TOKEN_STORAGE_KEY /\
     storage result.2 !! USER_DATA_KEY = storage w !! USER_DATA_KEY /\
     exists config,
       events_during (register username email password) w
         [EvDispatch REGISTER_REQUEST; EvNetInfoFetch;
          EvGetItem TOKEN_STORAGE_KEY; EvHttp config;
          EvDispatch (REGISTER_SUCCESS u)]) /\
  (body = JNull \/ body = JUndefined ->
     result.1 = Rejected (Error (JStr "Registration failed")) /\
     auth result.2 =
       {| user := None; isAuthenticated := false; isLoading := false;
          error := JStr "Registration failed" |} /\
     storage result.2 = storage w /\
     exists config,
       events_during (register username email password) w
         [EvDispatch REGISTER_REQUEST; EvNetInfoFetch;
          EvGetItem TOKEN_STORAGE_KEY; EvHttp config;
          EvDispatch (REGISTER_FAILURE (JStr "Registration failed"))]).
Proof.
  intros Hc Hb Hv result u. subst result u. split.
  - intros token Ht Hf.
    destruct (register_without_token_run username email password w st body token
                Hc Hb Hv Ht Hf) as [config Hrun].
    unfold events_during. rewrite Hrun. cbn.
    repeat split. exists config. rewrite <- !app_assoc. reflexivity.
  - intros Hbody.
    destruct (register_without_body_run username email password w st body
                Hc Hb Hv Hbody) as [config Hrun].
    unfold events_during. rewrite Hrun. cbn.
    repeat split. exists config. rewrite <- !app_assoc. reflexivity.
Qed.

Lemma register_without_token_authenticates_witness :
  ((register "alice" "alice@example.org" "secret" tokenless_register_world).1
     = Fulfilled true /\
   isAuthenticated
     (auth (register "alice" "alice@example.org" "secret" tokenless_register_world).2)
     = true /\
   storage (register "alice" "alice@example.org" "secret" tokenless_register_world).2
     !! TOKEN_STORAGE_KEY = None) /\
  ((register "alice" "alice@example.org" "secret" bodyless_register_world).1
     = Rejected (Error (JStr "Registration failed")) /\
   isAuthenticated
     (auth (register "alice" "alice@example.org" "secret" bodyless_register_world).2)
     = false).
Proof.
  split.
  - destruct (proj1 (register_without_token_authenticates "alice"
                       "alice@example.org" "secret" tokenless_register_world 200
                       (JObj [("username", JStr "alice")])
                       eq_refl (fun _ => eq_refl) eq_refl)
                JUndefined eq_refl eq_refl)
      as (Hres & Hauth & _ & Htok & _).
    split; [exact Hres |]. split; [rewrite Hauth; reflexivity |].
    rewrite Htok. reflexivity.
  - destruct (proj2 (register_without_token_authenticates "alice"
                       "alice@example.org" "secret" bodyless_register_world 200
                       JNull eq_refl (fun _ => eq_refl) eq_refl)
                (or_introl eq_refl))
      as (Hres & Hauth & _).
    split; [exact Hres | rewrite Hauth; reflexivity].
Defined.

(** C9 as stated fails for a success response without a body: such a body
    contains no token value, the call itself succeeds, yet [register]
    rejects and leaves the session unauthenticated. *)
Lemma register_without_body_fails :
  opt_prop JNull "token" = JUndefined /\
  (exists response,
     (post REGISTER
        (JObj [("username", JStr "alice"); ("email", JStr "alice@example.org");
               ("password", JStr "secret"); ("confirmPassword", JStr "secret")])
        [] bodyless_register_world).1 = Fulfilled response /\
     validateStatus (status response) = true /\
     resp_data response = JNull) /\
  (register "alice" "alice@example.org" "secret" bodyless_register_world).1
    = Rejected (Error (JStr "Registration failed")) /\
  isAuthenticated
    (auth (register "alice" "alice@example.org" "secret" bodyless_register_world).2)
    = false /\
  user (auth (register "alice" "alice@example.org" "secret" bodyless_register_world).2)
    = None.
Proof.
  split; [reflexivity |].
  split; [eexists; repeat split |].
  repeat split.
Qed.

(** C10. The [logout] helper of the HTTP client, which is what runs on an
    unauthorized response, removes the token key and nothing else: the
    [user_data] entry and every other key keep their values. [logoutUser]
    removes the [user_data] key as well, and only these two. *)
Theorem logout_removes_only_token (w : World) :
  storage (logout w).2 = delete TOKEN_STORAGE_KEY (storage w) /\
  storage (logout w).2 !! TOKEN_STORAGE_KEY = None /\
  storage (logout w).2 !! USER_DATA_KEY = storage w !! USER_DATA_KEY /\
  (forall key, key <> TOKEN_STORAGE_KEY ->
     storage (logout w).2 !! key = storage w !! key) /\
  (forall error, is_unauthorized error = true ->
     storage (response_onRejected error w).2 = storage (logout w).2) /\
  storage (logoutUser w).2
    = delete USER_DATA_KEY (delete TOKEN_STORAGE_KEY (storage w)) /\
  storage (logoutUser w).2 !! TOKEN_STORAGE_KEY = None /\
  storage (logoutUser w).2 !! USER_DATA_KEY = None /\
  (forall key, key <> TOKEN_STORAGE_KEY -> key <> USER_DATA_KEY ->
     storage (logoutUser w).2 !! key = storage w !! key).
Proof.
  cbn. repeat split.
  - apply lookup_delete_eq.
  - apply lookup_delete_ne. discriminate.
  - intros key Hk. apply lookup_delete_ne. congruence.
  - intros error Hu. rewrite response_onRejected_unauthorized by exact Hu.
    reflexivity.
  - rewrite lookup_delete_ne by discriminate. apply lookup_delete_eq.
  - apply lookup_delete_eq.
  - intros key Hk Hu. rewrite !lookup_delete_ne by congruence. reflexivity.
Qed.

Lemma logout_removes_only_token_witness :
  storage (logout logged_in_world).2 !! TOKEN_STORAGE_KEY = None /\
  storage (logout logged_in_world).2 !! USER_DATA_KEY = Some "{}" /\
  storage (logoutUser logged_in_world).2 !! USER_DATA_KEY = None.
Proof.
  destruct (logout_removes_only_token logged_in_world)
    as (_ & Htok & Huser & _ & _ & _ & _ & Hgone & _).
  split; [exact Htok |]. split; [rewrite Huser; reflexivity | exact Hgone].
Defined.

End AuthContextFacts.

(** ** The movie search query *)
Section SearchFacts.

Import ApiClient MovieService.

Lemma string_app_cons ch (a b : string) : String ch a +:+ b = String ch (a +:+ b).
Proof. reflexivity. Qed.

Lemma string_app_assoc (a b c : string) : (a +:+ b) +:+ c = a +:+ b +:+ c.
Proof.
  induction a as [| ch a IH]; [reflexivity |].
  rewrite !string_app_cons. f_equal. exact IH.
Qed.

Lemma string_app_nil_r (a : string) : a +:+ "" = a.
Proof.
  induction a as [| ch a IH]; [reflexivity |].
  rewrite string_app_cons. f_equal. exact IH.
Qed.

Lemma appendGenreIds_app q ids :
  appendGenreIds q ids = q ++ (genreId_param <$> ids).
Proof.
  unfold appendGenreIds. revert q.
  induction ids as [| genreId ids IH]; intros q; cbn.
  - now rewrite app_nil_r.
  - rewrite IH. unfold append. now rewrite <- app_assoc.
Qed.

Lemma queryParams_app params :
  queryParams params
  = basicParams params ++ (genreId_param <$> default [] (genreIds params)).
Proof.
  unfold queryParams. destruct (genreIds params) as [ids |]; cbn.
  - destruct ids as [| genreId ids].
    + cbn. now rewrite app_nil_r.
    + replace (0 <? Z.of_nat (length (genreId :: ids))) with true
        by (symmetry; apply Z.ltb_lt; cbn; lia).
      apply appendGenreIds_app.
  - now rewrite app_nil_r.
Qed.

Lemma getAll_app name q1 q2 : getAll name (q1 ++ q2) = getAll name q1 ++ getAll name q2.
Proof. apply filter_app. Qed.

Lemma getAll_append_ne name q k v :
  k <> name -> getAll name (append q k v) = getAll name q.
Proof.
  intros Hk. unfold append. rewrite getAll_app.
  replace (getAll name [(k, v)]) with (@nil (string * string)).
  - apply app_nil_r.
  - unfold getAll. cbn. now rewrite decide_False by exact Hk.
Qed.

Lemma basicParams_no_GenreIds params : getAll "GenreIds" (basicParams params) = [].
Proof.
  unfold basicParams.
  rewrite getAll_append_ne by discriminate.
  destruct (given_number (releaseYear params));
    [rewrite getAll_append_ne by discriminate |];
    (destruct (given (sortOrder params));
       [rewrite getAll_append_ne by discriminate |]);
    (destruct (given (sortBy params));
       [rewrite getAll_append_ne by discriminate |]);
    rewrite !getAll_append_ne by discriminate;
    (destruct (given (searchTerm params));
       [rewrite getAll_append_ne by discriminate |]);
    reflexivity.
Qed.

Lemma getAll_genreId_params ids :
  getAll "GenreIds" (genreId_param <$> ids) = genreId_param <$> ids.
Proof.
  induction ids as [| genreId ids IH]; [reflexivity |].
  unfold getAll in *. cbn in *.
  rewrite decide_True by reflexivity. f_equal. exact IH.
Qed.

Lemma basicParams_not_nil params : basicParams params <> [].
Proof.
  unfold basicParams, append at 1. intros H.
  apply app_eq_nil in H as [_ H]. discriminate H.
Qed.

(** [join] seen from its first element: every later part is preceded by
    the separator. *)
Lemma join_cons sep x parts :
  join sep (x :: parts) = x +:+ foldr (fun y acc => sep +:+ y +:+ acc) "" parts.
Proof.
  revert x. induction parts as [| y parts IH]; intros x.
  - simpl. now rewrite string_app_nil_r.
  - change (join sep (x :: y :: parts)) with (x +:+ sep +:+ join sep (y :: parts)).
    rewrite IH. reflexivity.
Qed.

Lemma foldr_sep_app sep parts1 parts2 :
  foldr (fun y acc => sep +:+ y +:+ acc) "" (parts1 ++ parts2)
  = foldr (fun y acc => sep +:+ y +:+ acc) "" parts1
      +:+ foldr (fun y acc => sep +:+ y +:+ acc) "" parts2.
Proof.
  induction parts1 as [| y parts1 IH]; simpl; [reflexivity |].
  rewrite IH. now rewrite !string_app_assoc.
Qed.

Lemma genreIds_suffix_foldr enc ids :
  foldr (fun y acc => "&" +:+ y +:+ acc) ""
    (pair_toString enc <$> (genreId_param <$> ids))
  = genreIds_suffix enc ids.
Proof.
  induction ids as [| genreId ids IH]; [reflexivity |].
  change (foldr _ _ _) with
    ("&" +:+ pair_toString enc (genreId_param genreId)
       +:+ foldr (fun y acc => "&" +:+ y +:+ acc) ""
             (pair_toString enc <$> (genreId_param <$> ids))).
  rewrite IH. unfold pair_toString, genreId_param. cbn [fst snd genreIds_suffix].
  now rewrite !string_app_assoc.
Qed.

Lemma toString_app_genreIds enc (q : URLSearchParams) ids :
  q <> [] ->
  toString enc (q ++ (genreId_param <$> ids))
  = toString enc q +:+ genreIds_suffix enc ids.
Proof.
  destruct q as [| kv q]; [congruence | intros _].
  unfold toString. rewrite fmap_app.
  change (pair_toString enc <$> kv :: q)
    with (pair_toString enc kv :: (pair_toString enc <$> q)).
  rewrite <- app_comm_cons, !join_cons, foldr_sep_app, genreIds_suffix_foldr.
  now rewrite string_app_assoc.
Qed.

(** C8. [searchMovies] appends one [GenreIds] entry per genre id, in list
    order, after the other parameters, so the entries stored under
    [GenreIds] are exactly the ids, one each, and the query string of the
    request URL ends with one [&GenreIds=<id>] per id; with [genreIds] absent
    or empty there is no [GenreIds] entry and the query string is that of the
    other parameters alone. The URL built this way is the one the request
    goes out with. *)
Theorem genreIds_are_repeated_parameters (params : MovieSearchParams) :
  let ids := default [] (genreIds params) in
  queryParams params = basicParams params ++ (genreId_param <$> ids) /\
  getAll "GenreIds" (queryParams params) = genreId_param <$> ids /\
  length (getAll "GenreIds" (queryParams params)) = length ids /\
  (forall enc,
     searchMovies_url enc params
     = MOVIES +:+ "/search?" +:+ toString enc (basicParams params)
         +:+ genreIds_suffix enc ids) /\
  (ids = [] ->
     getAll "GenreIds" (queryParams params) = [] /\
     forall enc,
       searchMovies_url enc params
       = MOVIES +:+ "/search?" +:+ toString enc (basicParams params)) /\
  (forall w,
     connected (isConnected w) = true ->
     exists config,
       sent_during (searchMovies params) w [config] /\
       url config = searchMovies_url (URLSearchParams_encode w) params /\
       Http.params config = []).
Proof.
  intros ids. subst ids.
  assert (getAll "GenreIds" (queryParams params)
          = genreId_param <$> default [] (genreIds params)) as Hall.
  { rewrite queryParams_app, getAll_app, basicParams_no_GenreIds.
    apply getAll_genreId_params. }
  assert (forall enc,
            searchMovies_url enc params
            = MOVIES +:+ "/search?" +:+ toString enc (basicParams params)
                +:+ genreIds_suffix enc (default [] (genreIds params))) as Hurl.
  { intros enc. unfold searchMovies_url.
    rewrite queryParams_app.
    now rewrite toString_app_genreIds by apply basicParams_not_nil. }
  split; [apply queryParams_app |].
  split; [exact Hall |].
  split; [rewrite Hall; apply length_fmap |].
  split; [exact Hurl |].
  split.
  - intros Hnil. rewrite Hall, Hnil. split; [reflexivity |].
    intros enc. rewrite Hurl, Hnil. cbn [genreIds_suffix].
    now rewrite string_app_nil_r.
  - intros w Hc. eexists. split.
    + unfold sent_during, searchMovies, await, then_ at 1, get.
      pose proof (request_online_sent
                    {| call_method := GET;
                       call_url := searchMovies_url (URLSearchParams_encode w) params;
                       call_params := []; call_data := JUndefined |} w Hc) as Hs.
      unfold sent_during in Hs.
      destruct (request _ w) as [[r | e] w'] eqn:Hreq; cbn in Hs |- *; exact Hs.
    + destruct (token_truthy (storage w !! TOKEN_STORAGE_KEY)); split; reflexivity.
Qed.

Lemma genreIds_are_repeated_parameters_witness :
  getAll "GenreIds" (queryParams sample_search)
    = [("GenreIds", "28"); ("GenreIds", "12")] /\
  searchMovies_url (fun x => x) sample_search
    = "/api/v1/movies/search?PageNumber=1&PageSize=20&SortBy=title&version=v1&GenreIds=28&GenreIds=12" /\
  exists config,
    sent_during (searchMovies sample_search) (stored_token_world (HttpReply 200 JNull))
      [config] /\
    url config
      = "/api/v1/movies/search?PageNumber=1&PageSize=20&SortBy=title&version=v1&GenreIds=28&GenreIds=12".
Proof.
  destruct (genreIds_are_repeated_parameters sample_search)
    as (_ & Hall & _ & Hurl & _ & Hsent).
  split; [rewrite Hall; reflexivity |].
  split; [rewrite Hurl; reflexivity |].
  destruct (Hsent (stored_token_world (HttpReply 200 JNull)) eq_refl)
    as (config & Hs & Hu & _).
  exists config. split; [exact Hs | rewrite Hu; reflexivity].
Defined.

End SearchFacts.

(** ** The movie list's accumulation *)
Section HomeFacts.

Import Home.

Lemma allMovies_effect_items q s d its :
  data q = Some d -> items d = Some its ->
  allMovies (allMovies_effect q s)
  = if page s =? 1 then its else allMovies s ++ its.
Proof.
  intros Hd Hi. unfold allMovies_effect. rewrite Hd, Hi.
  destruct (page s =? 1); reflexivity.
Qed.

Lemma allMovies_effect_page q s : page (allMovies_effect q s) = page s.
Proof.
  unfold allMovies_effect.
  destruct (data q) as [d |]; [| reflexivity].
  destruct (items d); [| reflexivity].
  destruct (page s =? 1); reflexivity.
Qed.

Lemma two_pages_run s its1 its2 :
  page s = 1 -> isLoadingMore s = false ->
  Home.run s (two_pages its1 its2)
  = {| page := 2; allMovies := its1 ++ its2; isLoadingMore := false |}.
Proof.
  intros Hp Hl. destruct s as [p ms l]. cbn in Hp, Hl. subst p l.
  reflexivity.
Qed.

(** C7, as amended. On the movie list screen, fetching page 1 and then
    page 2 leaves the accumulated list equal to page 1's items followed by
    page 2's items, so its length is the sum of the two counts. Arriving
    results replace the accumulated list exactly when the page number is 1,
    and are appended to it for every other page number; a refresh empties
    the list and sets the page number to 1. The other argument of the query,
    the page size, is the same in every state of the screen. *)
Theorem pages_accumulate_in_order :
  (forall s its1 its2,
     page s = 1 -> isLoadingMore s = false ->
     allMovies (Home.run s (two_pages its1 its2)) = its1 ++ its2 /\
     length (allMovies (Home.run s (two_pages its1 its2)))
       = (length its1 + length its2)%nat) /\
  (forall q s d its,
     data q = Some d -> items d = Some its ->
     (page s = 1 -> allMovies (allMovies_effect q s) = its) /\
     (page s <> 1 -> allMovies (allMovies_effect q s) = allMovies s ++ its)) /\
  (forall s, page (handleRefresh s) = 1 /\ allMovies (handleRefresh s) = []) /\
  (forall s inputs, baseParams (Home.run s inputs) = baseParams s).
Proof.
  split; [| split; [| split]].
  - intros s its1 its2 Hp Hl. rewrite two_pages_run by assumption. cbn.
    split; [reflexivity | apply length_app].
  - intros q s d its Hd Hi.
    rewrite (allMovies_effect_items q s d its Hd Hi).
    split; intros Hp.
    + rewrite Hp. reflexivity.
    + apply Z.eqb_neq in Hp. rewrite Hp. reflexivity.
  - intros s. split; reflexivity.
  - intros s inputs. reflexivity.
Qed.

Lemma pages_accumulate_in_order_witness :
  allMovies
    (Home.run mount
       (two_pages [sample_movie 1 "Alien"; sample_movie 2 "Brazil"]
          [sample_movie 3 "Casablanca"]))
  = [sample_movie 1 "Alien"; sample_movie 2 "Brazil"; sample_movie 3 "Casablanca"].
Proof.
  apply (proj1 pages_accumulate_in_order mount
           [sample_movie 1 "Alien"; sample_movie 2 "Brazil"]
           [sample_movie 3 "Casablanca"] eq_refl eq_refl).
Defined.

(** C7 as stated fails in its second half: after two pages, a refresh
    followed by the first page coming back on screen resets the list to page
    1's results although the query's other parameter has not changed. *)
Lemma refresh_resets_without_parameter_change :
  allMovies
    (Home.run mount (two_pages [sample_movie 1 "Alien"] [sample_movie 2 "Brazil"]))
    = [sample_movie 1 "Alien"; sample_movie 2 "Brazil"] /\
  allMovies
    (Home.run mount
       (two_pages [sample_movie 1 "Alien"] [sample_movie 2 "Brazil"]
          ++ [Refresh; DataChanged (settled [sample_movie 1 "Alien"] true 1)]))
    = [sample_movie 1 "Alien"] /\
  baseParams
    (Home.run mount
       (two_pages [sample_movie 1 "Alien"] [sample_movie 2 "Brazil"]
          ++ [Refresh; DataChanged (settled [sample_movie 1 "Alien"] true 1)]))
    = baseParams
        (Home.run mount
           (two_pages [sample_movie 1 "Alien"] [sample_movie 2 "Brazil"])).
Proof. repeat split. Qed.

End HomeFacts.

(** ** Schemas and services *)
Section ServiceFacts.

Import ApiClient Types.

Lemma mapM_Some_id (l : list JsVal) : mapM (fun v => Some v) l = Some l.
Proof. induction l as [| x l IH]; cbn; [reflexivity | now rewrite IH]. Qed.

(** What [PaginationSchema] accepts: objects with an array under [items],
    numbers under the four counting keys and booleans under the two flags;
    the parsed value keeps these seven fields. *)
Lemma PaginationSchema_accepts v parsed :
  parse PaginationSchema v = Some parsed <->
  exists fs its tc pn ps tp hp hn,
    v = JObj fs /\
    assoc "items" fs = JArr its /\
    assoc "totalCount" fs = JNum tc /\
    assoc "pageNumber" fs = JNum pn /\
    assoc "pageSize" fs = JNum ps /\
    assoc "totalPages" fs = JNum tp /\
    assoc "hasPrevious" fs = JBool hp /\
    assoc "hasNext" fs = JBool hn /\
    parsed = page_body its tc pn ps tp hp hn.
Proof.
  split.
  - destruct v as [| | | | | | fs]; try discriminate.
    cbn. intros H.
    destruct (assoc "items" fs) as [| | | | | its |] eqn:Hitems;
      try (cbn in H; discriminate H).
    rewrite mapM_Some_id in H. cbn in H.
    repeat match type of H with
           | context [match assoc ?k fs with _ => _ end] =>
               destruct (assoc k fs) eqn:?; try (cbn in H; discriminate H)
           end.
    rewrite !orb_true_r in H. cbn in H. injection H as <-.
    do 8 eexists. repeat split; eassumption.
  - intros (fs & its & tc & pn & ps & tp & hp & hn & -> & Hi & Htc & Hpn & Hps
            & Htp & Hhp & Hhn & ->).
    cbn. rewrite Hi, Htc, Hpn, Hps, Htp, Hhp, Hhn, mapM_Some_id. cbn.
    rewrite !orb_true_r. reflexivity.
Qed.

Lemma page_body_accepted its tc pn ps tp hp hn :
  parse PaginationSchema (page_body its tc pn ps tp hp hn)
  = Some (page_body its tc pn ps tp hp hn).
Proof.
  apply PaginationSchema_accepts. do 8 eexists. repeat split.
Qed.

(** A list operation of the movie service hands the body to its caller as
    it came. *)
Lemma getMovies_returns_body pageNumber pageSize w st body :
  connected (isConnected w) = true ->
  (forall config, backend w config = HttpReply st body) ->
  validateStatus st = true ->
  (MovieService.getMovies pageNumber pageSize w).1 = Fulfilled body.
Proof.
  intros Hc Hb Hv. unfold MovieService.getMovies, await, then_ at 1, get.
  destruct (request_online_ok
              {| call_method := GET; call_url := MOVIES;
                 call_params :=
                   [("pageNumber", JNum (MovieService.or_default pageNumber 1));
                    ("pageSize", JNum (MovieService.or_default pageSize 10));
                    ("version", JStr MovieService.version)];
                 call_data := JUndefined |} w st body Hc Hb Hv) as [config ->].
  reflexivity.
Qed.

(** C5, as amended. A value passes the pagination schema exactly when it is
    an object with an array of items, numeric totalCount, pageNumber,
    pageSize and totalPages, and boolean hasPrevious and hasNext. The schema
    relates none of these fields to another: a body passes for every choice
    of the seven values, and the list operation returns the body it received
    without checking it. *)
Theorem pagination_schema_checks_types_only :
  (forall v parsed,
     parse PaginationSchema v = Some parsed <->
     exists fs its tc pn ps tp hp hn,
       v = JObj fs /\
       assoc "items" fs = JArr its /\
       assoc "totalCount" fs = JNum tc /\
       assoc "pageNumber" fs = JNum pn /\
       assoc "pageSize" fs = JNum ps /\
       assoc "totalPages" fs = JNum tp /\
       assoc "hasPrevious" fs = JBool hp /\
       assoc "hasNext" fs = JBool hn /\
       parsed = page_body its tc pn ps tp hp hn) /\
  (forall its tc pn ps tp hp hn,
     parse PaginationSchema (page_body its tc pn ps tp hp hn)
     = Some (page_body its tc pn ps tp hp hn)) /\
  (forall pageNumber pageSize w st body,
     connected (isConnected w) = true ->
     (forall config, backend w config = HttpReply st body) ->
     validateStatus st = true ->
     (MovieService.getMovies pageNumber pageSize w).1 = Fulfilled body).
Proof.
  split; [exact PaginationSchema_accepts |].
  split; [exact page_body_accepted | exact getMovies_returns_body].
Qed.

Lemma pagination_schema_checks_types_only_witness :
  parse PaginationSchema (page_body [] 25 1 10 3 false true)
    = Some (page_body [] 25 1 10 3 false true) /\
  (MovieService.getMovies (Some 1) None
     (sample_world ∅ (Some true)
        (HttpReply 200 (page_body [] 25 1 10 3 false true)))).1
    = Fulfilled (page_body [] 25 1 10 3 false true).
Proof.
  destruct pagination_schema_checks_types_only as (_ & Hany & Hget).
  split; [apply Hany |].
  apply (Hget (Some 1) None
           (sample_world ∅ (Some true)
              (HttpReply 200 (page_body [] 25 1 10 3 false true)))
           200 (page_body [] 25 1 10 3 false true) eq_refl (fun _ => eq_refl) eq_refl).
Defined.

(** C5 as stated fails: a body announcing seven pages for 25 movies in
    pages of 10, and no next page on page 1, passes the pagination schema
    and is returned by the list operation. *)
Lemma inconsistent_page_is_accepted :
  parse PaginationSchema inconsistent_page = Some inconsistent_page /\
  (MovieService.getMovies (Some 1) (Some 10)
     (sample_world ∅ (Some true) (HttpReply 200 inconsistent_page))).1
    = Fulfilled inconsistent_page /\
  pagination_consistent inconsistent_page = false /\
  ceil_div 25 10 = 3 /\
  opt_prop inconsistent_page "totalPages" = JNum 7 /\
  opt_prop inconsistent_page "hasNext" = JBool false /\
  (1 <? 7) = true.
Proof. repeat split. Qed.

(** Whatever the client rejects with comes from the connectivity check,
    the session-expired path or the transport; it is never a validation
    error. *)
Lemma request_not_ZodError c w e :
  (request c w).1 = Rejected e -> e <> ZodError.
Proof.
  destruct (connected (isConnected w)) eqn:Hc.
  - rewrite request_online by exact Hc.
    unfold then_ at 1, dispatchRequest.
    destruct (backend _ _) as [st body | msg]; [destruct (validateStatus st) |];
      cbn; [discriminate | |].
    + unfold response_onRejected, is_unauthorized. cbn.
      destruct (st =? 401); cbn; intros [= <-]; discriminate.
    + intros [= <-]. discriminate.
  - rewrite request_offline by exact Hc. cbn. intros [= <-]. discriminate.
Qed.

(** Each validating operation makes its call and, on a response, returns
    what the schema's [parse] returns or throws what it throws; a rejection
    of the call is passed on. *)
Lemma run_op_unfold op w :
  run_op op w =
  match request (call_of op) w with
  | (Fulfilled response, w') =>
      (match parse (schema_of op) (resp_data response) with
       | Some v => Fulfilled v
       | None => Rejected ZodError
       end, w')
  | (Rejected e, w') => (Rejected e, w')
  end.
Proof.
  destruct op; cbn [run_op call_of schema_of];
    unfold PeopleService.getPopularPeople, PeopleService.getPersonDetails,
      PeopleService.searchPeople, PeopleService.createPerson,
      PeopleService.updatePerson, GenreService.getPopularGenres,
      PeopleService.rethrow, try_catch, await, then_, get, post, put,
      parse_or_throw;
    (destruct (request _ w) as [[response | e] w']; [| reflexivity]);
    (destruct (parse _ (resp_data response)); reflexivity).
Qed.

(** C4, as amended. The people service's getPopularPeople,
    getPersonDetails, searchPeople, createPerson and updatePerson and the
    genre service's getPopularGenres pass the response body to their
    declared schema before returning: the caller gets the parsed value, or a
    validation error when the body does not match, and that error is none of
    the errors the HTTP client itself rejects with. *)
Theorem validating_operations_parse_the_body :
  (forall op w st body,
     connected (isConnected w) = true ->
     (forall config, backend w config = HttpReply st body) ->
     validateStatus st = true ->
     (forall v, parse (schema_of op) body = Some v ->
        (run_op op w).1 = Fulfilled v) /\
     (parse (schema_of op) body = None ->
        (run_op op w).1 = Rejected ZodError)) /\
  (forall op w e,
     (request (call_of op) w).1 = Rejected e ->
     (run_op op w).1 = Rejected e /\ e <> ZodError).
Proof.
  split.
  - intros op w st body Hc Hb Hv.
    destruct (request_online_ok (call_of op) w st body Hc Hb Hv) as [config Hreq].
    rewrite run_op_unfold, Hreq. cbn.
    split; [intros v Hp | intros Hp]; rewrite Hp; reflexivity.
  - intros op w e He. split; [| exact (request_not_ZodError _ _ _ He)].
    rewrite run_op_unfold.
    destruct (request (call_of op) w) as [[response | e'] w'];
      cbn in He |- *; congruence.
Qed.

Lemma validating_operations_parse_the_body_witness :
  (run_op (GetPersonDetails "7")
     (sample_world ∅ (Some true) (HttpReply 200 (JObj [("id", JNum 7)])))).1
    = Rejected ZodError /\
  (run_op GetPopularGenres
     (sample_world ∅ (Some true) (HttpReply 200 (JArr [])))).1
    = Fulfilled (JArr []) /\
  (run_op GetPopularPeople
     (sample_world ∅ (Some false) (HttpReply 200 (JArr [])))).1
    = Rejected (Error (JStr "No internet connection")).
Proof.
  destruct validating_operations_parse_the_body as [Hparse Hfail].
  split; [| split].
  - apply (Hparse (GetPersonDetails "7")
             (sample_world ∅ (Some true) (HttpReply 200 (JObj [("id", JNum 7)])))
             200 (JObj [("id", JNum 7)]) eq_refl (fun _ => eq_refl) eq_refl).
    reflexivity.
  - apply (Hparse GetPopularGenres
             (sample_world ∅ (Some true) (HttpReply 200 (JArr [])))
             200 (JArr []) eq_refl (fun _ => eq_refl) eq_refl).
    reflexivity.
  - apply (Hfail GetPopularPeople
             (sample_world ∅ (Some false) (HttpReply 200 (JArr [])))).
    reflexivity.
Defined.

(** C4 as stated fails: the movie list operation returns a [null] body to
    its caller although the movie response schema rejects it; no validation
    error is raised. *)
Lemma getMovies_returns_unvalidated_body :
  (MovieService.getMovies (Some 1) (Some 10)
     (sample_world ∅ (Some true) (HttpReply 200 JNull))).1
    = Fulfilled JNull /\
  parse MovieResponseSchema JNull = None /\
  parse PaginationSchema JNull = None.
Proof. repeat split. Qed.

End ServiceFacts.

(** * Further properties of the modelled code *)

(** ** The HTTP client: outcomes, effects, configuration *)
Section ClientBehaviour.

Import ApiClient.

Lemma request_run_online c w :
  connected (isConnected w) = true ->
  request c w =
  then_ (dispatchRequest (outgoing w c)) response_onFulfilled response_onRejected
    (log (EvGetItem TOKEN_STORAGE_KEY) (log EvNetInfoFetch w)).
Proof. exact (request_online c w). Qed.

(** The complete run of a request, by case on connectivity and on what the
    network answers. *)
Lemma request_run c w :
  request c w =
  if connected (isConnected w) then
    let config := outgoing w c in
    let w3 := log (EvHttp config)
                (log (EvGetItem TOKEN_STORAGE_KEY) (log EvNetInfoFetch w)) in
    match backend w config with
    | HttpReply st body =>
        let response :=
          {| status := st; resp_data := body; resp_config := config |} in
        if validateStatus st then (Fulfilled response, w3)
        else if st =? 401 then
          (Rejected session_expired,
           log (EvRemoveItem TOKEN_STORAGE_KEY)
             (set_storage (delete TOKEN_STORAGE_KEY (storage w)) w3))
        else
          (Rejected
             (AxiosError ("Request failed with status code " +:+ pretty st)
                config (Some response)), w3)
    | HttpNoReply msg => (Rejected (AxiosError msg config None), w3)
    end
  else (Rejected no_connection, log EvNetInfoFetch w).
Proof.
  destruct (connected (isConnected w)) eqn:Hc.
  - rewrite request_run_online by exact Hc.
    unfold then_ at 1, dispatchRequest. cbn.
    destruct (backend w (outgoing w c)) as [st body | msg]; [| reflexivity].
    destruct (validateStatus st); [reflexivity |].
    unfold response_onRejected, is_unauthorized. cbn.
    destruct (st =? 401); reflexivity.
  - exact (request_offline c w Hc).
Qed.

(** X1. The outcome of a call through the shared client is decided by
    connectivity and the reply alone: offline it is the no-connection
    error; a reply with a 2xx status resolves with that status and body; a
    401 is the session-expired error; any other status is the transport's
    error carrying the response; no reply is the transport's error without
    a response. *)
Theorem request_outcome (c : Call) (w : World) :
  (request c w).1 =
  if connected (isConnected w) then
    match backend w (outgoing w c) with
    | HttpReply st body =>
        let response :=
          {| status := st; resp_data := body; resp_config := outgoing w c |} in
        if validateStatus st then Fulfilled response
        else if st =? 401 then Rejected session_expired
        else Rejected
               (AxiosError ("Request failed with status code " +:+ pretty st)
                  (outgoing w c) (Some response))
    | HttpNoReply msg => Rejected (AxiosError msg (outgoing w c) None)
    end
  else Rejected no_connection.
Proof.
  rewrite request_run.
  destruct (connected (isConnected w)); [| reflexivity]. cbn zeta.
  destruct (backend w (outgoing w c)) as [st body | msg]; [| reflexivity].
  destruct (validateStatus st); [reflexivity |].
  destruct (st =? 401); reflexivity.
Qed.

(** X2. A call through the shared client never writes to storage, never
    dispatches to the session and never navigates: the session state is
    unchanged, every key other than the token key keeps its value, and the
    token key is either unchanged or removed; it is removed exactly when
    the device is online and the reply has status 401. *)
Theorem request_effects (c : Call) (w : World) :
  auth (request c w).2 = auth w /\
  (forall key, key <> TOKEN_STORAGE_KEY ->
     storage (request c w).2 !! key = storage w !! key) /\
  storage (request c w).2 =
    (if connected (isConnected w) then
       match backend w (outgoing w c) with
       | HttpReply st _ =>
           if st =? 401 then delete TOKEN_STORAGE_KEY (storage w) else storage w
       | HttpNoReply _ => storage w
       end
     else storage w) /\
  exists evs,
    events_during (request c) w evs /\ forallb harmless evs = true.
Proof.
  unfold events_during. rewrite request_run.
  destruct (connected (isConnected w)).
  2:{ cbn. repeat split. exists [EvNetInfoFetch]. split; reflexivity. }
  cbn zeta.
  destruct (backend w (outgoing w c)) as [st body | msg].
  2:{ cbn. repeat split. eexists [_; _; _]. rewrite <- !app_assoc.
      split; reflexivity. }
  destruct (validateStatus st) eqn:Hv.
  - assert ((st =? 401) = false) as ->.
    { unfold validateStatus in Hv. lia. }
    cbn. repeat split. eexists [_; _; _]. rewrite <- !app_assoc.
    split; reflexivity.
  - destruct (st =? 401); cbn.
    + repeat split.
      * intros key Hk. apply lookup_delete_ne. congruence.
      * eexists [_; _; _; _]. rewrite <- !app_assoc. split; reflexivity.
    + repeat split. eexists [_; _; _]. rewrite <- !app_assoc.
      split; reflexivity.
Qed.

Lemma request_effects_witness :
  storage (request sample_call (rejecting_world 401 "Unauthorized")).2
    !! USER_DATA_KEY
  = storage (rejecting_world 401 "Unauthorized") !! USER_DATA_KEY.
Proof.
  destruct (request_effects sample_call (rejecting_world 401 "Unauthorized"))
    as (_ & Hframe & _).
  apply Hframe. discriminate.
Defined.

Lemma sent_during_request c w :
  sent_during (request c) w
    (if connected (isConnected w) then [outgoing w c] else []).
Proof.
  destruct (connected (isConnected w)) eqn:Hc.
  - exact (request_online_sent c w Hc).
  - unfold sent_during. rewrite request_offline by exact Hc. cbn.
    rewrite sent_app. reflexivity.
Qed.

(** X3. A call hands the transport at most one request configuration, and
    that configuration has the instance's base URL, the 15 second timeout,
    the JSON content type and accept headers and the Platform header of the
    device, with the method, URL, parameters and body the caller gave;
    offline nothing is handed over. *)
Theorem sent_request_shape (c : Call) (w : World) (reqs : list RequestConfig) :
  sent_during (request c) w reqs ->
  (length reqs <= 1)%nat /\
  (connected (isConnected w) = false -> reqs = []) /\
  forall config, config ∈ reqs ->
    baseURL config = API_BASE_URL /\
    timeout config = 15000 /\
    headers config !! "Platform" = Some (Platform_OS w) /\
    headers config !! "Content-Type" = Some "application/json" /\
    headers config !! "Accept" = Some "application/json" /\
    method config = call_method c /\
    url config = call_url c /\
    Http.params config = call_params c /\
    data config = call_data c.
Proof.
  intros Hs. pose proof (sent_during_request c w) as Hs'.
  unfold sent_during in Hs, Hs'. rewrite Hs in Hs'.
  apply app_inv_head in Hs'. subst reqs.
  destruct (connected (isConnected w)).
  - split; [cbn; lia |]. split; [discriminate |].
    intros config Hin. apply list_elem_of_singleton in Hin. subst config.
    unfold outgoing.
    destruct (token_truthy (storage w !! TOKEN_STORAGE_KEY)); cbn;
      unfold default_headers;
      repeat split;
      repeat (rewrite lookup_insert_ne by discriminate);
      try apply lookup_insert_eq.
  - split; [cbn; lia |]. split; [reflexivity |].
    intros config Hin. apply elem_of_nil in Hin. destruct Hin.
Qed.

Lemma sent_request_shape_witness :
  headers (outgoing (stored_token_world (HttpReply 200 JNull)) sample_call)
    !! "Platform" = Some "android" /\
  timeout (outgoing (stored_token_world (HttpReply 200 JNull)) sample_call) = 15000.
Proof.
  destruct (sent_request_shape sample_call (stored_token_world (HttpReply 200 JNull))
              [outgoing (stored_token_world (HttpReply 200 JNull)) sample_call]
              (request_online_sent sample_call
                 (stored_token_world (HttpReply 200 JNull)) eq_refl))
    as (_ & _ & Hshape).
  destruct (Hshape (outgoing (stored_token_world (HttpReply 200 JNull)) sample_call))
    as (_ & Ht & Hp & _).
  - apply list_elem_of_singleton. reflexivity.
  - split; [exact Hp | exact Ht].
Defined.

End ClientBehaviour.

(** ** The auth provider: login, registration, logout *)
Section ProviderBehaviour.

Import ApiClient AuthContext.

Lemma login_unfold username password w :
  login username password w =
  match request (login_call username password) (dispatched LOGIN_REQUEST w) with
  | (Fulfilled response, w2) =>
      try_catch
        (let* token := data_prop response "token" in
         let* userName := data_prop response "username" in
         let* role := data_prop response "role" in
         let user := {| Session.username := userName;
                        Session.role := or_else role (JStr "user") |} in
         AsyncStorage_setItem TOKEN_STORAGE_KEY token ;;
         let* userJson := stringify_user user in
         AsyncStorage_setItem USER_DATA_KEY userJson ;;
         dispatch (LOGIN_SUCCESS user) ;;
         resolve true)
        (fun error =>
           let errorMessage := or_else (error_message error) (JStr "Login failed") in
           dispatch (LOGIN_FAILURE errorMessage) ;;
           reject (Error errorMessage)) w2
  | (Rejected e, w2) =>
      (Rejected (Error (or_else (error_message e) (JStr "Login failed"))),
       dispatched (LOGIN_FAILURE (or_else (error_message e) (JStr "Login failed"))) w2)
  end.
Proof.
  unfold login, await at 1, then_ at 1. cbn [dispatch].
  fold (dispatched LOGIN_REQUEST w).
  unfold try_catch at 1, then_ at 1, await at 1, then_ at 1, post.
  fold (login_call username password).
  destruct (request _ _) as [[response | e] w2].
  - unfold try_catch, then_ at 1. reflexivity.
  - reflexivity.
Qed.

Lemma register_unfold username email password w :
  register username email password w =
  match request (register_call username email password)
          (dispatched REGISTER_REQUEST w) with
  | (Fulfilled response, w2) =>
      try_catch
        (let* responseUsername := data_prop response "username" in
         let userName := or_else responseUsername (JStr username) in
         let* responseRole := data_prop response "role" in
         let user := {| Session.username := userName;
                        Session.role := or_else responseRole (JStr "user") |} in
         let* token := data_prop response "token" in
         (if truthy token then
            AsyncStorage_setItem TOKEN_STORAGE_KEY token ;;
            let* userJson := stringify_user user in
            AsyncStorage_setItem USER_DATA_KEY userJson
          else resolve tt) ;;
         dispatch (REGISTER_SUCCESS user) ;;
         resolve true)
        (fun error =>
           let errorMessage :=
             or_else (error_message error) (JStr "Registration failed") in
           dispatch (REGISTER_FAILURE errorMessage) ;;
           reject (Error errorMessage)) w2
  | (Rejected e, w2) =>
      (Rejected (Error (or_else (error_message e) (JStr "Registration failed"))),
       dispatched
         (REGISTER_FAILURE (or_else (error_message e) (JStr "Registration failed")))
         w2)
  end.
Proof.
  unfold register, await at 1, then_ at 1. cbn [dispatch].
  fold (dispatched REGISTER_REQUEST w).
  unfold try_catch at 1, then_ at 1, await at 1, then_ at 1, post.
  fold (register_call username email password).
  destruct (request _ _) as [[response | e] w2].
  - unfold try_catch, then_ at 1. reflexivity.
  - reflexivity.
Qed.

Lemma connected_dispatched action w :
  connected (isConnected (dispatched action w)) = connected (isConnected w).
Proof. reflexivity. Qed.

Lemma outgoing_dispatched action w c :
  outgoing (dispatched action w) c = outgoing w c.
Proof. reflexivity. Qed.

Lemma login_success_run
    (username password : string) (w : World) (st : Z) (body : JsVal)
    (token : string) :
  connected (isConnected w) = true ->
  (forall config, backend w config = HttpReply st body) ->
  validateStatus st = true ->
  prop body "token" = Some (JStr token) ->
  login username password w =
  (Fulfilled true,
   dispatched (LOGIN_SUCCESS (logged_in_user body))
     (log (EvSetItem USER_DATA_KEY (user_json w (logged_in_user body)))
        (set_storage
           (<[USER_DATA_KEY := user_json w (logged_in_user body)]>
              (<[TOKEN_STORAGE_KEY := token]> (storage w)))
           (log (EvSetItem TOKEN_STORAGE_KEY token)
              (set_storage (<[TOKEN_STORAGE_KEY := token]> (storage w))
                 (log (EvHttp (outgoing w (login_call username password)))
                    (log (EvGetItem TOKEN_STORAGE_KEY)
                       (log EvNetInfoFetch (dispatched LOGIN_REQUEST w))))))))).
Proof.
  intros Hc Hb Hv Ht.
  rewrite login_unfold, request_run, connected_dispatched, Hc.
  cbn zeta. rewrite outgoing_dispatched.
  change (backend (dispatched LOGIN_REQUEST w)) with (backend w).
  rewrite Hb, Hv.
  unfold try_catch, then_ at 1, data_prop. cbn [resp_data].
  rewrite Ht, (prop_defined _ _ _ "username" Ht), (prop_defined _ _ _ "role" Ht).
  reflexivity.
Qed.

(** X4. A login answered with a 2xx status and a string token stores the
    token under the token key and the serialized user under [user_data],
    leaves every other key alone, puts the session in the authenticated
    state with the user built from the body (role defaulting to [user]),
    and resolves to [true]; the only request sent is the login call. *)
Theorem login_success_persists_session
    (username password : string) (w : World) (st : Z) (body : JsVal)
    (token : string) :
  connected (isConnected w) = true ->
  (forall config, backend w config = HttpReply st body) ->
  validateStatus st = true ->
  prop body "token" = Some (JStr token) ->
  let result := login username password w in
  let u := logged_in_user body in
  result.1 = Fulfilled true /\
  auth result.2 = signed_in u /\
  storage result.2
    = <[USER_DATA_KEY := user_json w u]> (<[TOKEN_STORAGE_KEY := token]> (storage w)) /\
  events_during (login username password) w
    [EvDispatch LOGIN_REQUEST; EvNetInfoFetch; EvGetItem TOKEN_STORAGE_KEY;
     EvHttp (outgoing w (login_call username password));
     EvSetItem TOKEN_STORAGE_KEY token; EvSetItem USER_DATA_KEY (user_json w u);
     EvDispatch (LOGIN_SUCCESS u)].
Proof.
  intros Hc Hb Hv Ht result u. subst result u.
  unfold events_during.
  rewrite (login_success_run username password w st body token Hc Hb Hv Ht).
  cbn. repeat split. rewrite <- !app_assoc. reflexivity.
Qed.

Lemma login_success_persists_session_witness :
  (login "alice" "secret" token_issuing_world).1 = Fulfilled true /\
  storage (login "alice" "secret" token_issuing_world).2 !! TOKEN_STORAGE_KEY
    = Some "abc123".
Proof.
  destruct (login_success_persists_session "alice" "secret" token_issuing_world 200
              (JObj [("token", JStr "abc123"); ("username", JStr "alice")])
              "abc123" eq_refl (fun _ => eq_refl) eq_refl eq_refl)
    as (Hres & _ & Hst & _).
  split; [exact Hres |]. rewrite Hst. reflexivity.
Defined.

(** X5. After such a login with a non-empty token, every call made
    while online goes out with [Authorization: Bearer] followed by the token
    the backend issued, whatever was stored before. *)
Theorem login_then_request_is_authorized
    (username password : string) (w : World) (st : Z) (body : JsVal)
    (token : string) (c : Call) :
  connected (isConnected w) = true ->
  (forall config, backend w config = HttpReply st body) ->
  validateStatus st = true ->
  prop body "token" = Some (JStr token) ->
  token <> "" ->
  exists config,
    sent_during (request c) (login username password w).2 [config] /\
    headers config !! "Authorization" = Some ("Bearer " +:+ token).
Proof.
  intros Hc Hb Hv Ht Hne.
  set (w' := (login username password w).2).
  assert (isConnected w' = isConnected w /\
          storage w' !! TOKEN_STORAGE_KEY = Some token) as [Hcon Htok].
  { subst w'.
    rewrite (login_success_run username password w st body token Hc Hb Hv Ht).
    cbn. split; [reflexivity |].
    rewrite lookup_insert_ne by discriminate. apply lookup_insert_eq. }
  exists (outgoing w' c). split.
  - pose proof (sent_during_request c w') as Hs.
    rewrite Hcon, Hc in Hs. exact Hs.
  - unfold outgoing. rewrite Htok. unfold token_truthy.
    destruct (String.eqb_spec token ""); [contradiction |].
    apply lookup_insert_eq.
Qed.

Lemma login_then_request_is_authorized_witness :
  exists config,
    sent_during (request sample_call) (login "alice" "secret" token_issuing_world).2
      [config] /\
    headers config !! "Authorization" = Some "Bearer abc123".
Proof.
  apply (login_then_request_is_authorized "alice" "secret" token_issuing_world 200
           (JObj [("token", JStr "abc123"); ("username", JStr "alice")])
           "abc123" sample_call eq_refl (fun _ => eq_refl) eq_refl eq_refl).
  discriminate.
Defined.

(** X6. A login that fails at the HTTP client ends unauthenticated, with no
    user, not loading, and rejects with an Error whose message is the
    session's error. For a reply with a status other than 2xx and 401 the
    message is the body's truthy [message], else [Login failed]; storage is
    untouched. For a 401 the message is always [Login failed], whatever the
    body says, and a previously stored token is removed. Offline, and when
    no reply arrives, the message is [Login failed] and storage is
    untouched; offline nothing is sent. *)
Theorem login_failure_reports
    (username password : string) (w : World) :
  let result := login username password w in
  (connected (isConnected w) = false ->
     result.1 = Rejected (Error (JStr "Login failed")) /\
     auth result.2 = failed_session (JStr "Login failed") /\
     storage result.2 = storage w /\
     sent_during (login username password) w []) /\
  (forall st body,
     connected (isConnected w) = true ->
     (forall config, backend w config = HttpReply st body) ->
     validateStatus st = false -> st <> 401 ->
     let m := or_else (opt_prop body "message") (JStr "Login failed") in
     result.1 = Rejected (Error m) /\
     auth result.2 = failed_session m /\
     storage result.2 = storage w) /\
  (forall body,
     connected (isConnected w) = true ->
     (forall config, backend w config = HttpReply 401 body) ->
     result.1 = Rejected (Error (JStr "Login failed")) /\
     auth result.2 = failed_session (JStr "Login failed") /\
     storage result.2 = delete TOKEN_STORAGE_KEY (storage w)) /\
  (forall msg,
     connected (isConnected w) = true ->
     (forall config, backend w config = HttpNoReply msg) ->
     result.1 = Rejected (Error (JStr "Login failed")) /\
     auth result.2 = failed_session (JStr "Login failed") /\
     storage result.2 = storage w).
Proof.
  intros result. subst result.
  split; [| split; [| split]].
  - intros Hc. unfold sent_during.
    rewrite login_unfold, request_run, connected_dispatched, Hc. cbn.
    rewrite !sent_app. cbn. rewrite !app_nil_r. repeat split.
  - intros st body Hc Hb Hv Hne m. subst m.
    rewrite login_unfold, request_run, connected_dispatched, Hc. cbn zeta.
    change (backend (dispatched LOGIN_REQUEST w)) with (backend w).
    rewrite Hb, Hv. apply Z.eqb_neq in Hne. rewrite Hne. cbn. repeat split.
  - intros body Hc Hb.
    rewrite login_unfold, request_run, connected_dispatched, Hc. cbn zeta.
    change (backend (dispatched LOGIN_REQUEST w)) with (backend w).
    rewrite Hb. cbn. repeat split.
  - intros msg Hc Hb.
    rewrite login_unfold, request_run, connected_dispatched, Hc. cbn zeta.
    change (backend (dispatched LOGIN_REQUEST w)) with (backend w).
    rewrite Hb. cbn. repeat split.
Qed.

Lemma login_failure_reports_witness :
  (login "alice" "wrong" (rejecting_world 400 "Username is taken")).1
    = Rejected (Error (JStr "Username is taken")) /\
  (login "alice" "wrong" (rejecting_world 401 "Invalid credentials")).1
    = Rejected (Error (JStr "Login failed")) /\
  storage (login "alice" "wrong" (rejecting_world 401 "Invalid credentials")).2
    !! TOKEN_STORAGE_KEY = None /\
  (login "alice" "secret" offline_world).1 = Rejected (Error (JStr "Login failed")).
Proof.
  destruct (login_failure_reports "alice" "wrong"
              (rejecting_world 400 "Username is taken")) as (_ & H400 & _ & _).
  destruct (H400 400 (JObj [("message", JStr "Username is taken")]) eq_refl
              (fun _ => eq_refl) eq_refl) as (Hres400 & _); [discriminate |].
  destruct (login_failure_reports "alice" "wrong"
              (rejecting_world 401 "Invalid credentials")) as (_ & _ & H401 & _).
  destruct (H401 (JObj [("message", JStr "Invalid credentials")]) eq_refl
              (fun _ => eq_refl)) as (Hres401 & _ & Hst401).
  destruct (login_failure_reports "alice" "secret" offline_world) as (Hoff & _).
  destruct (Hoff eq_refl) as (Hresoff & _).
  split; [exact Hres400 |]. split; [exact Hres401 |].
  split; [rewrite Hst401; reflexivity | exact Hresoff].
Defined.

(** X7. A login answered with a 2xx status whose body is [null] or
    [undefined] fails like a transport failure: nothing is stored, the
    session ends unauthenticated with the error [Login failed], and the
    promise rejects with that message. *)
Theorem login_with_empty_body_fails
    (username password : string) (w : World) (st : Z) (body : JsVal) :
  connected (isConnected w) = true ->
  (forall config, backend w config = HttpReply st body) ->
  validateStatus st = true ->
  body = JNull \/ body = JUndefined ->
  (login username password w).1 = Rejected (Error (JStr "Login failed")) /\
  auth (login username password w).2 = failed_session (JStr "Login failed") /\
  storage (login username password w).2 = storage w.
Proof.
  intros Hc Hb Hv Hbody.
  rewrite login_unfold, request_run, connected_dispatched, Hc. cbn zeta.
  change (backend (dispatched LOGIN_REQUEST w)) with (backend w).
  rewrite Hb, Hv.
  destruct Hbody as [-> | ->]; cbn; repeat split.
Qed.

Lemma login_with_empty_body_fails_witness :
  (login "alice" "secret" (sample_world ∅ (Some true) (HttpReply 200 JNull))).1
    = Rejected (Error (JStr "Login failed")).
Proof.
  apply (login_with_empty_body_fails "alice" "secret"
           (sample_world ∅ (Some true) (HttpReply 200 JNull)) 200 JNull
           eq_refl (fun _ => eq_refl) eq_refl).
  left. reflexivity.
Defined.

(** X8. A registration answered with a 2xx status and a non-empty string
    token stores the token and the serialized user, authenticates the
    session with the user built from the body (the submitted username and
    the role [user] standing in for missing fields) and resolves to
    [true]. *)
Theorem register_with_token_persists_session
    (username email password : string) (w : World) (st : Z) (body : JsVal)
    (token : string) :
  connected (isConnected w) = true ->
  (forall config, backend w config = HttpReply st body) ->
  validateStatus st = true ->
  prop body "token" = Some (JStr token) ->
  token <> "" ->
  let result := register username email password w in
  let u := registered_user username body in
  result.1 = Fulfilled true /\
  auth result.2 = signed_in u /\
  storage result.2
    = <[USER_DATA_KEY := user_json w u]> (<[TOKEN_STORAGE_KEY := token]> (storage w)).
Proof.
  intros Hc Hb Hv Ht Hne result u. subst result u.
  rewrite register_unfold, request_run, connected_dispatched, Hc.
  cbn zeta. rewrite outgoing_dispatched.
  change (backend (dispatched REGISTER_REQUEST w)) with (backend w).
  rewrite Hb, Hv.
  unfold try_catch, then_ at 1, data_prop. cbn [resp_data].
  rewrite Ht, (prop_defined _ _ _ "username" Ht), (prop_defined _ _ _ "role" Ht).
  unfold await, then_, resolve. cbn [truthy].
  destruct (String.eqb_spec token ""); [contradiction |].
  cbn. repeat split.
Qed.

Lemma register_with_token_persists_session_witness :
  (register "alice" "alice@example.org" "secret" token_issuing_world).1
    = Fulfilled true /\
  storage (register "alice" "alice@example.org" "secret" token_issuing_world).2
    !! TOKEN_STORAGE_KEY = Some "abc123".
Proof.
  destruct (register_with_token_persists_session "alice" "alice@example.org"
              "secret" token_issuing_world 200
              (JObj [("token", JStr "abc123"); ("username", JStr "alice")])
              "abc123" eq_refl (fun _ => eq_refl) eq_refl eq_refl)
    as (Hres & _ & Hst); [discriminate |].
  split; [exact Hres |]. rewrite Hst. reflexivity.
Defined.

(** X9. A registration that fails at the HTTP client ends unauthenticated
    and rejects with the session's error message: the body's truthy
    [message] for a status other than 2xx and 401, and
    [Registration failed] for a 401 (which also removes a stored token),
    when offline and when no reply arrives. *)
Theorem register_failure_reports
    (username email password : string) (w : World) :
  let result := register username email password w in
  (connected (isConnected w) = false ->
     result.1 = Rejected (Error (JStr "Registration failed")) /\
     auth result.2 = failed_session (JStr "Registration failed") /\
     storage result.2 = storage w /\
     sent_during (register username email password) w []) /\
  (forall st body,
     connected (isConnected w) = true ->
     (forall config, backend w config = HttpReply st body) ->
     validateStatus st = false -> st <> 401 ->
     let m := or_else (opt_prop body "message") (JStr "Registration failed") in
     result.1 = Rejected (Error m) /\
     auth result.2 = failed_session m /\
     storage result.2 = storage w) /\
  (forall body,
     connected (isConnected w) = true ->
     (forall config, backend w config = HttpReply 401 body) ->
     result.1 = Rejected (Error (JStr "Registration failed")) /\
     auth result.2 = failed_session (JStr "Registration failed") /\
     storage result.2 = delete TOKEN_STORAGE_KEY (storage w)) /\
  (forall msg,
     connected (isConnected w) = true ->
     (forall config, backend w config = HttpNoReply msg) ->
     result.1 = Rejected (Error (JStr "Registration failed")) /\
     auth result.2 = failed_session (JStr "Registration failed") /\
     storage result.2 = storage w).
Proof.
  intros result. subst result.
  split; [| split; [| split]].
  - intros Hc. unfold sent_during.
    rewrite register_unfold, request_run, connected_dispatched, Hc. cbn.
    rewrite !sent_app. cbn. rewrite !app_nil_r. repeat split.
  - intros st body Hc Hb Hv Hne m. subst m.
    rewrite register_unfold, request_run, connected_dispatched, Hc. cbn zeta.
    change (backend (dispatched REGISTER_REQUEST w)) with (backend w).
    rewrite Hb, Hv. apply Z.eqb_neq in Hne. rewrite Hne. cbn. repeat split.
  - intros body Hc Hb.
    rewrite register_unfold, request_run, connected_dispatched, Hc. cbn zeta.
    change (backend (dispatched REGISTER_REQUEST w)) with (backend w).
    rewrite Hb. cbn. repeat split.
  - intros msg Hc Hb.
    rewrite register_unfold, request_run, connected_dispatched, Hc. cbn zeta.
    change (backend (dispatched REGISTER_REQUEST w)) with (backend w).
    rewrite Hb. cbn. repeat split.
Qed.

Lemma register_failure_reports_witness :
  (register "alice" "alice@example.org" "secret"
     (rejecting_world 409 "Username is taken")).1
    = Rejected (Error (JStr "Username is taken")) /\
  (register "alice" "alice@example.org" "secret" offline_world).1
    = Rejected (Error (JStr "Registration failed")).
Proof.
  destruct (register_failure_reports "alice" "alice@example.org" "secret"
              (rejecting_world 409 "Username is taken")) as (_ & H409 & _ & _).
  destruct (H409 409 (JObj [("message", JStr "Username is taken")]) eq_refl
              (fun _ => eq_refl) eq_refl) as (Hres & _); [discriminate |].
  destruct (register_failure_reports "alice" "alice@example.org" "secret"
              offline_world) as (Hoff & _).
  destruct (Hoff eq_refl) as (Hresoff & _).
  split; [exact Hres | exact Hresoff].
Defined.

(** X10. [logoutUser] always succeeds without any network call: it removes
    the token and the user profile, dispatches LOGOUT and replaces the
    route with [/login], in this order; the session ends signed out with
    no error, and the next call goes out without an Authorization
    header. *)
Theorem logoutUser_signs_out (w : World) :
  (logoutUser w).1 = Fulfilled tt /\
  auth (logoutUser w).2 = signed_out /\
  events_during logoutUser w
    [EvRemoveItem TOKEN_STORAGE_KEY; EvRemoveItem USER_DATA_KEY;
     EvDispatch LOGOUT; EvRouterReplace "/login"] /\
  sent_during logoutUser w [] /\
  forall c, headers (outgoing (logoutUser w).2 c) !! "Authorization" = None.
Proof.
  unfold sent_during, events_during. cbn.
  rewrite !sent_app. cbn. rewrite !app_nil_r, <- !app_assoc.
  repeat split.
  intros c. unfold outgoing. cbn.
  rewrite lookup_delete_ne by discriminate. rewrite lookup_delete_eq. cbn.
  unfold default_headers.
  rewrite !lookup_insert_ne by discriminate. apply lookup_empty.
Qed.

End ProviderBehaviour.

(** ** The session reducer: errors and loading *)
Section SessionBehaviour.

Lemma run_snoc actions action :
  Session.run (actions ++ [action]) = authReducer (Session.run actions) action.
Proof. unfold Session.run. rewrite foldl_app. reflexivity. Qed.

Lemma last_effective_snoc actions action :
  last_effective (actions ++ [action])
  = if is_clear_error action then last_effective actions else Some action.
Proof.
  unfold last_effective. rewrite List.filter_app. cbn.
  destruct (is_clear_error action); cbn.
  - now rewrite app_nil_r.
  - apply last_snoc.
Qed.

(** X11. In every session state obtained from the initial state by
    dispatched actions, an authenticated session carries no error, and a
    session with an error has no user. *)
Theorem authenticated_session_has_no_error (actions : list AuthAction) :
  (isAuthenticated (Session.run actions) = true ->
   error (Session.run actions) = JNull) /\
  (error (Session.run actions) <> JNull ->
   user (Session.run actions) = None /\
   isAuthenticated (Session.run actions) = false).
Proof.
  induction actions as [| action actions IH] using rev_ind.
  - cbn. split; [reflexivity | congruence].
  - rewrite run_snoc. destruct IH as [IH1 IH2].
    destruct action; cbn; split; try congruence; try discriminate; auto.
Qed.

Lemma authenticated_session_has_no_error_witness :
  error (Session.run [LOGIN_FAILURE (JStr "Login failed"); LOGIN_REQUEST;
                      LOGIN_SUCCESS {| username := JStr "alice"; role := JStr "user" |}])
  = JNull.
Proof.
  apply (authenticated_session_has_no_error
           [LOGIN_FAILURE (JStr "Login failed"); LOGIN_REQUEST;
            LOGIN_SUCCESS {| username := JStr "alice"; role := JStr "user" |}]).
  reflexivity.
Defined.

(** X12. The session is loading exactly when no action other than
    CLEAR_ERROR has been dispatched yet, or the last such action is a login
    or register request: a success, a failure or a logout ends loading, and
    clearing the error never changes it. *)
Theorem loading_until_settled (actions : list AuthAction) :
  isLoading (Session.run actions) =
  match last_effective actions with
  | None => true
  | Some action => is_request action
  end.
Proof.
  induction actions as [| action actions IH] using rev_ind.
  - reflexivity.
  - rewrite run_snoc, last_effective_snoc.
    destruct action; cbn; try reflexivity. exact IH.
Qed.

End SessionBehaviour.

(** ** services/auth-service.ts *)
Section AuthServiceBehaviour.

Import ApiClient.

(** X13. [checkAuthStatus] answers, without touching storage or the
    network, exactly whether the next call would go out with an
    Authorization header: [true] for a stored non-empty token, [false] for
    an absent key or a stored empty string. [getUserInfo] returns [null] in
    the latter case and otherwise an object carrying the stored token. *)
Theorem checkAuthStatus_matches_header (w : World) (c : Call) :
  (AuthService.checkAuthStatus w).1
    = Fulfilled (bool_decide (is_Some (headers (outgoing w c) !! "Authorization"))) /\
  storage (AuthService.checkAuthStatus w).2 = storage w /\
  events_during AuthService.checkAuthStatus w [EvGetItem TOKEN_STORAGE_KEY] /\
  (AuthService.getUserInfo w).1 =
    Fulfilled
      (match storage w !! TOKEN_STORAGE_KEY with
       | Some token =>
           if decide (token = "") then JNull
           else JObj [("token", JStr token); ("username", JStr "username")]
       | None => JNull
       end).
Proof.
  assert (headers (mergeConfig w c) !! "Authorization" = None) as Hnone.
  { cbn. unfold default_headers.
    rewrite !lookup_insert_ne by discriminate. apply lookup_empty. }
  assert ((AuthService.getUserInfo w).1 =
          Fulfilled
            (if token_truthy (storage w !! TOKEN_STORAGE_KEY)
             then JObj [("token", JStr (default "" (storage w !! TOKEN_STORAGE_KEY)));
                        ("username", JStr "username")]
             else JNull)) as Hinfo.
  { unfold AuthService.getUserInfo, try_catch, then_ at 1, await, then_ at 1.
    cbn. destruct (token_truthy (storage w !! TOKEN_STORAGE_KEY)); reflexivity. }
  rewrite Hinfo. clear Hinfo.
  unfold events_during. cbn.
  unfold outgoing, token_truthy.
  destruct (storage w !! TOKEN_STORAGE_KEY) as [token |] eqn:Htok.
  - destruct (String.eqb_spec token "") as [-> | Hne]; cbn [negb].
    + rewrite Hnone. cbn. repeat split.
    + cbn [headers set_header]. rewrite lookup_insert_eq.
      rewrite bool_decide_eq_true_2 by eauto.
      destruct (decide (token = "")); [contradiction |]. repeat split.
  - rewrite Hnone. cbn. repeat split.
Qed.

Lemma auth_login_unfold username password w :
  AuthService.login username password w =
  match request (login_call username password) w with
  | (Fulfilled response, w2) =>
      match prop (resp_data response) "token" with
      | Some token =>
          match AsyncStorage_setItem TOKEN_STORAGE_KEY token w2 with
          | (Fulfilled _, w3) => (Fulfilled (resp_data response), w3)
          | (Rejected e, w3) => (Rejected e, w3)
          end
      | None => (Rejected TypeError, w2)
      end
  | (Rejected e, w2) => (Rejected e, w2)
  end.
Proof.
  unfold AuthService.login, AuthService.rethrow, try_catch, then_ at 1,
    await at 1, then_ at 1, post.
  fold (login_call username password).
  destruct (request _ w) as [[response | e] w2]; [| reflexivity].
  unfold AuthContext.data_prop.
  destruct (prop (resp_data response) "token") as [token |]; [| reflexivity].
  unfold await, then_, resolve, reject.
  destruct (AsyncStorage_setItem TOKEN_STORAGE_KEY token w2) as [[[] | e] w3];
    reflexivity.
Qed.

(** X14. The auth service's [login] stores the issued token and returns the
    body, and that is all it does: the session state and the stored user
    profile are left as they were. When the HTTP client rejects, it rejects
    with the client's error itself and the device is as the client left
    it. *)
Theorem auth_service_login_stores_token_only
    (username password : string) (w : World) :
  (forall st body token,
     connected (isConnected w) = true ->
     (forall config, backend w config = HttpReply st body) ->
     validateStatus st = true ->
     prop body "token" = Some (JStr token) ->
     (AuthService.login username password w).1 = Fulfilled body /\
     storage (AuthService.login username password w).2
       = <[TOKEN_STORAGE_KEY := token]> (storage w) /\
     storage (AuthService.login username password w).2 !! USER_DATA_KEY
       = storage w !! USER_DATA_KEY /\
     auth (AuthService.login username password w).2 = auth w) /\
  (forall e,
     (request (login_call username password) w).1 = Rejected e ->
     AuthService.login username password w
       = (Rejected e, (request (login_call username password) w).2)).
Proof.
  split.
  - intros st body token Hc Hb Hv Ht.
    rewrite auth_login_unfold, request_run, Hc. cbn zeta. rewrite Hb, Hv.
    cbn [resp_data]. rewrite Ht. cbn.
    repeat split. apply lookup_insert_ne. discriminate.
  - intros e He. rewrite auth_login_unfold.
    destruct (request (login_call username password) w) as [[response | e'] w2];
      cbn in He |- *; congruence.
Qed.

Lemma auth_service_login_stores_token_only_witness :
  (AuthService.login "alice" "secret" token_issuing_world).1
    = Fulfilled (JObj [("token", JStr "abc123"); ("username", JStr "alice")]) /\
  auth (AuthService.login "alice" "secret" token_issuing_world).2 = initialState /\
  (AuthService.login "alice" "secret" offline_world).1 = Rejected no_connection.
Proof.
  destruct (auth_service_login_stores_token_only "alice" "secret"
              token_issuing_world) as (Hok & _).
  destruct (Hok 200 (JObj [("token", JStr "abc123"); ("username", JStr "alice")])
              "abc123" eq_refl (fun _ => eq_refl) eq_refl eq_refl)
    as (Hres & _ & _ & Hauth).
  destruct (auth_service_login_stores_token_only "alice" "secret" offline_world)
    as (_ & Hfail).
  split; [exact Hres |]. split; [exact Hauth |].
  rewrite (Hfail no_connection eq_refl). reflexivity.
Defined.

End AuthServiceBehaviour.

(** ** The resource services on top of the client *)
Section ServiceBehaviour.

Import ApiClient.

Lemma request_client_outcome {A} (view : Response -> A) c w :
  match (request c w).1 with
  | Fulfilled response => Fulfilled (view response)
  | Rejected e => Rejected e
  end = client_outcome view w c.
Proof.
  rewrite request_run. unfold client_outcome.
  destruct (connected (isConnected w)); [| reflexivity]. cbn zeta.
  destruct (backend w (outgoing w c)) as [st body | msg]; [| reflexivity].
  destruct (validateStatus st); [reflexivity |].
  destruct (st =? 401); reflexivity.
Qed.

Lemma run_plain_unfold op w :
  run_plain op w =
  match request (plain_call w op) w with
  | (Fulfilled response, w') => (Fulfilled (resp_data response), w')
  | (Rejected e, w') => (Rejected e, w')
  end.
Proof.
  destruct op; cbn [run_plain plain_call];
    unfold MovieService.getMovies, MovieService.getMovie,
      MovieService.createMovie, MovieQueries.getMoviesByActor,
      MovieQueries.getMoviesByGenre, MovieService.searchMovies,
      GenreService.getGenres, GenreCrud.getGenre, GenreCrud.createGenre,
      PeopleService.getFilmography, PeopleService.rethrow,
      try_catch, await, then_, get, post, resolve, reject;
    destruct (request _ w) as [[response | e] w']; reflexivity.
Qed.

Lemma run_void_unfold op w :
  run_void op w =
  match request (void_call op) w with
  | (Fulfilled _, w') => (Fulfilled tt, w')
  | (Rejected e, w') => (Rejected e, w')
  end.
Proof.
  destruct op; cbn [run_void void_call];
    unfold MovieService.updateMovie, MovieService.deleteMovie,
      GenreCrud.updateGenre, GenreCrud.deleteGenre,
      PeopleService.deletePerson, PeopleService.rethrow,
      try_catch, await, then_, put, delete_, resolve, reject;
    destruct (request _ w) as [[response | e] w']; reflexivity.
Qed.

(** X15. The movie service's getMovies, getMovie, createMovie,
    getMoviesByActor, getMoviesByGenre and searchMovies, the genre
    service's getGenres, getGenre and createGenre and the people service's
    getFilmography make one call and hand its result on: the body as it
    came for a 2xx reply, otherwise the client's own rejection (no
    connection, session expired, or the transport's error with the
    response). The update and delete operations of the three services
    resolve to nothing for a 2xx reply whatever the body, and reject the
    same way. Each leaves the device exactly as its one call through the
    client leaves it. *)
Theorem service_operations_hand_on_client_result (w : World) :
  (forall op,
     (run_plain op w).1 = client_outcome resp_data w (plain_call w op) /\
     (run_plain op w).2 = (request (plain_call w op) w).2) /\
  (forall op,
     (run_void op w).1 = client_outcome (fun _ => tt) w (void_call op) /\
     (run_void op w).2 = (request (void_call op) w).2).
Proof.
  split; intros op.
  - rewrite run_plain_unfold, <- request_client_outcome.
    destruct (request (plain_call w op) w) as [[response | e] w']; split; reflexivity.
  - rewrite run_void_unfold, <- request_client_outcome.
    destruct (request (void_call op) w) as [[response | e] w']; split; reflexivity.
Qed.






End ServiceBehaviour.

(** ** The movie search query: parameters by name *)
Section QueryBehaviour.

Import MovieService.

Lemma getAll_append_eq name q v :
  getAll name (append q name v) = getAll name q ++ [(name, v)].
Proof.
  unfold append. rewrite getAll_app. f_equal.
  unfold getAll. cbn. now rewrite decide_True by reflexivity.
Qed.

Lemma getAll_nil name : getAll name [] = [].
Proof. reflexivity. Qed.

Lemma getAll_genreIds_other name ids :
  name <> "GenreIds" -> getAll name (genreId_param <$> ids) = [].
Proof.
  intros Hne. induction ids as [| genreId ids IH]; [reflexivity |].
  unfold getAll in *. cbn in *. rewrite decide_False by congruence. exact IH.
Qed.

Ltac by_name :=
  repeat first
    [ rewrite getAll_append_eq
    | rewrite getAll_append_ne by discriminate
    | rewrite getAll_nil ];
  cbn [app]; try reflexivity.

Lemma getAll_basicParams (params : MovieSearchParams) :
  getAll "PageNumber" (basicParams params)
    = [("PageNumber",
        match pageNumber params with
        | Some n => if n =? 0 then "1" else String_of_number n
        | None => "1"
        end)] /\
  getAll "PageSize" (basicParams params)
    = [("PageSize",
        match pageSize params with
        | Some n => if n =? 0 then "10" else String_of_number n
        | None => "10"
        end)] /\
  getAll "version" (basicParams params) = [("version", "v1")] /\
  getAll "SearchTerm" (basicParams params)
    = match searchTerm params with
      | Some term => if String.eqb term "" then [] else [("SearchTerm", term)]
      | None => []
      end /\
  getAll "SortBy" (basicParams params)
    = match sortBy params with
      | Some field => if String.eqb field "" then [] else [("SortBy", field)]
      | None => []
      end /\
  getAll "SortOrder" (basicParams params)
    = match sortOrder params with
      | Some order => if String.eqb order "" then [] else [("SortOrder", order)]
      | None => []
      end /\
  getAll "ReleaseYear" (basicParams params)
    = match releaseYear params with
      | Some year =>
          if year =? 0 then [] else [("ReleaseYear", String_of_number year)]
      | None => []
      end.
Proof.
  repeat split; unfold basicParams, given, given_number, number_or;
    destruct params as [pn ps term field order year ids];
    cbn [pageNumber pageSize searchTerm sortBy sortOrder releaseYear genreIds];
    (destruct term as [term |]; [destruct (String.eqb term "") |]);
    (destruct field as [field |]; [destruct (String.eqb field "") |]);
    (destruct order as [order |]; [destruct (String.eqb order "") |]);
    (destruct year as [year |]; [destruct (year =? 0) |]);
    cbn [negb default]; by_name;
    try (destruct pn as [pn |]; [destruct (pn =? 0) |]; reflexivity);
    try (destruct ps as [ps |]; [destruct (ps =? 0) |]; reflexivity).
Qed.

Lemma getAll_queryParams_other name params :
  name <> "GenreIds" ->
  getAll name (queryParams params) = getAll name (basicParams params).
Proof.
  intros Hne.
  rewrite queryParams_app, getAll_app, getAll_genreIds_other by exact Hne.
  apply app_nil_r.
Qed.

(** X17. In the query [searchMovies] builds, PageNumber, PageSize and
    version occur exactly once; an absent or zero page number goes out as
    1 and an absent or zero page size as 10. SearchTerm, SortBy and
    SortOrder occur once when given and not empty and not at all
    otherwise; ReleaseYear occurs once when given and not zero and not at
    all otherwise. *)
Theorem query_parameters_by_name (params : MovieSearchParams) :
  getAll "PageNumber" (queryParams params)
    = [("PageNumber",
        match pageNumber params with
        | Some n => if n =? 0 then "1" else String_of_number n
        | None => "1"
        end)] /\
  getAll "PageSize" (queryParams params)
    = [("PageSize",
        match pageSize params with
        | Some n => if n =? 0 then "10" else String_of_number n
        | None => "10"
        end)] /\
  getAll "version" (queryParams params) = [("version", "v1")] /\
  getAll "SearchTerm" (queryParams params)
    = match searchTerm params with
      | Some term => if String.eqb term "" then [] else [("SearchTerm", term)]
      | None => []
      end /\
  getAll "SortBy" (queryParams params)
    = match sortBy params with
      | Some field => if String.eqb field "" then [] else [("SortBy", field)]
      | None => []
      end /\
  getAll "SortOrder" (queryParams params)
    = match sortOrder params with
      | Some order => if String.eqb order "" then [] else [("SortOrder", order)]
      | None => []
      end /\
  getAll "ReleaseYear" (queryParams params)
    = match releaseYear params with
      | Some year =>
          if year =? 0 then [] else [("ReleaseYear", String_of_number year)]
      | None => []
      end.
Proof.
  rewrite !getAll_queryParams_other by discriminate.
  exact (getAll_basicParams params).
Qed.

End QueryBehaviour.

(** ** The search screen *)
Section SearchScreenBehaviour.

Import MovieService SearchScreen.

Lemma includes_spec genreId l : includes genreId l = true <-> genreId ∈ l.
Proof.
  unfold includes. rewrite existsb_exists. split.
  - intros (x & Hin & Heq). apply Z.eqb_eq in Heq. subst x.
    now apply list_elem_of_In.
  - intros Hin. exists genreId. split; [now apply list_elem_of_In | apply Z.eqb_refl].
Qed.

Lemma elem_of_remove genreId id' l :
  id' ∈ List.filter (fun id => negb (id =? genreId)) l <-> id' ∈ l /\ id' <> genreId.
Proof.
  rewrite !list_elem_of_In, filter_In, negb_true_iff, Z.eqb_neq. reflexivity.
Qed.

Lemma remove_absent genreId l :
  genreId ∉ l -> List.filter (fun id => negb (id =? genreId)) l = l.
Proof.
  induction l as [| x l IH]; intros Hn; [reflexivity |].
  apply not_elem_of_cons in Hn as [Hne Hn]. cbn.
  destruct (Z.eqb_spec x genreId); [congruence |]. cbn. f_equal. exact (IH Hn).
Qed.

Lemma NoDup_remove genreId l :
  NoDup l -> NoDup (List.filter (fun id => negb (id =? genreId)) l).
Proof.
  induction 1 as [| x l Hx Hl IH]; cbn; [constructor |].
  destruct (negb (x =? genreId)); [| exact IH].
  constructor; [| exact IH]. rewrite elem_of_remove. tauto.
Qed.

Lemma toggle_NoDup genreId l : NoDup l -> NoDup (toggle genreId l).
Proof.
  intros Hl. unfold toggle. destruct (includes genreId l) eqn:Hin.
  - apply NoDup_remove, Hl.
  - apply NoDup_app. split; [exact Hl |]. split; [| apply NoDup_singleton].
    intros x Hx Hx'. apply list_elem_of_singleton in Hx'. subst x.
    apply includes_spec in Hx. congruence.
Qed.

(** X18. Tapping a genre flips its selection and no other: afterwards the
    genre is selected exactly when it was not before, and every other
    genre is selected exactly when it was. A selection without repeats
    stays without repeats, and tapping a genre that was not selected twice
    gives the selection back as it was. *)
Theorem toggle_flips_selection (genreId : Z) (l : list Z) :
  (genreId ∈ toggle genreId l <-> genreId ∉ l) /\
  (forall other, other <> genreId -> other ∈ toggle genreId l <-> other ∈ l) /\
  (NoDup l -> NoDup (toggle genreId l)) /\
  (genreId ∉ l -> toggle genreId (toggle genreId l) = l).
Proof.
  split; [| split; [| split]].
  - unfold toggle. destruct (includes genreId l) eqn:Hin.
    + apply includes_spec in Hin. rewrite elem_of_remove. tauto.
    + assert (genreId ∉ l) as Hn
        by (intros H; apply includes_spec in H; congruence).
      rewrite elem_of_app, list_elem_of_singleton. tauto.
  - intros other Hne. unfold toggle. destruct (includes genreId l).
    + rewrite elem_of_remove. tauto.
    + rewrite elem_of_app, list_elem_of_singleton. tauto.
  - apply toggle_NoDup.
  - intros Hn. unfold toggle at 2.
    replace (includes genreId l) with false
      by (symmetry; apply not_true_is_false; rewrite includes_spec; exact Hn).
    unfold toggle.
    replace (includes genreId (l ++ [genreId])) with true
      by (symmetry; apply includes_spec, elem_of_app; right;
          now apply list_elem_of_singleton).
    rewrite List.filter_app, remove_absent by exact Hn. cbn.
    rewrite Z.eqb_refl. cbn. apply app_nil_r.
Qed.

Lemma toggle_flips_selection_witness :
  toggle 28 (toggle 28 [12; 16]) = [12; 16].
Proof.
  apply (toggle_flips_selection 28 [12; 16]).
  intros Hin. apply includes_spec in Hin. discriminate Hin.
Defined.

Lemma run_snoc_search inputs i : run (inputs ++ [i]) = step (run inputs) i.
Proof. unfold run. rewrite foldl_app. reflexivity. Qed.

(** X19. Whatever the user does on the search screen, the search always
    asks for pages of 20 sorted by release date, newest first; the page
    number is at least 1; the selected genres contain no repeats; and the
    search parameters never hold an empty genre list or the year 0. *)
Theorem search_screen_invariants (inputs : list Input) :
  let s := run inputs in
  pageSize (searchParams s) = Some 20 /\
  sortBy (searchParams s) = Some "releaseDate" /\
  sortOrder (searchParams s) = Some "desc" /\
  (exists n, pageNumber (searchParams s) = Some n /\ 1 <= n) /\
  NoDup (selectedGenres s) /\
  genreIds (searchParams s) <> Some [] /\
  releaseYear (searchParams s) <> Some 0.
Proof.
  induction inputs as [| i inputs IH] using rev_ind.
  - cbn. repeat split; try discriminate; [exists 1; split; [reflexivity | lia] | constructor].
  - cbn zeta in *. rewrite run_snoc_search.
    destruct IH as (Hps & Hsb & Hso & (n & Hpn & Hn) & Hnd & Hg & Hy).
    destruct i as [text | | | | | genreId | year | pinfo]; cbn [step];
      try (cbn; repeat split; try assumption; try discriminate;
           solve [ exists n; split; assumption
                 | exists 1; split; [reflexivity | lia]
                 | constructor ]).
    + (* Apply *)
      cbn. repeat split; try assumption.
      * exists 1. split; [reflexivity | lia].
      * destruct (selectedGenres (run inputs)); cbn; discriminate.
      * unfold year_or_undefined.
        destruct (selectedYear (run inputs)) as [y |]; [| discriminate].
        destruct (Z.eqb_spec y 0); [discriminate | congruence].
    + (* ToggleGenre *)
      cbn. repeat split; try assumption.
      * exists n. split; assumption.
      * apply toggle_NoDup, Hnd.
    + (* EndReached *)
      unfold loadMore. destruct pinfo as [d |].
      2:{ repeat split; try assumption. exists n. split; assumption. }
      destruct (less_than (info_pageNumber d) (info_totalPages d)).
      2:{ repeat split; try assumption. exists n. split; assumption. }
      cbn. repeat split; try assumption.
      rewrite Hpn. cbn. eexists. split; [reflexivity |].
      destruct (n =? 0); lia.
Qed.

(** X20. Applying the filters makes the next search carry one GenreIds
    parameter per selected genre, in the order of selection, the selected
    year as ReleaseYear unless none (or 0) is selected, and page 1.
    Resetting the filters empties the selection and makes the next search
    carry neither GenreIds nor ReleaseYear, again from page 1. Submitting
    the text makes the next search carry it as SearchTerm unless it is
    empty, from page 1. *)
Theorem filters_reach_the_query (s : Screen) :
  (getAll "GenreIds" (queryParams (searchParams (applyFilters s)))
     = genreId_param <$> selectedGenres s /\
   getAll "ReleaseYear" (queryParams (searchParams (applyFilters s)))
     = match selectedYear s with
       | Some year =>
           if year =? 0 then [] else [("ReleaseYear", String_of_number year)]
       | None => []
       end /\
   getAll "PageNumber" (queryParams (searchParams (applyFilters s)))
     = [("PageNumber", "1")]) /\
  (selectedGenres (resetFilters s) = [] /\
   selectedYear (resetFilters s) = None /\
   getAll "GenreIds" (queryParams (searchParams (resetFilters s))) = [] /\
   getAll "ReleaseYear" (queryParams (searchParams (resetFilters s))) = [] /\
   getAll "PageNumber" (queryParams (searchParams (resetFilters s)))
     = [("PageNumber", "1")]) /\
  (getAll "SearchTerm" (queryParams (searchParams (handleSearch s)))
     = (if String.eqb (searchQuery s) "" then []
        else [("SearchTerm", searchQuery s)]) /\
   getAll "PageNumber" (queryParams (searchParams (handleSearch s)))
     = [("PageNumber", "1")]).
Proof.
  split; [| split].
  - rewrite !(getAll_queryParams_other "ReleaseYear"),
      !(getAll_queryParams_other "PageNumber") by discriminate.
    destruct (getAll_basicParams (searchParams (applyFilters s)))
      as (Hpn & _ & _ & _ & _ & _ & Hy).
    split; [| split; [| exact Hpn]].
    + rewrite queryParams_app, getAll_app, basicParams_no_GenreIds,
        getAll_genreId_params.
      cbn. destruct (selectedGenres s); reflexivity.
    + rewrite Hy. cbn. unfold year_or_undefined.
      destruct (selectedYear s) as [year |]; [| reflexivity].
      destruct (year =? 0) eqn:Hz; [reflexivity |]. now rewrite Hz.
  - rewrite !(getAll_queryParams_other "ReleaseYear"),
      !(getAll_queryParams_other "PageNumber") by discriminate.
    destruct (getAll_basicParams (searchParams (resetFilters s)))
      as (Hpn & _ & _ & _ & _ & _ & Hy).
    repeat split; try assumption.
    rewrite queryParams_app, getAll_app, basicParams_no_GenreIds. reflexivity.
  - rewrite !(getAll_queryParams_other "SearchTerm"),
      !(getAll_queryParams_other "PageNumber") by discriminate.
    destruct (getAll_basicParams (searchParams (handleSearch s)))
      as (Hpn & _ & _ & Hterm & _).
    split; assumption.
Qed.

Lemma hasSearched_step s i :
  hasSearched (step s i) = hasSearched s || asks_for_results i.
Proof.
  destruct i as [text | | | | | genreId | year | pinfo]; cbn;
    rewrite ?orb_false_r, ?orb_true_r; try reflexivity.
  unfold loadMore. destruct pinfo as [d |]; [| reflexivity].
  destruct (less_than _ _); reflexivity.
Qed.

(** X21. The search query stays disabled until the user has submitted a
    search or applied or reset the filters: [hasSearched] is set exactly
    when one of the three has happened, and before that typing, selecting
    genres or a year, and scrolling leave the query disabled. Submitting an
    empty text with nothing selected leaves it disabled as well. After the
    first request the [enabled] option reads the selection on screen, not
    the search parameters: selecting a genre or a year then enables the
    query, although the parameters it sends have not changed. *)
Theorem search_waits_for_the_user :
  (forall inputs, hasSearched (run inputs) = existsb asks_for_results inputs) /\
  (forall inputs,
     forallb (fun i => negb (asks_for_results i)) inputs = true ->
     hasSearched (run inputs) = false /\ enabled (run inputs) = false) /\
  (forall s,
     searchQuery s = "" -> selectedGenres s = [] ->
     given_number (selectedYear s) = false -> applyClicked s = false ->
     enabled (handleSearch s) = false) /\
  (forall s genreId,
     hasSearched s = true -> genreId ∉ selectedGenres s ->
     enabled (toggleGenre genreId s) = true /\
     searchParams (toggleGenre genreId s) = searchParams s) /\
  (forall s year,
     hasSearched s = true -> year <> 0 ->
     enabled (handleYearSelect (Some year) s) = true /\
     searchParams (handleYearSelect (Some year) s) = searchParams s).
Proof.
  assert (forall inputs,
            hasSearched (run inputs) = existsb asks_for_results inputs) as Hasked.
  { induction inputs as [| i inputs IH] using rev_ind; [reflexivity |].
    rewrite run_snoc_search, hasSearched_step, IH, existsb_app. cbn [existsb].
    now rewrite orb_false_r. }
  split; [exact Hasked |]. split; [| split; [| split]].
  - intros inputs Hall.
    assert (hasSearched (run inputs) = false) as Hh.
    { rewrite Hasked. apply not_true_is_false. intros Hex.
      apply existsb_exists in Hex as (i & Hin & Hi).
      rewrite forallb_forall in Hall. specialize (Hall i Hin).
      rewrite Hi in Hall. discriminate Hall. }
    split; [exact Hh |]. unfold enabled. rewrite Hh. reflexivity.
  - intros s Hq Hg Hy Ha. unfold enabled. cbn. rewrite Hq, Hg, Hy, Ha.
    reflexivity.
  - intros s genreId Hh Hn. split; [| reflexivity].
    unfold enabled. cbn [hasSearched toggleGenre selectedGenres]. rewrite Hh.
    unfold toggle.
    replace (includes genreId (selectedGenres s)) with false
      by (symmetry; apply not_true_is_false; rewrite includes_spec; exact Hn).
    rewrite length_app. cbn [length].
    replace (0 <? Z.of_nat (length (selectedGenres s) + 1)) with true
      by (symmetry; apply Z.ltb_lt; lia).
    now rewrite orb_true_r.
  - intros s year Hh Hy. split; [| reflexivity].
    unfold enabled. cbn [hasSearched handleYearSelect selectedYear given_number].
    rewrite Hh. apply Z.eqb_neq in Hy. rewrite Hy. cbn.
    now rewrite !orb_true_r.
Qed.

Lemma search_waits_for_the_user_witness :
  enabled (run [Type_ "alien"; ToggleGenre 28; SelectYear (Some 1979)]) = false /\
  enabled (handleSearch initial) = false /\
  (enabled (run [Submit; ToggleGenre 28]) = true /\
   genreIds (searchParams (run [Submit; ToggleGenre 28])) = None) /\
  enabled (run [Submit; SelectYear (Some 1979)]) = true.
Proof.
  destruct search_waits_for_the_user as (_ & Hwait & Hempty & Hgenre & Hyear).
  split; [| split; [| split]].
  - apply (Hwait [Type_ "alien"; ToggleGenre 28; SelectYear (Some 1979)]).
    reflexivity.
  - apply (Hempty initial); reflexivity.
  - assert (28 ∉ selectedGenres (run [Submit])) as Hn
      by (intros Hin; apply includes_spec in Hin; discriminate Hin).
    destruct (Hgenre (run [Submit]) 28 eq_refl Hn) as [Hen Hparams].
    split; [exact Hen |].
    change (run [Submit; ToggleGenre 28]) with (toggleGenre 28 (run [Submit])).
    rewrite Hparams. reflexivity.
  - apply (Hyear (run [Submit]) 1979 eq_refl). discriminate.
Defined.

End SearchScreenBehaviour.

(** ** The movie list screen: paging guards *)
Section HomeBehaviour.

Import Home.

Lemma run_from_cons m i inputs :
  run_from m (i :: inputs) = run_from (step m i) inputs.
Proof. reflexivity. Qed.

(** Calls of [loadMore] made while one render is on screen. *)
Lemma run_from_end_reached q m n :
  run_from m (replicate n (EndReached q)) =
  {| shown := shown m;
     state := Nat.iter n (loadMore q (shown m)) (state m) |}.
Proof.
  revert m. induction n as [| n IH]; intros m.
  - destruct m. reflexivity.
  - change (replicate (S n) (EndReached q))
      with (EndReached q :: replicate n (EndReached q)).
    rewrite run_from_cons, IH. cbn [step shown state].
    now rewrite Nat.iter_succ_r.
Qed.

Lemma iter_fixed {A} (f : A -> A) (x : A) (n : nat) :
  f x = x -> Nat.iter n f x = x.
Proof.
  intros Hf. induction n as [| n IH]; [reflexivity |].
  now rewrite Nat.iter_succ, IH.
Qed.

Lemma loadMore_blocked q s' s :
  isLoadingMore s' = true -> loadMore q s' s = s.
Proof.
  intros Hl. unfold loadMore. rewrite Hl. cbn. now rewrite andb_false_r.
Qed.

Lemma step_page_lower m i : 1 <= page (state m) -> 1 <= page (state (step m i)).
Proof.
  intros Hp. destruct i as [q | q | q | |]; cbn [step state render].
  - now rewrite allMovies_effect_page.
  - unfold isLoadingMore_effect. destruct (negb (isFetching q)); exact Hp.
  - unfold loadMore. destruct (_ && _ && _); cbn; lia.
  - cbn. lia.
  - exact Hp.
Qed.

(** X22. The guard of [loadMore] reads the loading-more flag of the render
    on screen, not the state: when the end of the list is reached several
    times before the next render, every call passes the guard that the
    first call passed, and the page advances once per call; when the guard
    of that render fails, no call changes anything. With a render between
    the first call and the later ones the page advances at most once. From
    mount on, the page number never drops below 1. *)
Theorem end_reached_guard_reads_the_render :
  (forall q m n,
     shown (run_from m (replicate (S n) (EndReached q))) = shown m /\
     state (run_from m (replicate (S n) (EndReached q)))
     = if data_hasNext q && negb (isLoadingMore (shown m)) && negb (isFetching q)
       then {| page := page (state m) + Z.of_nat (S n);
               allMovies := allMovies (state m);
               isLoadingMore := true |}
       else state m) /\
  (forall q s n,
     Home.run s (EndReached q :: Rerender :: replicate n (EndReached q))
     = loadMore q s s /\
     page s <= page (loadMore q s s) <= page s + 1) /\
  (forall inputs, 1 <= page (Home.run mount inputs)).
Proof.
  split; [| split].
  - intros q m n. rewrite run_from_end_reached. cbn [shown state].
    split; [reflexivity |].
    destruct (data_hasNext q && negb (isLoadingMore (shown m))
              && negb (isFetching q)) eqn:Hguard.
    + induction n as [| n IH].
      * cbn. unfold loadMore. rewrite Hguard. reflexivity.
      * change (Nat.iter (S (S n)) (loadMore q (shown m)) (state m))
          with (loadMore q (shown m)
                  (Nat.iter (S n) (loadMore q (shown m)) (state m))).
        rewrite IH. unfold loadMore at 1. rewrite Hguard.
        cbn [page allMovies]. f_equal. lia.
    + induction n as [| n IH].
      * cbn. unfold loadMore. rewrite Hguard. reflexivity.
      * change (Nat.iter (S (S n)) (loadMore q (shown m)) (state m))
          with (loadMore q (shown m)
                  (Nat.iter (S n) (loadMore q (shown m)) (state m))).
        rewrite IH. unfold loadMore. rewrite Hguard. reflexivity.
  - intros q s n. split.
    + unfold Home.run. rewrite !run_from_cons, run_from_end_reached.
      unfold render. cbn [step shown state]. apply iter_fixed.
      destruct (data_hasNext q && negb (isLoadingMore s) && negb (isFetching q))
        eqn:Hguard.
      * apply loadMore_blocked. unfold loadMore. rewrite Hguard. reflexivity.
      * assert (loadMore q s s = s) as Hsame
          by (unfold loadMore; rewrite Hguard; reflexivity).
        now rewrite !Hsame.
    + unfold loadMore. destruct (_ && _ && _); cbn; lia.
  - intros inputs. unfold Home.run.
    assert (forall m, 1 <= page (state m) ->
                      1 <= page (state (run_from m inputs))) as H.
    { induction inputs as [| i inputs IH]; intros m Hm; [exact Hm |].
      rewrite run_from_cons. apply IH, step_page_lower, Hm. }
    apply H. cbn. lia.
Qed.

Lemma end_reached_guard_reads_the_render_witness :
  page (state (run_from (render mount)
                 [EndReached (settled [sample_movie 1 "Alien"] true 1);
                  EndReached (settled [sample_movie 1 "Alien"] true 1)])) = 3 /\
  page (Home.run mount
          [EndReached (settled [sample_movie 1 "Alien"] true 1);
           Rerender;
           EndReached (settled [sample_movie 1 "Alien"] true 1)]) = 2.
Proof.
  destruct end_reached_guard_reads_the_render as (Hcalls & Hrender & _).
  split.
  - destruct (Hcalls (settled [sample_movie 1 "Alien"] true 1) (render mount) 1%nat)
      as [_ Hstate].
    change (replicate 2 (EndReached (settled [sample_movie 1 "Alien"] true 1)))
      with [EndReached (settled [sample_movie 1 "Alien"] true 1);
            EndReached (settled [sample_movie 1 "Alien"] true 1)] in Hstate.
    rewrite Hstate. reflexivity.
  - destruct (Hrender (settled [sample_movie 1 "Alien"] true 1) mount 1%nat)
      as [Hrun _].
    change (replicate 1 (EndReached (settled [sample_movie 1 "Alien"] true 1)))
      with [EndReached (settled [sample_movie 1 "Alien"] true 1)] in Hrun.
    rewrite Hrun. reflexivity.
Defined.

Lemma step_grows m i :
  2 <= page (state m) -> is_refresh i = false ->
  allMovies (state m) `prefix_of` allMovies (state (step m i)) /\
  2 <= page (state (step m i)).
Proof.
  intros Hp Hi.
  destruct i as [q | q | q | |]; cbn [step state render]; try discriminate Hi.
  - split; [| now rewrite allMovies_effect_page].
    unfold allMovies_effect.
    destruct (data q) as [d |]; [| reflexivity].
    destruct (items d) as [its |]; [| reflexivity].
    destruct (Z.eqb_spec (page (state m)) 1); [lia |]. cbn.
    now apply prefix_app_r.
  - unfold isLoadingMore_effect.
    destruct (negb (isFetching q)); split; cbn; (reflexivity || exact Hp).
  - unfold loadMore. destruct (_ && _ && _); split; cbn; (reflexivity || lia).
  - split; [reflexivity | exact Hp].
Qed.

Lemma run_from_grows m inputs :
  2 <= page (state m) ->
  forallb (fun i => negb (is_refresh i)) inputs = true ->
  allMovies (state m) `prefix_of` allMovies (state (run_from m inputs)) /\
  2 <= page (state (run_from m inputs)).
Proof.
  revert m. induction inputs as [| i inputs IH]; intros m Hp Hall.
  - split; [reflexivity | exact Hp].
  - cbn in Hall. apply andb_true_iff in Hall as [Hi Hall].
    apply negb_true_iff in Hi.
    rewrite run_from_cons.
    destruct (step_grows m i Hp Hi) as [Hpre Hp'].
    destruct (IH (step m i) Hp' Hall) as [Hpre' Hp''].
    split; [etrans; eassumption | exact Hp''].
Qed.

(** X23. Once the screen is past page 1, nothing but a refresh takes a
    movie off the list: after any inputs without a refresh the list still
    starts with the movies it had, and the page is still past 1. *)
Theorem list_only_grows_past_page_one (s : Screen) (inputs : list Input) :
  2 <= page s ->
  forallb (fun i => negb (is_refresh i)) inputs = true ->
  allMovies s `prefix_of` allMovies (Home.run s inputs) /\
  2 <= page (Home.run s inputs).
Proof.
  intros Hp Hall. exact (run_from_grows (render s) inputs Hp Hall).
Qed.

Lemma list_only_grows_past_page_one_witness :
  [sample_movie 1 "Alien"] `prefix_of`
    allMovies
      (Home.run {| page := 2; allMovies := [sample_movie 1 "Alien"];
                   isLoadingMore := true |}
         [DataChanged (settled [sample_movie 2 "Brazil"] false 2);
          DataChanged (settled [sample_movie 2 "Brazil"] false 2)]).
Proof.
  apply (list_only_grows_past_page_one
           {| page := 2; allMovies := [sample_movie 1 "Alien"];
              isLoadingMore := true |}
           [DataChanged (settled [sample_movie 2 "Brazil"] false 2);
            DataChanged (settled [sample_movie 2 "Brazil"] false 2)]).
  - cbn. lia.
  - reflexivity.
Defined.

(** X24. Once a render has seen the loading-more flag set, only a render
    in which the query has stopped fetching clears it: arriving data,
    reaching the end of the list, refreshing and further renders leave it
    set, in the state and on screen; reaching the end does not advance the
    page, and the page changes only by a refresh taking it back to 1. *)
Theorem loading_more_blocks_paging (m : Mounted) (inputs : list Input) :
  isLoadingMore (shown m) = true ->
  isLoadingMore (state m) = true ->
  forallb (fun i => negb (fetch_settled i)) inputs = true ->
  isLoadingMore (shown (run_from m inputs)) = true /\
  isLoadingMore (state (run_from m inputs)) = true /\
  (page (state (run_from m inputs)) = page (state m) \/
   page (state (run_from m inputs)) = 1).
Proof.
  revert m. induction inputs as [| i inputs IH]; intros m Hshown Hl Hall.
  - split; [exact Hshown |]. split; [exact Hl | left; reflexivity].
  - cbn in Hall. apply andb_true_iff in Hall as [Hi Hall].
    rewrite run_from_cons.
    assert (isLoadingMore (shown (step m i)) = true /\
            isLoadingMore (state (step m i)) = true /\
            (page (state (step m i)) = page (state m) \/
             page (state (step m i)) = 1)) as (Hshown' & Hl' & Hp').
    { destruct i as [q | q | q | |]; cbn [step shown state render].
      - split; [exact Hl |]. split; [| left; apply allMovies_effect_page].
        unfold allMovies_effect.
        destruct (data q) as [d |]; [| exact Hl].
        destruct (items d); [| exact Hl].
        destruct (page (state m) =? 1); exact Hl.
      - cbn in Hi. unfold isLoadingMore_effect.
        destruct (negb (isFetching q)); [discriminate Hi |].
        split; [exact Hl |]. split; [exact Hl | left; reflexivity].
      - rewrite (loadMore_blocked q (shown m) (state m) Hshown).
        split; [exact Hshown |]. split; [exact Hl | left; reflexivity].
      - split; [exact Hshown |]. split; [exact Hl | right; reflexivity].
      - split; [exact Hl |]. split; [exact Hl | left; reflexivity]. }
    destruct (IH (step m i) Hshown' Hl' Hall) as (Hshown'' & Hl'' & Hp'').
    split; [exact Hshown'' |]. split; [exact Hl'' |].
    destruct Hp'' as [-> | ->]; [exact Hp' | right; reflexivity].
Qed.

Lemma loading_more_blocks_paging_witness :
  page
    (state
       (run_from
          (run_from (render mount)
             [EndReached (settled [sample_movie 1 "Alien"] true 1); Rerender])
          [EndReached (settled [sample_movie 1 "Alien"] true 1);
           DataChanged (settled [sample_movie 2 "Brazil"] true 2);
           EndReached (settled [sample_movie 2 "Brazil"] true 2)])) = 2.
Proof.
  destruct (loading_more_blocks_paging
              (run_from (render mount)
                 [EndReached (settled [sample_movie 1 "Alien"] true 1); Rerender])
              [EndReached (settled [sample_movie 1 "Alien"] true 1);
               DataChanged (settled [sample_movie 2 "Brazil"] true 2);
               EndReached (settled [sample_movie 2 "Brazil"] true 2)]
              eq_refl eq_refl eq_refl) as (_ & _ & [Hp | Hp]).
  - exact Hp.
  - discriminate Hp.
Defined.

End HomeBehaviour.

(** ** Query keys *)
Section KeyBehaviour.

Import MovieQueries.

(** X25. Every movie list key starts with the key the mutations
    invalidate, [['movies', 'list']]; no detail key, by-actor key or
    by-genre key does, and neither does the key the home screen queries
    under, [['movies', page]]. All of them start with [['movies']]. *)
Theorem list_keys_are_apart :
  (forall filters, lists `prefix_of` list_ filters) /\
  (forall id, ~ lists `prefix_of` detail id) /\
  (forall id, ~ lists `prefix_of` actorMovies id) /\
  (forall id, ~ lists `prefix_of` genreMovies id) /\
  (forall page, ~ lists `prefix_of` homeKey page) /\
  (forall filters id page,
     all `prefix_of` list_ filters /\ all `prefix_of` detail id /\
     all `prefix_of` actorMovies id /\ all `prefix_of` genreMovies id /\
     all `prefix_of` homeKey page).
Proof.
  repeat split;
    try (intros ? [k Hk]; cbn in Hk; discriminate Hk);
    eexists; reflexivity.
Qed.

End KeyBehaviour.

(** ** Schemas: what parsing keeps *)
Section SchemaBehaviour.

Import ZodShape Types.

(** Induction on schemas that reaches the fields of object schemas. *)
Lemma Schema_nested_ind (P : Schema -> Prop) :
  P z_any -> P z_number -> P z_string -> P z_boolean ->
  (forall element, P element -> P (z_array element)) ->
  (forall shape, Forall (fun kv => P kv.2) shape -> P (z_object shape)) ->
  (forall inner, P inner -> P (z_nullable inner)) ->
  (forall inner, P inner -> P (z_optional inner)) ->
  (forall inner value, P inner -> P (z_default inner value)) ->
  forall s, P s.
Proof.
  intros Hany Hnum Hstr Hbool Harr Hobj Hnull Hopt Hdef.
  fix IH 1. intros [| | | | element | shape | inner | inner | inner value].
  - exact Hany.
  - exact Hnum.
  - exact Hstr.
  - exact Hbool.
  - apply Harr, IH.
  - apply Hobj. induction shape as [| [k sk] shape IHshape].
    + constructor.
    + constructor; [apply IH | exact IHshape].
  - apply Hnull, IH.
  - apply Hopt, IH.
  - apply Hdef, IH.
Qed.

Lemma parse_object shape fields :
  parse (z_object shape) (JObj fields) = JObj <$> parse_fields fields shape.
Proof.
  induction shape as [| [k sk] shape IH]; [reflexivity |].
  cbn in IH |- *.
  match type of IH with
  | JObj <$> ?a = JObj <$> ?b =>
      assert (a = b) as ->
        by (destruct a, b; cbn in IH; congruence)
  end.
  reflexivity.
Qed.

Lemma has_key_elem k fields : has_key k fields = true <-> k ∈ fields.*1.
Proof.
  induction fields as [| [k' v] fields IH]; cbn.
  - split; [discriminate | intros H; inversion H].
  - destruct (String.eqb_spec k k') as [-> | Hne].
    + split; [intros _; left | reflexivity].
    + rewrite IH, elem_of_cons. split; [auto | intros [? | ?]; [congruence | auto]].
Qed.

Lemma assoc_absent k fields : has_key k fields = false -> assoc k fields = JUndefined.
Proof.
  induction fields as [| [k' v] fields IH]; cbn; [reflexivity |].
  destruct (String.eqb k k'); [discriminate | exact IH].
Qed.

Lemma parse_fields_keys fields shape out :
  parse_fields fields shape = Some out -> out.*1 `sublist_of` shape.*1.
Proof.
  revert out. induction shape as [| [k sk] shape IH]; intros out H; cbn in H.
  - injection H as <-. constructor.
  - destruct (parse sk (assoc k fields)) as [x |]; [| discriminate H].
    destruct (parse_fields fields shape) as [rest |]; [| discriminate H].
    specialize (IH rest eq_refl).
    destruct (has_key k fields || negb (is_undefined x)); injection H as <-; cbn.
    + now apply sublist_skip.
    + now apply sublist_cons.
Qed.

(** X26. An object schema returns only keys it declares, in the order it
    declares them: every key of the parsed value is a key of the schema,
    and unknown keys of the input are dropped. Parsing anything but an
    object fails. *)
Theorem object_schema_strips_unknown_keys
    (shape : list (string * Schema)) (v parsed : JsVal) :
  parse (z_object shape) v = Some parsed ->
  (exists fields, v = JObj fields) /\
  keys_of parsed `sublist_of` shape.*1 /\
  forall k, k ∈ keys_of parsed -> k ∈ shape.*1.
Proof.
  intros H.
  destruct v as [| | | | | | fields]; try discriminate H.
  rewrite parse_object in H.
  destruct (parse_fields fields shape) as [out |] eqn:Hout; [| discriminate H].
  injection H as <-. cbn.
  pose proof (parse_fields_keys fields shape out Hout) as Hsub.
  split; [eauto |]. split; [exact Hsub |].
  intros k Hk. exact (elem_of_submseteq _ _ _ Hk (sublist_submseteq _ _ Hsub)).
Qed.

Lemma object_schema_strips_unknown_keys_witness :
  keys_of (page_body [] 25 1 10 3 false true)
    `sublist_of` ["items"; "totalCount"; "pageNumber"; "pageSize"; "totalPages";
                  "hasPrevious"; "hasNext"].
Proof.
  apply (object_schema_strips_unknown_keys
           [("items", z_array z_any); ("totalCount", z_number);
            ("pageNumber", z_number); ("pageSize", z_number);
            ("totalPages", z_number); ("hasPrevious", z_boolean);
            ("hasNext", z_boolean)]
           (JObj [("extra", JNull); ("items", JArr []); ("totalCount", JNum 25);
                  ("pageNumber", JNum 1); ("pageSize", JNum 10);
                  ("totalPages", JNum 3); ("hasPrevious", JBool false);
                  ("hasNext", JBool true)])
           (page_body [] 25 1 10 3 false true)).
  reflexivity.
Defined.

(** No schema turns a value into [undefined]. *)
Lemma parse_undefined s :
  forall v, parse s v = Some JUndefined -> v = JUndefined.
Proof.
  induction s as [| | | | element IH | shape IH | inner IH | inner IH
                  | inner value IH] using Schema_nested_ind; intros v H.
  - cbn in H. congruence.
  - destruct v; cbn in H; congruence.
  - destruct v; cbn in H; congruence.
  - destruct v; cbn in H; congruence.
  - destruct v; try discriminate H. cbn in H.
    destruct (mapM (parse element) elems); discriminate H.
  - destruct v; try discriminate H. rewrite parse_object in H.
    destruct (parse_fields fields shape); discriminate H.
  - destruct v; cbn in H;
      first [reflexivity | discriminate H | apply IH in H; congruence].
  - destruct v; cbn in H;
      first [reflexivity | discriminate H | apply IH in H; congruence].
  - destruct v; cbn in H;
      first [reflexivity | discriminate H | apply IH in H; congruence].
Qed.

Lemma distinct_keys_object shape :
  distinct_keys (z_object shape) = true ->
  NoDup shape.*1 /\ Forall (fun kv => distinct_keys kv.2 = true) shape.
Proof.
  cbn. intros H. apply andb_true_iff in H as [Hnd Hall].
  apply bool_decide_eq_true in Hnd. split; [exact Hnd |].
  clear Hnd. induction shape as [| [k sk] shape IH]; [constructor |].
  apply andb_true_iff in Hall as [Hk Hall].
  constructor; [exact Hk | exact (IH Hall)].
Qed.

Lemma parse_fields_fresh k x rest shape :
  k ∉ shape.*1 ->
  parse_fields ((k, x) :: rest) shape = parse_fields rest shape.
Proof.
  induction shape as [| [k' sk] shape IH]; intros Hk; [reflexivity |].
  cbn in Hk. apply not_elem_of_cons in Hk as [Hne Hk].
  cbn. destruct (String.eqb_spec k' k) as [-> | _]; [congruence |].
  rewrite (IH Hk). reflexivity.
Qed.

Lemma parse_fields_idempotent fields shape out :
  NoDup shape.*1 ->
  Forall (fun kv => forall v v', parse kv.2 v = Some v' -> parse kv.2 v' = Some v')
    shape ->
  parse_fields fields shape = Some out ->
  parse_fields out shape = Some out.
Proof.
  revert out. induction shape as [| [k sk] shape IH]; intros out Hnd Hall H.
  - cbn in H. injection H as <-. reflexivity.
  - cbn in Hnd. apply NoDup_cons in Hnd as [Hk Hnd].
    apply Forall_cons in Hall as [Hsk Hall]. cbn in Hsk.
    cbn in H.
    destruct (parse sk (assoc k fields)) as [x |] eqn:Hx; [| discriminate H].
    destruct (parse_fields fields shape) as [rest |] eqn:Hrest; [| discriminate H].
    specialize (IH rest Hnd Hall eq_refl).
    assert (k ∉ rest.*1) as Hkrest.
    { intros Hin. apply Hk.
      exact (elem_of_submseteq _ _ _ Hin
               (sublist_submseteq _ _ (parse_fields_keys _ _ _ Hrest))). }
    destruct (has_key k fields || negb (is_undefined x)) eqn:Hkeep;
      injection H as <-.
    + cbn. rewrite String.eqb_refl, (Hsk _ _ Hx).
      rewrite (parse_fields_fresh k x rest shape Hk), IH. reflexivity.
    + apply orb_false_iff in Hkeep as [Hhas Hundef].
      assert (x = JUndefined) as -> by (destruct x; cbn in Hundef; congruence).
      rewrite (assoc_absent _ _ Hhas) in Hx.
      assert (has_key k rest = false) as Hhas'.
      { apply not_true_is_false. rewrite has_key_elem. exact Hkrest. }
      cbn. rewrite (assoc_absent _ _ Hhas'), Hx, IH, Hhas'. reflexivity.
Qed.

Lemma parse_idempotent_distinct s :
  distinct_keys s = true ->
  forall v v', parse s v = Some v' -> parse s v' = Some v'.
Proof.
  induction s as [| | | | element IH | shape IH | inner IH | inner IH
                  | inner value IH] using Schema_nested_ind; intros Hd v v' H.
  - reflexivity.
  - destruct v; cbn in H; try discriminate H. now injection H as <-.
  - destruct v; cbn in H; try discriminate H. now injection H as <-.
  - destruct v; cbn in H; try discriminate H. now injection H as <-.
  - destruct v; try discriminate H. cbn in H, Hd.
    destruct (mapM (parse element) elems) as [out |] eqn:Hm; [| discriminate H].
    injection H as <-. cbn.
    apply mapM_Some in Hm.
    assert (mapM (parse element) out = Some out) as ->; [| reflexivity].
    apply mapM_Some.
    induction Hm as [| x y l k Hxy _ IHm]; constructor; [| exact IHm].
    exact (IH Hd x y Hxy).
  - destruct (distinct_keys_object shape Hd) as [Hnd Hall].
    destruct v; try discriminate H. rewrite parse_object in H.
    destruct (parse_fields fields shape) as [out |] eqn:Hout; [| discriminate H].
    injection H as <-. rewrite parse_object.
    rewrite (parse_fields_idempotent fields shape out Hnd); [reflexivity | | exact Hout].
    clear Hout Hnd Hd. induction shape as [| kv shape IHshape]; [constructor |].
    apply Forall_cons in IH as [IHkv IH]. apply Forall_cons in Hall as [Hkv Hall].
    constructor; [exact (IHkv Hkv) | exact (IHshape IH Hall)].
  - cbn in Hd. destruct v; cbn in H;
      try (apply (IH Hd) in H as H'; destruct v'; cbn; (reflexivity || exact H')).
    injection H as <-. reflexivity.
  - cbn in Hd. destruct v; cbn in H;
      try (apply (IH Hd) in H as H'; destruct v'; cbn; (reflexivity || exact H')).
    injection H as <-. reflexivity.
  - cbn in Hd. destruct v; cbn in H.
    + destruct v'; cbn; first [exact H | exact (IH Hd _ _ H)].
    + pose proof (IH Hd _ _ H) as H'. destruct v'; cbn; try exact H'.
      apply parse_undefined in H. discriminate H.
    + pose proof (IH Hd _ _ H) as H'. destruct v'; cbn; try exact H'.
      apply parse_undefined in H. discriminate H.
    + pose proof (IH Hd _ _ H) as H'. destruct v'; cbn; try exact H'.
      apply parse_undefined in H. discriminate H.
    + pose proof (IH Hd _ _ H) as H'. destruct v'; cbn; try exact H'.
      apply parse_undefined in H. discriminate H.
    + pose proof (IH Hd _ _ H) as H'. destruct v'; cbn; try exact H'.
      apply parse_undefined in H. discriminate H.
    + pose proof (IH Hd _ _ H) as H'. destruct v'; cbn; try exact H'.
      apply parse_undefined in H. discriminate H.
Qed.

(** X27. Parsing is idempotent for every schema whose object schemas have
    pairwise distinct keys, which holds for all schemas the services
    declare: a value a schema returned passes that schema again and comes
    back unchanged, defaults already filled in and unknown keys already
    gone. *)
Theorem parse_is_idempotent (s : Schema) (v parsed : JsVal) :
  distinct_keys s = true ->
  parse s v = Some parsed ->
  parse s parsed = Some parsed.
Proof. intros Hd H. exact (parse_idempotent_distinct s Hd v parsed H). Qed.

Lemma parse_is_idempotent_witness :
  distinct_keys PeopleSchemas.PersonSchema = true /\
  distinct_keys PeopleSchemas.PaginatedPeopleSchema = true /\
  distinct_keys (z_array PeopleSchemas.PopularActorSchema) = true /\
  distinct_keys (z_array GenreSchemas.PopularGenreSchema) = true /\
  distinct_keys MovieResponseSchema = true /\
  parse PeopleSchemas.PersonSchema
    (JObj [("id", JNum 7); ("name", JStr "Ridley Scott");
           ("isDirector", JBool true); ("isActor", JBool false);
           ("movies", JArr [])])
  = Some (JObj [("id", JNum 7); ("name", JStr "Ridley Scott");
                ("isDirector", JBool true); ("isActor", JBool false);
                ("movies", JArr [])]).
Proof.
  repeat (split; [vm_compute; reflexivity |]).
  apply (parse_is_idempotent PeopleSchemas.PersonSchema
           (JObj [("name", JStr "Ridley Scott"); ("id", JNum 7);
                  ("isDirector", JBool true); ("nickname", JStr "Sir")])).
  - vm_compute. reflexivity.
  - vm_compute. reflexivity.
Defined.

Lemma assoc_fresh k fields : k ∉ fields.*1 -> assoc k fields = JUndefined.
Proof.
  intros Hk. apply assoc_absent, not_true_is_false. now rewrite has_key_elem.
Qed.

Lemma parse_fields_assoc fields shape out :
  NoDup shape.*1 ->
  parse_fields fields shape = Some out ->
  forall k sk, (k, sk) ∈ shape -> parse sk (assoc k fields) = Some (assoc k out).
Proof.
  revert out. induction shape as [| [k0 sk0] shape IH]; intros out Hnd H k sk Hin.
  - inversion Hin.
  - cbn in Hnd. apply NoDup_cons in Hnd as [Hk0 Hnd]. cbn in H.
    destruct (parse sk0 (assoc k0 fields)) as [x |] eqn:Hx; [| discriminate H].
    destruct (parse_fields fields shape) as [rest |] eqn:Hrest; [| discriminate H].
    assert (k0 ∉ rest.*1) as Hk0rest.
    { intros Hin'. apply Hk0.
      exact (elem_of_submseteq _ _ _ Hin'
               (sublist_submseteq _ _ (parse_fields_keys _ _ _ Hrest))). }
    apply elem_of_cons in Hin as [[= -> ->] | Hin].
    + destruct (has_key k0 fields || negb (is_undefined x)) eqn:Hkeep;
        injection H as <-.
      * cbn. now rewrite String.eqb_refl.
      * apply orb_false_iff in Hkeep as [_ Hundef].
        assert (x = JUndefined) as -> by (destruct x; cbn in Hundef; congruence).
        now rewrite (assoc_fresh _ _ Hk0rest).
    + assert (k <> k0) as Hne.
      { intros ->. apply Hk0. apply list_elem_of_fmap. exists (k0, sk).
        split; [reflexivity | exact Hin]. }
      rewrite (IH rest Hnd eq_refl k sk Hin).
      destruct (has_key k0 fields || negb (is_undefined x)); injection H as <-;
        [| reflexivity].
      cbn. destruct (String.eqb_spec k k0); [contradiction | reflexivity].
Qed.

(** X28. For an object schema with pairwise distinct keys, reading a
    declared key from the parsed value gives exactly what that key's schema
    returns for the input's value under the key ([undefined] standing for a
    missing key on either side). *)
Theorem parsed_field_is_parsed_input_field
    (shape : list (string * Schema)) (fields : list (string * JsVal))
    (parsed : JsVal) (k : string) (sk : Schema) :
  NoDup shape.*1 ->
  parse (z_object shape) (JObj fields) = Some parsed ->
  (k, sk) ∈ shape ->
  parse sk (assoc k fields) = Some (opt_prop parsed k).
Proof.
  intros Hnd H Hin. rewrite parse_object in H.
  destruct (parse_fields fields shape) as [out |] eqn:Hout; [| discriminate H].
  injection H as <-. cbn.
  exact (parse_fields_assoc fields shape out Hnd Hout k sk Hin).
Qed.

Lemma parsed_field_is_parsed_input_field_witness :
  parse (z_default z_boolean (JBool false)) (assoc "isActor" [("id", JNum 7)])
  = Some (opt_prop (JObj [("id", JNum 7); ("isActor", JBool false)]) "isActor").
Proof.
  apply (parsed_field_is_parsed_input_field
           [("id", z_number); ("isActor", z_default z_boolean (JBool false))]
           [("id", JNum 7)]
           (JObj [("id", JNum 7); ("isActor", JBool false)])
           "isActor" (z_default z_boolean (JBool false))).
  - apply (bool_decide_unpack _). vm_compute. exact I.
  - reflexivity.
  - apply list_elem_of_further, list_elem_of_here.
Defined.

(** X29. Whatever passes the person schema comes back with boolean
    [isDirector] and [isActor] and an array under [movies]: a body that
    lacks them gets [false], [false] and the empty list. *)
Theorem person_defaults_are_filled (v parsed : JsVal) :
  parse PeopleSchemas.PersonSchema v = Some parsed ->
  exists isDirector isActor movies,
    opt_prop parsed "isDirector" = JBool isDirector /\
    opt_prop parsed "isActor" = JBool isActor /\
    opt_prop parsed "movies" = JArr movies /\
    (opt_prop v "isDirector" = JUndefined -> isDirector = false) /\
    (opt_prop v "isActor" = JUndefined -> isActor = false) /\
    (opt_prop v "movies" = JUndefined -> movies = []).
Proof.
  intros H.
  assert (exists fields, v = JObj fields) as [fields ->]
    by (destruct v; try discriminate H; eauto).
  unfold PeopleSchemas.PersonSchema in H. rewrite parse_object in H.
  match type of H with
  | JObj <$> parse_fields fields ?shape = _ =>
      destruct (parse_fields fields shape) as [out |] eqn:Hout;
        [| discriminate H];
      assert (NoDup shape.*1) as Hnd
        by (apply (bool_decide_unpack _); vm_compute; exact I);
      pose proof (parse_fields_assoc fields shape out Hnd Hout) as Hl
  end.
  injection H as <-.
  pose proof (Hl "isDirector" (z_default z_boolean (JBool false))
                ltac:(do 7 apply list_elem_of_further; apply list_elem_of_here))
    as Hd.
  pose proof (Hl "isActor" (z_default z_boolean (JBool false))
                ltac:(do 8 apply list_elem_of_further; apply list_elem_of_here))
    as Ha.
  pose proof (Hl "movies" _
                ltac:(do 9 apply list_elem_of_further; apply list_elem_of_here))
    as Hm.
  clear Hl Hout Hnd.
  cbn [opt_prop prop].
  destruct (assoc "isDirector" out) as [| | d | | | |] eqn:Ed;
    try (destruct (assoc "isDirector" fields); cbn in Hd; discriminate Hd).
  destruct (assoc "isActor" out) as [| | a | | | |] eqn:Ea;
    try (destruct (assoc "isActor" fields); cbn in Ha; discriminate Ha).
  destruct (assoc "movies" out) as [| | | | | ms |] eqn:Em;
    try (destruct (assoc "movies" fields) as [| | | | | elems |]; cbn in Hm;
         try discriminate Hm;
         destruct (mapM _ elems); discriminate Hm).
  exists d, a, ms. repeat split.
  - intros Hu. rewrite Hu in Hd. cbn in Hd. congruence.
  - intros Hu. rewrite Hu in Ha. cbn in Ha. congruence.
  - intros Hu. rewrite Hu in Hm. cbn in Hm. congruence.
Qed.

Lemma person_defaults_are_filled_witness :
  exists isDirector isActor movies,
    opt_prop (JObj [("id", JNum 7); ("name", JStr "Ridley Scott");
                    ("isDirector", JBool false); ("isActor", JBool false);
                    ("movies", JArr [])]) "isDirector" = JBool isDirector /\
    opt_prop (JObj [("id", JNum 7); ("name", JStr "Ridley Scott");
                    ("isDirector", JBool false); ("isActor", JBool false);
                    ("movies", JArr [])]) "isActor" = JBool isActor /\
    opt_prop (JObj [("id", JNum 7); ("name", JStr "Ridley Scott");
                    ("isDirector", JBool false); ("isActor", JBool false);
                    ("movies", JArr [])]) "movies" = JArr movies /\
    isDirector = false /\ isActor = false /\ movies = [].
Proof.
  destruct (person_defaults_are_filled
              (JObj [("id", JNum 7); ("name", JStr "Ridley Scott")])
              (JObj [("id", JNum 7); ("name", JStr "Ridley Scott");
                     ("isDirector", JBool false); ("isActor", JBool false);
                     ("movies", JArr [])]) eq_refl)
    as (d & a & ms & Hd & Ha & Hm & Hdf & Haf & Hmf).
  exists d, a, ms.
  repeat split; [exact Hd | exact Ha | exact Hm | exact (Hdf eq_refl)
                | exact (Haf eq_refl) | exact (Hmf eq_refl)].
Defined.

Lemma parse_fields_is_Some fields shape :
  is_Some (parse_fields fields shape) <->
  Forall (fun kv => is_Some (parse kv.2 (assoc kv.1 fields))) shape.
Proof.
  induction shape as [| [k sk] shape IH]; cbn.
  - split; [constructor | eauto].
  - rewrite Forall_cons, <- IH. cbn.
    destruct (parse sk (assoc k fields)) as [x |];
      destruct (parse_fields fields shape) as [rest |];
      try destruct (has_key k fields || negb (is_undefined x));
      split; try (intros [? [=]]); try (intros [[? [=]] [? [=]]]); eauto.
Qed.

(** X30. The movie response schema, which extends the pagination schema
    with typed items, accepts only what the pagination schema accepts; and
    every item of the value it returns passes the movie schema as it is. *)
Theorem movie_response_is_paginated (v parsed : JsVal) :
  parse MovieResponseSchema v = Some parsed ->
  is_Some (parse PaginationSchema v) /\
  exists movies,
    opt_prop parsed "items" = JArr movies /\
    Forall (fun m => parse MovieSchema m = Some m) movies.
Proof.
  intros H.
  assert (exists fields, v = JObj fields) as [fields ->]
    by (destruct v; try discriminate H; eauto).
  change MovieResponseSchema with
    (z_object
       [("items", z_array MovieSchema); ("totalCount", z_number);
        ("pageNumber", z_number); ("pageSize", z_number);
        ("totalPages", z_number); ("hasPrevious", z_boolean);
        ("hasNext", z_boolean)]) in H.
  rewrite parse_object in H.
  match type of H with
  | JObj <$> parse_fields fields ?shape = _ =>
      destruct (parse_fields fields shape) as [out |] eqn:Hout;
        [| discriminate H];
      assert (NoDup shape.*1) as Hnd
        by (apply (bool_decide_unpack _); vm_compute; exact I);
      pose proof (parse_fields_assoc fields shape out Hnd Hout "items"
                    (z_array MovieSchema) ltac:(apply list_elem_of_here)) as Hitems;
      pose proof (proj1 (parse_fields_is_Some fields shape)
                    (ex_intro _ out Hout)) as Hall
  end.
  injection H as <-.
  destruct (assoc "items" fields) as [| | | | | elems |] eqn:Ei;
    try discriminate Hitems.
  change (parse (z_array MovieSchema) (JArr elems))
    with (JArr <$> mapM (parse MovieSchema) elems) in Hitems.
  destruct (mapM (parse MovieSchema) elems) as [movies |] eqn:Hm;
    [| discriminate Hitems].
  injection Hitems as Hitems.
  split.
  - unfold PaginationSchema. rewrite parse_object.
    apply fmap_is_Some, parse_fields_is_Some.
    apply Forall_cons in Hall as [_ Hall].
    constructor; [| exact Hall].
    cbn. rewrite Ei. cbn. rewrite mapM_Some_id. eauto.
  - exists movies. split; [cbn; now rewrite <- Hitems |].
    apply mapM_Some in Hm. clear -Hm.
    induction Hm as [| m m' l k Hmm' _ IH]; constructor; [| exact IH].
    apply (parse_idempotent_distinct MovieSchema) with (v := m); [| exact Hmm'].
    vm_compute. reflexivity.
Qed.

Lemma movie_response_is_paginated_witness :
  is_Some
    (parse PaginationSchema
       (page_body [movie_json 1 "Alien" [("rating", JNum 8)]; movie_json 2 "Brazil" []]
          25 1 10 3 false true)) /\
  exists movies,
    opt_prop
      (page_body [movie_json 1 "Alien" []; movie_json 2 "Brazil" []]
         25 1 10 3 false true) "items" = JArr movies /\
    Forall (fun m => parse MovieSchema m = Some m) movies.
Proof.
  apply (movie_response_is_paginated
           (page_body
              [movie_json 1 "Alien" [("rating", JNum 8)]; movie_json 2 "Brazil" []]
              25 1 10 3 false true)
           (page_body [movie_json 1 "Alien" []; movie_json 2 "Brazil" []]
              25 1 10 3 false true)).
  reflexivity.
Defined.

End SchemaBehaviour.
